(** * Superset engine specs and configuration registry: a shallow embedding

    The development follows three source files:
    - [superset/db_engine_specs/impala.py]  (module [Impala]),
    - [superset/db_engine_specs/mssql.py]   (module [Mssql]),
    - [superset/config.py]                  (module [Config]).

    Python [str] values are modelled as [string] (sequences of 8-bit
    characters; the character classes below are the ASCII ones), Python
    [int] as [Z], [dict] literals whose order matters as association lists,
    dictionaries used as maps as [gmap], and a call that may raise as a
    value of type [result]. *)

From Stdlib Require Import ZArith List Ascii String Bool Lia DecimalString.
From Stdlib Require DecimalPos DecimalN.
From stdpp Require Import base option list gmap strings fin_maps sorting.

Local Open Scope Z_scope.

(** ** Python strings *)

Module PyStr.

(** [s.startswith(p)] *)
Fixpoint startswith (p s : string) : bool :=
  match p, s with
  | EmptyString, _ => true
  | String a p', String b s' => if Ascii.eqb a b then startswith p' s' else false
  | String _ _, EmptyString => false
  end.

(** [sub in s]; also [re.search] of a pattern without metacharacters. *)
Fixpoint contains (sub s : string) : bool :=
  startswith sub s ||
  match s with
  | EmptyString => false
  | String _ s' => contains sub s'
  end.

(** [s[n:]] *)
Fixpoint drop (n : nat) (s : string) : string :=
  match n, s with
  | O, _ => s
  | S n', String _ s' => drop n' s'
  | S _, EmptyString => EmptyString
  end.

Definition newline : ascii := ascii_of_nat 10.
Definition dquote : ascii := ascii_of_nat 34.

Definition is_upper (c : ascii) : bool :=
  let n := nat_of_ascii c in (65 <=? n)%nat && (n <=? 90)%nat.
Definition is_lower (c : ascii) : bool :=
  let n := nat_of_ascii c in (97 <=? n)%nat && (n <=? 122)%nat.
Definition is_digit (c : ascii) : bool :=
  let n := nat_of_ascii c in (48 <=? n)%nat && (n <=? 57)%nat.

(** The class [\w] on ASCII text. *)
Definition is_word (c : ascii) : bool :=
  is_upper c || is_lower c || is_digit c || Ascii.eqb c "_".

Fixpoint forallb_str (f : ascii -> bool) (s : string) : bool :=
  match s with
  | EmptyString => true
  | String c s' => f c && forallb_str f s'
  end.

Fixpoint existsb_str (f : ascii -> bool) (s : string) : bool :=
  match s with
  | EmptyString => false
  | String c s' => f c || existsb_str f s'
  end.

(** [s.isupper()]: at least one cased character and no lowercase one. *)
Definition isupper (s : string) : bool :=
  existsb_str is_upper s && negb (existsb_str is_lower s).


(** [s[:n]] *)
Fixpoint take (n : nat) (s : string) : string :=
  match n, s with
  | O, _ => EmptyString
  | S n', String c s' => String c (take n' s')
  | S _, EmptyString => EmptyString
  end.

(** [int(s)] on a string of ASCII digits, most significant digit first. *)
Definition digit_value (c : ascii) : Z := Z.of_nat (nat_of_ascii c) - 48.

Fixpoint int_digits (acc : Z) (s : string) : Z :=
  match s with
  | EmptyString => acc
  | String c s' => int_digits (10 * acc + digit_value c) s'
  end.

Definition int (s : string) : Z := int_digits 0 s.

(** [str(n)] for a non-negative integer. *)
Definition str_of_nonneg (n : Z) : string :=
  NilEmpty.string_of_uint (N.to_uint (Z.to_N n)).

Fixpoint zeros (n : nat) : string :=
  match n with
  | O => EmptyString
  | S n' => String "0" (zeros n')
  end.

(** ["%0<w>d" % n] for a non-negative integer: padded on the left with
    zeros to at least [w] characters. *)
Definition zero_padded (w : nat) (n : Z) : string :=
  let s := str_of_nonneg n in
  zeros (w - String.length s)%nat +:+ s.

End PyStr.

(** ** Calls that may raise

    An exception object is an instance of a subclass of [Exception]; it
    carries the name of its class and its string form [str(ex)]. *)

Record PyException : Type := mkException {
  exc_class : string;
  exc_str : string
}.

Inductive result (A : Type) : Type :=
| Ok (a : A)
| Raise (e : PyException).
Arguments Ok {A} a.
Arguments Raise {A} e.

(** ** Regular expressions

    The fragment of Python's [re] syntax the three files use, matched by
    backtracking in the order [re] tries the alternatives. *)

Module PyRe.

Inductive charclass : Set :=
| AnyChar    (* .      any character but a newline *)
| Digit      (* [0-9]  *)
| Word.      (* \w     *)

Definition in_class (c : charclass) (a : ascii) : bool :=
  match c with
  | AnyChar => negb (Ascii.eqb a PyStr.newline)
  | Digit => PyStr.is_digit a
  | Word => PyStr.is_word a
  end.

Inductive regex : Type :=
| Lit (s : string)                    (* literal text (metacharacters escaped) *)
| Star (c : charclass)                (* c*   greedy *)
| LazyStar (c : charclass)            (* c*?  *)
| Plus (c : charclass)                (* c+   greedy *)
| Group (name : string) (r : regex)   (* (?P<name>r) *)
| NotAhead (r : regex)                (* (?!r) *)
| Bos                                 (* ^ *)
| Eos                                 (* $, without MULTILINE *)
| Seq (r1 r2 : regex).

Declare Scope re_scope.
Delimit Scope re_scope with re.
Bind Scope re_scope with regex.
Infix "&>" := Seq (at level 60, right associativity) : re_scope.

(** [match.groupdict()], in the order the groups were closed. *)
Definition groups := list (string * string).

Section Matcher.
Context {C : Type}.

(** Longest run first, then shorter ones. *)
Fixpoint star_greedy (p : ascii -> bool) (s : string) (k : string -> option C)
  : option C :=
  match s with
  | String a s' =>
      if p a then
        match star_greedy p s' k with
        | Some r => Some r
        | None => k s
        end
      else k s
  | EmptyString => k s
  end.

(** Shortest run first, then longer ones. *)
Fixpoint star_lazy (p : ascii -> bool) (s : string) (k : string -> option C)
  : option C :=
  match k s with
  | Some r => Some r
  | None =>
      match s with
      | String a s' => if p a then star_lazy p s' k else None
      | EmptyString => None
      end
  end.

End Matcher.

(** [$] matches at the end of the text and just before a newline that ends it. *)
Definition at_eos (s : string) : bool :=
  match s with
  | EmptyString => true
  | String a EmptyString => Ascii.eqb a PyStr.newline
  | _ => false
  end.

(** Match [r] at the head of [s] (a suffix of the text [whole]) and go on
    with [k] on what is left. *)
Fixpoint match_here (whole : string) (r : regex) (s : string) (g : groups)
    (k : string -> groups -> option groups) : option groups :=
  match r with
  | Lit l =>
      if PyStr.startswith l s then k (PyStr.drop (String.length l) s) g else None
  | Star c => star_greedy (in_class c) s (fun s' => k s' g)
  | LazyStar c => star_lazy (in_class c) s (fun s' => k s' g)
  | Plus c =>
      match s with
      | String a s' =>
          if in_class c a then star_greedy (in_class c) s' (fun s'' => k s'' g)
          else None
      | EmptyString => None
      end
  | Group name r' =>
      match_here whole r' s g
        (fun s' g' =>
           k s' (g' ++ [(name, PyStr.take (String.length s - String.length s')%nat s)])%list)
  | NotAhead r' =>
      match match_here whole r' s g (fun _ g' => Some g') with
      | Some _ => None
      | None => k s g
      end
  | Bos => if (String.length s =? String.length whole)%nat then k s g else None
  | Eos => if at_eos s then k s g else None
  | Seq r1 r2 =>
      match_here whole r1 s g (fun s' g' => match_here whole r2 s' g' k)
  end.

Definition accept : string -> groups -> option groups := fun _ g => Some g.

(** [pattern.match(s)]: a match at the start of [s]. *)
Definition re_match (r : regex) (s : string) : option groups :=
  match_here s r s [] accept.

Fixpoint search_from (whole : string) (r : regex) (s : string) : option groups :=
  match match_here whole r s [] accept with
  | Some g => Some g
  | None =>
      match s with
      | String _ s' => search_from whole r s'
      | EmptyString => None
      end
  end.

(** [pattern.search(s)]: the leftmost match. *)
Definition re_search (r : regex) (s : string) : option groups :=
  search_from s r s.

(** [groupdict()[name]] *)
Fixpoint group (name : string) (g : groups) : option string :=
  match g with
  | [] => None
  | (n, v) :: g' => if String.eqb n name then Some v else group name g'
  end.

End PyRe.

(** ** Time grains

    [superset.constants.TimeGrain] is an enumeration declared outside the
    files at hand; its members are the ones the two engine specs name. *)

Inductive TimeGrain : Set :=
| SECOND | MINUTE | FIVE_MINUTES | TEN_MINUTES | FIFTEEN_MINUTES
| THIRTY_MINUTES | HOUR | DAY | WEEK | MONTH | QUARTER | YEAR
| WEEK_STARTING_SUNDAY | WEEK_STARTING_MONDAY.

#[global] Instance TimeGrain_eq_dec : EqDecision TimeGrain.
Proof. solve_decision. Defined.

(** A [dict] literal, in source order; the key [None] is the "no grain" entry. *)
Definition grain_table := list (option TimeGrain * string).

(** [d.get(k)] on a dict built from a literal: a later duplicate of a key
    would replace the earlier value, so the last entry for [k] is the one
    found. *)
Fixpoint dict_get {K V} `{EqDecision K} (d : list (K * V)) (k : K) : option V :=
  match d with
  | [] => None
  | (k', v) :: d' =>
      match dict_get d' k with
      | Some w => Some w
      | None => if decide (k' = k) then Some v else None
      end
  end.

(** Thirteen blanks: the one before the backslash-newline continuation of
    the literal and the twelve that indent its next line. *)
Definition continuation_gap : string := "             ".

(** ** Writer-and-error runs

    A run of effectful code: the calls it made on the outside world with
    what they returned, in order, and how it ended. *)

Section Runs.
Context {E : Type}.

Record Run (A : Type) : Type := mkRun {
  trace : list E;
  outcome : result A
}.
Arguments mkRun {A} trace outcome.
Arguments trace {A} r.
Arguments outcome {A} r.

Definition run_ret {A} (a : A) : Run A := mkRun [] (Ok a).

Definition run_bind {A B} (m : Run A) (f : A -> Run B) : Run B :=
  match outcome m with
  | Ok a => mkRun (trace m ++ trace (f a)) (outcome (f a))
  | Raise e => mkRun (trace m) (Raise e)
  end.

(** A call on the outside world, recorded with its answer. *)
Definition call {A} (ev : result A -> E) (r : result A) : Run A := mkRun [ev r] r.

(** An effect that cannot fail. *)
Definition emit (e : E) : Run unit := mkRun [e] (Ok tt).

Definition raise {A} (e : PyException) : Run A := mkRun [] (Raise e).

(** [try: m  except Exception as e: h e] *)
Definition try_except {A} (m : Run A) (h : PyException -> Run A) : Run A :=
  match outcome m with
  | Ok a => m
  | Raise e => mkRun (trace m ++ trace (h e)) (outcome (h e))
  end.

End Runs.

Arguments Run E A : clear implicits.
Arguments mkRun {E A} trace outcome.
Arguments trace {E A} r.
Arguments outcome {E A} r.

Notation "x <- m ;; k" := (run_bind m (fun x => k))
  (at level 100, m at next level, right associativity).

(** ** impala.py *)

Module Impala.

Import PyRe.

Definition engine : string := "impala".
Definition engine_name : string := "Apache Impala".

(** [re.compile(r"Query.*: (?P<query_progress>[0-9]+)%")] *)
Definition QUERY_PROGRESS_REGEX : regex :=
  (Lit "Query" &> Star AnyChar &> Lit ": " &>
   Group "query_progress" (Plus Digit) &> Lit "%")%re.

Definition _time_grain_expressions : grain_table :=
  [ (None, "{col}");
    (Some MINUTE, "TRUNC({col}, 'MI')");
    (Some HOUR, "TRUNC({col}, 'HH')");
    (Some DAY, "TRUNC({col}, 'DD')");
    (Some WEEK, "TRUNC({col}, 'WW')");
    (Some MONTH, "TRUNC({col}, 'MONTH')");
    (Some QUARTER, "TRUNC({col}, 'Q')");
    (Some YEAR, "TRUNC({col}, 'YYYY')") ].

(** *** [handle_cursor] *)

(** The row of [superset.models.sql_lab.Query] as [handle_cursor] uses it;
    [q_extra] holds the truth value of each entry of [query.extra]. *)
Record Query : Type := mkQuery {
  q_id : Z;
  q_progress : Z;
  q_extra : gmap string bool
}.

Inductive event : Type :=
| CursorStatus (r : result string)          (* cursor.status() *)
| SessionRefresh (r : result Query)         (* db.session.refresh(query) *)
| SessionQueryOne (r : result Query)        (* db.session.query(Query)...one() *)
| CancelOperation (r : result unit)         (* cursor.cancel_operation() *)
| CloseOperation (r : result unit)          (* cursor.close_operation() *)
| CursorClose (r : result unit)             (* cursor.close() *)
| GetLog (r : result (option string))       (* cursor.get_log() *)
| LogWarning (msg : string)                 (* logger.warning *)
| LogDebug (msg : string) (args : list Z)   (* logger.debug *)
| SetProgress (old new : Z)                 (* query.progress = progress *)
| SessionCommit (r : result unit)           (* db.session.commit() *)
| Sleep (seconds : Z).                      (* time.sleep *)

(** What the cursor, the database session and the application configuration
    answer. [cursor_status n] is the answer to the [n]-th call of
    [cursor.status()] (the call before the loop is number 0); the other
    answers are indexed by the iteration of the loop that asks. A reload of
    the row sees whatever other writers have stored since. *)
Record World : Type := mkWorld {
  cursor_status : nat -> result string;
  session_refresh : nat -> Query -> result Query;
  session_query_one : nat -> Query -> result Query;
  cursor_cancel_operation : nat -> result unit;
  cursor_close_operation : nat -> result unit;
  cursor_close : nat -> result unit;
  cursor_get_log : nat -> result (option string);
  session_commit : nat -> Query -> result unit;
  DB_POLL_INTERVAL_SECONDS : result (gmap string Z)
}.

Definition unfinished_states : list string :=
  ["INITIALIZED_STATE"; "RUNNING_STATE"].

(** [status in unfinished_states] *)
Definition is_unfinished (status : string) : bool :=
  existsb (String.eqb status) unfinished_states.

(** The local variables of [handle_cursor] that live across iterations;
    [progress] is unbound until a log line first matches. *)
Record locals : Type := mkLocals {
  query : Query;
  progress : option Z
}.

Inductive control : Type :=
| Break
| Next (status : string).

(** A read of the local variable [progress]. *)
Definition read_progress (p : option Z) : Run event Z :=
  match p with
  | Some v => run_ret v
  | None =>
      raise (mkException "UnboundLocalError"
               "cannot access local variable 'progress' where it is not associated with a value")
  end.

(** [time.sleep(secs)] *)
Definition time_sleep (secs : Z) : Run event unit :=
  if secs <? 0 then
    raise (mkException "ValueError" "sleep length must be non-negative")
  else emit (Sleep secs).

(** [app.config["DB_POLL_INTERVAL_SECONDS"].get(cls.engine, 5)] *)
Definition sleep_interval (w : World) : Run event Z :=
  match DB_POLL_INTERVAL_SECONDS w with
  | Ok d => run_ret (default 5 (d !! engine))
  | Raise e => raise e
  end.

(** [QUERY_PROGRESS_REGEX.match(log)] and, on a match,
    [int(match.groupdict()["query_progress"])]. *)
Definition parse_progress (log : string) : option Z :=
  match re_match QUERY_PROGRESS_REGEX log with
  | Some g => option_map PyStr.int (group "query_progress" g)
  | None => None
  end.

Section HandleCursor.

(** [superset.constants.QUERY_EARLY_CANCEL_KEY], a constant declared
    outside the files at hand. *)
Variable QUERY_EARLY_CANCEL_KEY : string.

(** [query.extra.get(QUERY_EARLY_CANCEL_KEY)] as a condition. *)
Definition early_cancel (q : Query) : bool :=
  default false (q_extra q !! QUERY_EARLY_CANCEL_KEY).

(** The part of an iteration after the cancel check, from [get_log] to the
    commit. *)
Definition update_progress (w : World) (i : nat) (query_id : Z) (l : locals)
  : Run event locals :=
  log <- try_except
           (r <- call GetLog (cursor_get_log w i) ;;
            run_ret (default "" r))
           (fun _ =>
              _ <- emit (LogWarning "Call to GetLog() failed") ;;
              run_ret "") ;;
  if String.eqb log "" then run_ret l
  else
    let progress' :=
      match parse_progress log with
      | Some p => Some p
      | None => progress l
      end in
    p <- read_progress progress' ;;
    _ <- emit (LogDebug "Query %s: Progress total: %s" [query_id; p]) ;;
    if q_progress (query l) <? p then
      _ <- emit (SetProgress (q_progress (query l)) p) ;;
      let query' := mkQuery (q_id (query l)) p (q_extra (query l)) in
      _ <- call SessionCommit (session_commit w i query') ;;
      run_ret (mkLocals query' progress')
    else run_ret (mkLocals (query l) progress').

(** One iteration of the [while] loop of [handle_cursor]. *)
Definition loop_body (w : World) (i : nat) (query_id : Z) (l : locals)
  : Run event (control * locals) :=
  q1 <- call SessionRefresh (session_refresh w i (query l)) ;;
  q2 <- call SessionQueryOne (session_query_one w i q1) ;;
  if early_cancel q2 then
    _ <- call CancelOperation (cursor_cancel_operation w i) ;;
    _ <- call CloseOperation (cursor_close_operation w i) ;;
    _ <- call CursorClose (cursor_close w i) ;;
    run_ret (Break, mkLocals q2 (progress l))
  else
    l' <- update_progress w i query_id (mkLocals q2 (progress l)) ;;
    secs <- sleep_interval w ;;
    _ <- time_sleep secs ;;
    status <- call CursorStatus (cursor_status w (S i)) ;;
    run_ret (Next status, l').

(** [while status in unfinished_states: ...], with [fuel] bounding the
    number of iterations; [None] when the bound is reached. *)
Fixpoint while_loop (fuel : nat) (w : World) (i : nat) (query_id : Z)
    (status : string) (l : locals) : option (Run event locals) :=
  if is_unfinished status then
    match fuel with
    | O => None
    | S fuel' =>
        let b := loop_body w i query_id l in
        match outcome b with
        | Raise e => Some (mkRun (trace b) (Raise e))
        | Ok (Break, l') => Some (mkRun (trace b) (Ok l'))
        | Ok (Next status', l') =>
            match while_loop fuel' w (S i) query_id status' l' with
            | Some r => Some (mkRun (trace b ++ trace r) (outcome r))
            | None => None
            end
        end
    end
  else Some (run_ret l).

(** The body of the [try] statement. *)
Definition polling (fuel : nat) (w : World) (q : Query)
  : option (Run event unit) :=
  let query_id := q_id q in
  match cursor_status w 0 with
  | Raise e => Some (mkRun [CursorStatus (Raise e)] (Raise e))
  | Ok status =>
      match while_loop fuel w 0 query_id status (mkLocals q None) with
      | Some r =>
          Some (mkRun (CursorStatus (Ok status) :: trace r)
                  (match outcome r with Ok _ => Ok tt | Raise e => Raise e end))
      | None => None
      end
  end.

(** [ImpalaEngineSpec.handle_cursor(cursor, query)] *)
Definition handle_cursor (fuel : nat) (w : World) (q : Query)
  : option (Run event unit) :=
  match polling fuel w q with
  | Some r =>
      Some (try_except r
              (fun _ => emit (LogDebug "Call to status() failed " [])))
  | None => None
  end.

End HandleCursor.

(** *** What a trace of [handle_cursor] is held to *)


Definition status_failed : event := LogDebug "Call to status() failed " [].

(** Neither a status poll nor a sleep. *)
Definition is_quiet (e : event) : bool :=
  match e with
  | CursorStatus _ | Sleep _ => false
  | _ => true
  end.

Definition quiet (tr : list event) : Prop := Forall (fun e => is_quiet e = true) tr.

(** None of the calls of an early cancel. *)
Definition is_cancel_call (e : event) : bool :=
  match e with
  | CancelOperation _ | CloseOperation _ | CursorClose _ => true
  | _ => false
  end.

Definition uncancelled (tr : list event) : Prop :=
  Forall (fun e => is_cancel_call e = false) tr.

(** The record of a caught exception, when the run raised. *)
Definition closing {A} (r : Run event A) : list event :=
  match outcome r with
  | Ok _ => []
  | Raise _ => [status_failed]
  end.



(** Every write of [query.progress] raises the value and is committed at
    once, and nothing else is committed. *)
Fixpoint writes_increase_and_commit (tr : list event) : Prop :=
  match tr with
  | [] => True
  | SetProgress old new :: SessionCommit _ :: tr' =>
      old < new /\ writes_increase_and_commit tr'
  | SetProgress _ _ :: _ => False
  | SessionCommit _ :: _ => False
  | _ :: tr' => writes_increase_and_commit tr'
  end.

(** Every write of [query.progress] stores the value parsed from the log
    that was fetched last ([log], at the start of the trace). *)
Fixpoint writes_fresh (log : option string) (tr : list event) : Prop :=
  match tr with
  | [] => True
  | GetLog r :: tr' =>
      writes_fresh (match r with Ok (Some l) => Some l | _ => None end) tr'
  | SetProgress _ new :: tr' =>
      (exists l, log = Some l /\ parse_progress l = Some new) /\
      writes_fresh log tr'
  | _ :: tr' => writes_fresh log tr'
  end.

(** The value of [query.progress] never goes down along the trace, from
    [cur] on: not when the row is reloaded, and not when it is written (a
    write records the value it replaces). *)
Fixpoint never_decreases (cur : Z) (tr : list event) : Prop :=
  match tr with
  | [] => True
  | SessionRefresh (Ok q) :: tr' =>
      cur <= q_progress q /\ never_decreases (q_progress q) tr'
  | SessionQueryOne (Ok q) :: tr' =>
      cur <= q_progress q /\ never_decreases (q_progress q) tr'
  | SetProgress old new :: tr' =>
      old = cur /\ cur <= new /\ never_decreases new tr'
  | _ :: tr' => never_decreases cur tr'
  end.

(** The value of [query.progress] at the end of a trace that starts with
    the value [cur]. *)
Fixpoint final_progress (cur : Z) (tr : list event) : Z :=
  match tr with
  | [] => cur
  | SessionRefresh (Ok q) :: tr' => final_progress (q_progress q) tr'
  | SessionQueryOne (Ok q) :: tr' => final_progress (q_progress q) tr'
  | SetProgress _ new :: tr' => final_progress new tr'
  | _ :: tr' => final_progress cur tr'
  end.

(** The local [progress], once bound, is no more than the progress of the
    row. *)
Definition progress_bounded (l : locals) : Prop :=
  forall p, progress l = Some p -> p <= q_progress (query l).


(** *** [cancel_query] *)






End Impala.

(** ** mssql.py *)

Module Mssql.

Import PyRe.

(** The classes of the file; [AzureSynapseSpec] inherits every method and
    table of [MssqlEngineSpec]. *)
Inductive cls : Set := MssqlEngineSpec | AzureSynapseSpec.

Definition engine (c : cls) : string :=
  match c with
  | MssqlEngineSpec => "mssql"
  | AzureSynapseSpec => "mssql"
  end.

Definition engine_name (c : cls) : string :=
  match c with
  | MssqlEngineSpec => "Microsoft SQL Server"
  | AzureSynapseSpec => "Azure Synapse"
  end.

(** Regular expressions to catch custom errors *)
Definition CONNECTION_ACCESS_DENIED_REGEX : regex :=
  Lit "Adaptive Server connection failed".

Definition CONNECTION_INVALID_HOSTNAME_REGEX : regex :=
  (Lit "Adaptive Server is unavailable or does not exist (" &>
   Group "hostname" (LazyStar AnyChar) &> Lit ")" &>
   NotAhead (Star AnyChar &> Lit "Net-Lib error") &> Star AnyChar &> Eos)%re.

Definition CONNECTION_PORT_CLOSED_REGEX : regex :=
  Lit "Net-Lib error during Connection refused (61)".

Definition CONNECTION_HOST_DOWN_REGEX : regex :=
  Lit "Net-Lib error during Operation timed out (60)".

(** What the hostname pattern asks of a message, in words: the fixed text
    up to the opening bracket, a host name [h] without a newline, the
    closing bracket, and a remainder [t] that stays on the same line
    (nothing but an optional last newline ends it) and in which no
    ["Net-Lib error"] follows. *)
Definition no_newline (s : string) : bool :=
  PyStr.forallb_str (in_class AnyChar) s.

Definition ends_line (t : string) : Prop :=
  exists a b, t = a +:+ b /\ no_newline a = true /\ at_eos b = true.

Definition net_lib_ahead (t : string) : Prop :=
  exists a b, t = a +:+ "Net-Lib error" +:+ b /\ no_newline a = true.

Definition names_unresolved_host (s h : string) : Prop :=
  exists t,
    s = "Adaptive Server is unavailable or does not exist (" +:+ h +:+ ")" +:+ t /\
    no_newline h = true /\ ~ net_lib_ahead t /\ ends_line t.

Definition _time_grain_expressions : grain_table :=
  [ (None, "{col}");
    (Some SECOND,
      "DATEADD(SECOND," +:+ continuation_gap +:+
      "DATEDIFF(SECOND, '2000-01-01', {col}), '2000-01-01')");
    (Some MINUTE, "DATEADD(MINUTE, DATEDIFF(MINUTE, 0, {col}), 0)");
    (Some FIVE_MINUTES,
      "DATEADD(MINUTE," +:+ continuation_gap +:+
      "DATEDIFF(MINUTE, 0, {col}) / 5 * 5, 0)");
    (Some TEN_MINUTES,
      "DATEADD(MINUTE," +:+ continuation_gap +:+
      "DATEDIFF(MINUTE, 0, {col}) / 10 * 10, 0)");
    (Some FIFTEEN_MINUTES,
      "DATEADD(MINUTE," +:+ continuation_gap +:+
      "DATEDIFF(MINUTE, 0, {col}) / 15 * 15, 0)");
    (Some THIRTY_MINUTES,
      "DATEADD(MINUTE," +:+ continuation_gap +:+
      "DATEDIFF(MINUTE, 0, {col}) / 30 * 30, 0)");
    (Some HOUR, "DATEADD(HOUR, DATEDIFF(HOUR, 0, {col}), 0)");
    (Some DAY, "DATEADD(DAY, DATEDIFF(DAY, 0, {col}), 0)");
    (Some WEEK,
      "DATEADD(DAY, 1 - DATEPART(WEEKDAY, {col})," +:+
      " DATEADD(DAY, DATEDIFF(DAY, 0, {col}), 0))");
    (Some MONTH, "DATEADD(MONTH, DATEDIFF(MONTH, 0, {col}), 0)");
    (Some QUARTER, "DATEADD(QUARTER, DATEDIFF(QUARTER, 0, {col}), 0)");
    (Some YEAR, "DATEADD(YEAR, DATEDIFF(YEAR, 0, {col}), 0)");
    (Some WEEK_STARTING_SUNDAY,
      "DATEADD(DAY, -1," +:+
      " DATEADD(WEEK, DATEDIFF(WEEK, 0, {col}), 0))");
    (Some WEEK_STARTING_MONDAY,
      "DATEADD(WEEK," +:+
      " DATEDIFF(WEEK, 0, DATEADD(DAY, -1, {col})), 0)") ].

(** *** [custom_errors] *)

(** The members of [superset.errors.SupersetErrorType] that the file names. *)
Inductive SupersetErrorType : Set :=
| CONNECTION_ACCESS_DENIED_ERROR
| CONNECTION_INVALID_HOSTNAME_ERROR
| CONNECTION_PORT_CLOSED_ERROR
| CONNECTION_HOST_DOWN_ERROR.

#[global] Instance SupersetErrorType_eq_dec : EqDecision SupersetErrorType.
Proof. solve_decision. Defined.

(** A [%]-format string, cut at its [%(name)s] fields. *)
Inductive segment : Type :=
| Text (s : string)
| Field (name : string).

Definition template := list segment.

Definition dq : string := String PyStr.dquote EmptyString.

(** The dict literal, in source order: pattern, message, error type (the
    fourth component, an empty dict everywhere, is left out). *)
Definition custom_errors : list (regex * (template * SupersetErrorType)) :=
  [ (CONNECTION_ACCESS_DENIED_REGEX,
      ([ Text ("Either the username " +:+ dq); Field "username";
         Text (dq +:+ ", password, " +:+ "or database name " +:+ dq);
         Field "database"; Text (dq +:+ " is incorrect.") ],
       CONNECTION_ACCESS_DENIED_ERROR));
    (CONNECTION_INVALID_HOSTNAME_REGEX,
      ([ Text ("The hostname " +:+ dq); Field "hostname";
         Text (dq +:+ " cannot be resolved.") ],
       CONNECTION_INVALID_HOSTNAME_ERROR));
    (CONNECTION_PORT_CLOSED_REGEX,
      ([ Text "Port "; Field "port"; Text (" on hostname " +:+ dq);
         Field "hostname"; Text (dq +:+ " refused the connection.") ],
       CONNECTION_PORT_CLOSED_ERROR));
    (CONNECTION_HOST_DOWN_REGEX,
      ([ Text ("The host " +:+ dq); Field "hostname";
         Text (dq +:+ " might be down, and can't be " +:+
               "reached on port ");
         Field "port"; Text "." ],
       CONNECTION_HOST_DOWN_ERROR)) ].

(** [message % params] *)
Fixpoint percent_format (t : template) (params : gmap string string)
  : result string :=
  match t with
  | [] => Ok ""
  | Text s :: t' =>
      match percent_format t' params with
      | Ok r => Ok (s +:+ r)
      | Raise e => Raise e
      end
  | Field name :: t' =>
      match params !! name with
      | None => Raise (mkException "KeyError" name)
      | Some v =>
          match percent_format t' params with
          | Ok r => Ok (v +:+ r)
          | Raise e => Raise e
          end
      end
  end.

(** [{**context, **match.groupdict()}] *)
Definition merge_params (context : gmap string string) (g : groups)
  : gmap string string :=
  foldl (fun m kv => <[kv.1 := kv.2]> m) context g.

Record SupersetError : Type := mkSupersetError {
  error_type : SupersetErrorType;
  message : string
}.

(** Modelled from the spec: [BaseEngineSpec.extract_errors], the
    classification of a raw error message, is not in the files at hand. The
    spec calls it a regex-based dispatch table over the engine spec's error
    message patterns: the entries of [custom_errors] are tried in the order
    of the table with [pattern.search], and the first pattern that matches
    decides the error type and supplies the named groups for the message;
    [None] when no pattern matches (the message is then not classified by
    this table). *)
Fixpoint dispatch (table : list (regex * (template * SupersetErrorType)))
    (raw_message : string) : option (template * SupersetErrorType * groups) :=
  match table with
  | [] => None
  | (pattern, (msg, ty)) :: table' =>
      match re_search pattern raw_message with
      | Some g => Some (msg, ty, g)
      | None => dispatch table' raw_message
      end
  end.

Definition classify (raw_message : string) : option SupersetErrorType :=
  option_map (fun r => snd (fst r)) (dispatch custom_errors raw_message).

(** [bool(pattern.search(raw_message))] *)
Definition matches (pattern : regex) (raw_message : string) : bool :=
  match re_search pattern raw_message with
  | Some _ => true
  | None => false
  end.

(** Classification by each pattern on its own: an error type is given
    exactly when its pattern matches, whatever the other patterns do. *)
Definition classified_by_own_pattern (raw_message : string) : Prop :=
  (classify raw_message = Some CONNECTION_ACCESS_DENIED_ERROR <->
   matches CONNECTION_ACCESS_DENIED_REGEX raw_message = true) /\
  (classify raw_message = Some CONNECTION_INVALID_HOSTNAME_ERROR <->
   matches CONNECTION_INVALID_HOSTNAME_REGEX raw_message = true) /\
  (classify raw_message = Some CONNECTION_PORT_CLOSED_ERROR <->
   matches CONNECTION_PORT_CLOSED_REGEX raw_message = true) /\
  (classify raw_message = Some CONNECTION_HOST_DOWN_ERROR <->
   matches CONNECTION_HOST_DOWN_REGEX raw_message = true).

Definition extract_errors (raw_message : string) (context : gmap string string)
  : option (result SupersetError) :=
  match dispatch custom_errors raw_message with
  | None => None
  | Some (msg, ty, g) =>
      Some match percent_format msg (merge_params context g) with
           | Ok m => Ok (mkSupersetError ty m)
           | Raise e => Raise e
           end
  end.

(** *** [convert_dttm] *)

(** The SQLAlchemy column types that matter here, with their base classes:
    [SMALLDATETIME] (of the mssql dialect) and [TIMESTAMP] derive from
    [DateTime]; [Date] and [DateTime] are unrelated. *)
Inductive sqla_type : Set :=
| types_Date | types_DateTime | SMALLDATETIME | types_TIMESTAMP
| types_Time | types_String | types_Integer | GUID.

#[global] Instance sqla_type_eq_dec : EqDecision sqla_type.
Proof. solve_decision. Defined.

Definition bases (t : sqla_type) : list sqla_type :=
  match t with
  | SMALLDATETIME => [types_DateTime]
  | types_TIMESTAMP => [types_DateTime]
  | _ => []
  end.

(** [isinstance(obj, c)], where [obj] is [None] or an instance of a class. *)
Definition isinstance (obj : option sqla_type) (c : sqla_type) : bool :=
  match obj with
  | None => false
  | Some t => bool_decide (t = c) || bool_decide (c ∈ bases t)
  end.

(** A [datetime.datetime]; [utcoffset] is [None] for a naive value and
    otherwise the offset from UTC in microseconds. *)
Record datetime : Type := mkDatetime {
  year : Z; month : Z; day : Z;
  hour : Z; minute : Z; second : Z; microsecond : Z;
  utcoffset : option Z
}.

(** [dttm.date().isoformat()] *)
Definition date_isoformat (d : datetime) : string :=
  PyStr.zero_padded 4 (year d) +:+ "-" +:+ PyStr.zero_padded 2 (month d) +:+
  "-" +:+ PyStr.zero_padded 2 (day d).

(** The UTC offset as [isoformat] prints it. *)
Definition format_offset (off : option Z) : string :=
  match off with
  | None => ""
  | Some o =>
      let sign := if o <? 0 then "-" else "+" in
      let a := Z.abs o in
      let hh := a / 3600000000 in
      let mm := (a mod 3600000000) / 60000000 in
      let ss := (a mod 3600000000) mod 60000000 in
      sign +:+ PyStr.zero_padded 2 hh +:+ ":" +:+ PyStr.zero_padded 2 mm +:+
      (if ss =? 0 then ""
       else ":" +:+ PyStr.zero_padded 2 (ss / 1000000) +:+
            (if ss mod 1000000 =? 0 then ""
             else "." +:+ PyStr.zero_padded 6 (ss mod 1000000)))
  end.

Definition time_seconds (d : datetime) : string :=
  PyStr.zero_padded 2 (hour d) +:+ ":" +:+ PyStr.zero_padded 2 (minute d) +:+
  ":" +:+ PyStr.zero_padded 2 (second d).

(** [dttm.isoformat(sep=sep, timespec="seconds")] *)
Definition isoformat_seconds (sep : string) (d : datetime) : string :=
  date_isoformat d +:+ sep +:+ time_seconds d +:+ format_offset (utcoffset d).

(** [dttm.isoformat(timespec="milliseconds")] *)
Definition isoformat_milliseconds (d : datetime) : string :=
  date_isoformat d +:+ "T" +:+ time_seconds d +:+ "." +:+
  PyStr.zero_padded 3 (microsecond d / 1000) +:+ format_offset (utcoffset d).

Section Methods.

(** [cls.get_sqla_column_type], inherited from [BaseEngineSpec]: the
    SQLAlchemy type a column type string denotes, [None] when it denotes
    none. *)
Variable get_sqla_column_type : cls -> string -> option sqla_type.

(** [cls._extract_error_message], inherited from [BaseEngineSpec]. *)
Variable _extract_error_message : cls -> PyException -> string.

Definition convert_dttm (c : cls) (target_type : string) (dttm : datetime)
  : option string :=
  let sqla_type := get_sqla_column_type c target_type in
  if isinstance sqla_type types_Date then
    Some ("CONVERT(DATE, '" +:+ date_isoformat dttm +:+ "', 23)")
  else if isinstance sqla_type SMALLDATETIME then
    let datetime_formatted := isoformat_seconds " " dttm in
    Some ("CONVERT(SMALLDATETIME, '" +:+ datetime_formatted +:+ "', 20)")
  else if isinstance sqla_type types_DateTime then
    let datetime_formatted := isoformat_milliseconds dttm in
    Some ("CONVERT(DATETIME, '" +:+ datetime_formatted +:+ "', 126)")
  else None.

Definition extract_error_message (c : cls) (ex : PyException) : string :=
  if PyStr.startswith "(8155," (exc_str ex) then
    engine c +:+ " error: All your SQL functions need to " +:+
    "have an alias on MSSQL. For example: SELECT COUNT(*) AS C1 FROM TABLE1"
  else
    engine c +:+ " error: " +:+ _extract_error_message c ex.

End Methods.

End Mssql.

(** ** Time-grain translation *)

(** The engine spec classes of the two files. *)
Inductive EngineSpec : Set :=
| ImpalaEngineSpec
| MssqlClass (c : Mssql.cls).

Definition time_grain_expressions (e : EngineSpec) : grain_table :=
  match e with
  | ImpalaEngineSpec => Impala._time_grain_expressions
  | MssqlClass _ => Mssql._time_grain_expressions
  end.

(** The template of a time grain for an engine: the entry of the engine's
    table. *)
Definition time_grain_template (e : EngineSpec) (g : option TimeGrain)
  : option string :=
  dict_get (time_grain_expressions e) g.

(** A grain is supported by an engine when the engine's table has it as a key. *)
Definition supported (e : EngineSpec) (g : option TimeGrain) : Prop :=
  In g (map fst (time_grain_expressions e)).

(** ** config.py *)

Module Config.

Import PyRe.

(** The values a configuration name may hold, as far as the development
    looks into them. *)
#[warnings="-register-all"]
Inductive value : Type :=
| VNone
| VBool (b : bool)
| VInt (n : Z)
| VStr (s : string)
| VList (l : list value)
| VFlags (d : gmap string bool)
| VObject (repr : string).

Definition CONFIG_PATH_ENV_VAR : string := "SUPERSET_CONFIG_PATH".

(** A dict built from key-value pairs in order: a later pair replaces an
    earlier one with the same key. *)
Definition dict_of_items {V} (items : list (string * V)) : gmap string V :=
  foldl (fun d kv => <[kv.1 := kv.2]> d) ∅ items.

(** [d.update(new)] *)
Definition dict_update {V} (d new : gmap string V) : gmap string V := new ∪ d.

(** *** Feature flags *)

(** The literal that first binds [DEFAULT_FEATURE_FLAGS]. *)
Definition DEFAULT_FEATURE_FLAGS_literal : list (string * bool) :=
  [
    ("DRUID_JOINS", false);
    ("DYNAMIC_PLUGINS", false);
    ("ENABLE_TEMPLATE_PROCESSING", false);
    ("ENABLE_JAVASCRIPT_CONTROLS", false);
    ("PRESTO_EXPAND_DATA", false);
    ("THUMBNAILS", false);
    ("ENABLE_DASHBOARD_SCREENSHOT_ENDPOINTS", false);
    ("ENABLE_DASHBOARD_DOWNLOAD_WEBDRIVER_SCREENSHOT", false);
    ("TAGGING_SYSTEM", false);
    ("SQLLAB_BACKEND_PERSISTENCE", true);
    ("LISTVIEWS_DEFAULT_CARD_VIEW", false);
    ("ESCAPE_MARKDOWN_HTML", false);
    ("DASHBOARD_VIRTUALIZATION", true);
    ("GLOBAL_ASYNC_QUERIES", false);
    ("EMBEDDED_SUPERSET", false);
    ("ALERT_REPORTS", false);
    ("ALERT_REPORT_TABS", false);
    ("ALERT_REPORT_SLACK_V2", false);
    ("DASHBOARD_RBAC", false);
    ("ENABLE_ADVANCED_DATA_TYPES", false);
    ("ALERTS_ATTACH_REPORTS", true);
    ("ALLOW_FULL_CSV_EXPORT", false);
    ("ALLOW_ADHOC_SUBQUERY", false);
    ("USE_ANALOGOUS_COLORS", false);
    ("RLS_IN_SQLLAB", false);
    ("OPTIMIZE_SQL", false);
    ("IMPERSONATE_WITH_EMAIL_PREFIX", false);
    ("CACHE_IMPERSONATION", false);
    ("CACHE_QUERY_BY_USER", false);
    ("EMBEDDABLE_CHARTS", true);
    ("DRILL_TO_DETAIL", true);
    ("DRILL_BY", true);
    ("DATAPANEL_CLOSED_BY_DEFAULT", false);
    ("FILTERBAR_CLOSED_BY_DEFAULT", false);
    ("ESTIMATE_QUERY_COST", false);
    ("SSH_TUNNELING", false);
    ("AVOID_COLORS_COLLISION", true);
    ("MENU_HIDE_USER_INFO", false);
    ("ENABLE_SUPERSET_META_DB", false);
    ("PLAYWRIGHT_REPORTS_AND_THUMBNAILS", false);
    ("CHART_PLUGINS_EXPERIMENTAL", false);
    ("SQLLAB_FORCE_RUN_ASYNC", false);
    ("ENABLE_FACTORY_RESET_COMMAND", false);
    ("SLACK_ENABLE_AVATARS", false);
    ("CSS_TEMPLATES", true);
    ("DATE_FORMAT_IN_EMAIL_SUBJECT", false);
    ("DATASET_FOLDERS", false);
    ("AG_GRID_TABLE_ENABLED", false);
    ("TABLE_V2_TIME_COMPARISON_ENABLED", false) ].

(** [r"^SUPERSET_FEATURE_\w+"] *)
Definition SUPERSET_FEATURE_REGEX : regex :=
  (Bos &> Lit "SUPERSET_FEATURE_" &> Plus Word)%re.

(** An environment variable names the feature flag [flag] when its name is
    [SUPERSET_FEATURE_] followed by [flag], and [flag] starts with a word
    character. *)
Definition names_feature_flag (name flag : string) : Prop :=
  name = "SUPERSET_FEATURE_" +:+ flag /\
  exists c rest, flag = String c rest /\ PyStr.is_word c = true.

Section FeatureFlags.

(** [superset.utils.core.parse_boolean_string], defined outside the files
    at hand. *)
Variable parse_boolean_string : string -> bool.

(** One step of the comprehension over [os.environ.items()]. *)
Definition env_flag (kv : string * string) : option (string * bool) :=
  match re_search SUPERSET_FEATURE_REGEX kv.1 with
  | Some _ =>
      Some (PyStr.drop (String.length "SUPERSET_FEATURE_") kv.1,
            parse_boolean_string kv.2)
  | None => None
  end.

Definition environ_feature_flags (environ : gmap string string)
  : gmap string bool :=
  dict_of_items (omap env_flag (map_to_list environ)).

(** [DEFAULT_FEATURE_FLAGS] once the literal and the [update] statement
    have run. *)
Definition DEFAULT_FEATURE_FLAGS (environ : gmap string string)
  : gmap string bool :=
  dict_update (dict_of_items DEFAULT_FEATURE_FLAGS_literal)
              (environ_feature_flags environ).

End FeatureFlags.

(** *** The override block *)

(** What the import machinery finds: [exec_file path] is the namespace of
    the module executed from the file at [path] ([spec_from_file_location],
    [module_from_spec], [exec_module]), or the exception that raises;
    [superset_config] is [None] when [find_spec("superset_config")] finds
    nothing, and otherwise what importing the module gives. *)
Record Importer : Type := mkImporter {
  exec_file : string -> result (gmap string value);
  superset_config : option (result (gmap string value))
}.

(** [dir(module)]: the names of the module, sorted. *)
Definition dir (m : gmap string value) : list string :=
  merge_sort String.le ((map_to_list m).*1).

(** The body of [for key in dir(override_conf)]. *)
Definition copy_upper (override_conf : gmap string value)
    (module : gmap string value) (key : string) : gmap string value :=
  let module := <["key" := VStr key]> module in
  if PyStr.isupper key then
    match override_conf !! key with
    | Some v => <[key := v]> module
    | None => module
    end
  else module.

Fixpoint characters (s : string) : list string :=
  match s with
  | EmptyString => []
  | String c s' => String c EmptyString :: characters s'
  end.

Fixpoint names_of (l : list value) : result (list string) :=
  match l with
  | [] => Ok []
  | VStr s :: l' =>
      match names_of l' with
      | Ok r => Ok (s :: r)
      | Raise e => Raise e
      end
  | _ :: _ => Raise (mkException "TypeError" "Item in __all__ must be str")
  end.

(** The names [from m import *] binds: those listed by [__all__] when the
    module defines it, and otherwise those that do not begin with an
    underscore. *)
Definition star_names (m : gmap string value) : result (list string) :=
  match m !! "__all__" with
  | None => Ok (List.filter (fun n => negb (PyStr.startswith "_" n)) (dir m))
  | Some (VList l) => names_of l
  | Some (VStr s) => Ok (characters s)
  | Some _ => Raise (mkException "TypeError" "__all__ is not iterable")
  end.

Fixpoint bind_names (m : gmap string value) (names : list string)
    (module : gmap string value) : result (gmap string value) :=
  match names with
  | [] => Ok module
  | n :: names' =>
      match m !! n with
      | Some v => bind_names m names' (<[n := v]> module)
      | None => Raise (mkException "AttributeError" n)
      end
  end.

(** The block at the end of the file, run on the namespace [module] that
    the statements above it have built. An exception is logged and raised
    again. *)
Definition load_local_config (environ : gmap string string) (imp : Importer)
    (module : gmap string value) : result (gmap string value) :=
  match environ !! CONFIG_PATH_ENV_VAR with
  | Some cfg_path =>
      let module := <["cfg_path" := VStr cfg_path]> module in
      match exec_file imp cfg_path with
      | Raise e => Raise e
      | Ok override_conf =>
          let module :=
            <["override_conf" := VObject "module superset_config"]>
              (<["spec" := VObject "ModuleSpec"]>
                 (<["module" := VObject "module superset.config"]> module)) in
          Ok (foldl (copy_upper override_conf) module (dir override_conf))
      end
  | None =>
      match superset_config imp with
      | None => Ok module
      | Some (Raise e) => Raise e
      | Some (Ok m) =>
          let module :=
            <["superset_config" := VObject "module superset_config"]> module in
          match star_names m with
          | Raise e => Raise e
          | Ok names => bind_names m names module
          end
      end
  end.

(** The namespace of the module once the whole file has run; [others] are
    the names, other than [DEFAULT_FEATURE_FLAGS], bound by the statements
    above the override block. *)
Definition load_config (parse_boolean_string : string -> bool)
    (environ : gmap string string) (imp : Importer)
    (others : gmap string value) : result (gmap string value) :=
  load_local_config environ imp
    (<["DEFAULT_FEATURE_FLAGS" :=
         VFlags (DEFAULT_FEATURE_FLAGS parse_boolean_string environ)]> others).

(** The deployment override that applies: the file the environment variable
    names, when it loads, and, when the variable is not set, the module
    [superset_config], when it can be imported. *)
Definition override_in_force (environ : gmap string string) (imp : Importer)
  : option (gmap string value) :=
  match environ !! CONFIG_PATH_ENV_VAR with
  | Some cfg_path =>
      match exec_file imp cfg_path with
      | Ok m => Some m
      | Raise _ => None
      end
  | None =>
      match superset_config imp with
      | Some (Ok m) => Some m
      | _ => None
      end
  end.


End Config.

(** ** Inputs for the examples *)

Module Examples.

Definition nl : string := String PyStr.newline EmptyString.

(** The driver's message for a host name that does not resolve. *)
Definition msg_unknown_host : string :=
  "DB-Lib error message 20009, severity 9:" +:+ nl +:+
  "Unable to connect: Adaptive Server is unavailable or does not exist (locahost)" +:+ nl.

(** The driver's message for a port that refuses the connection. *)
Definition msg_port_closed : string :=
  "DB-Lib error message 20009, severity 9:" +:+ nl +:+
  "Unable to connect: Adaptive Server is unavailable or does not exist (localhost)" +:+ nl +:+
  "Net-Lib error during Connection refused (61)" +:+ nl.

(** A message that reports a failed login and a refused connection at once. *)
Definition msg_denied_and_refused : string :=
  "Adaptive Server connection failed (localhost): " +:+
  "Net-Lib error during Connection refused (61)".

(** A stand-in for [parse_boolean_string]. *)
Definition parse_bool (v : string) : bool :=
  existsb (String.eqb v) ["y"; "yes"; "t"; "true"; "on"; "1"].

Definition environ_alerts_on : gmap string string :=
  <["PATH" := "/usr/bin"]> {["SUPERSET_FEATURE_ALERT_REPORTS" := "true"]}.

(** The defaults of two settings of config.py. *)
Definition module_defaults : gmap string Config.value :=
  <["ROW_LIMIT" := Config.VInt 50000]>
    {["SQL_MAX_ROW" := Config.VInt 100000]}.


(** A superset_config.py with a setting and a helper name in lower case. *)
Definition override_with_helper : gmap string Config.value :=
  <["ROW_LIMIT" := Config.VInt 5]> {["row_limit_note" := Config.VStr "five"]}.

(** A superset_config.py that rebinds the feature flag defaults. *)
Definition override_rebinding_flags : gmap string Config.value :=
  {["DEFAULT_FEATURE_FLAGS" := Config.VFlags ∅]}.

Definition importer_module (m : gmap string Config.value) : Config.Importer :=
  Config.mkImporter
    (fun _ => Raise (mkException "FileNotFoundError" "no such file"))
    (Some (Ok m)).

Definition importer_file (path : string) (m : gmap string Config.value)
  : Config.Importer :=
  Config.mkImporter
    (fun p => if String.eqb p path then Ok m
              else Raise (mkException "FileNotFoundError" p))
    None.

(** The key that marks an early cancel in [query.extra]. *)
Definition early_cancel_key : string := "early_cancel_query".

Definition query_7 : Impala.Query := Impala.mkQuery 7 0 ∅.

(** A cursor that runs for two polls and then finishes, with a log that
    reports 3% and then 40%; nobody else touches the row. *)
Definition world_two_polls : Impala.World :=
  Impala.mkWorld
    (fun n => match n with
              | O | S O => Ok "RUNNING_STATE"
              | _ => Ok "FINISHED_STATE"
              end)
    (fun _ q => Ok q)
    (fun _ q => Ok q)
    (fun _ => Ok tt) (fun _ => Ok tt) (fun _ => Ok tt)
    (fun i => match i with
              | O => Ok (Some "Query 5543ffdf692b7d02:f78a944000000000: 3% Complete (17 out of 547)")
              | _ => Ok (Some "Query 5543ffdf692b7d02:f78a944000000000: 40% Complete (219 out of 547)")
              end)
    (fun _ _ => Ok tt)
    (Ok ∅).




End Examples.

(** ** More of Python: slices, [bytes], [os.path.join], JSON values *)

Module PyMore.

(** [s[-n:]] for a positive [n]: the last [n] characters, and all of [s]
    when it is shorter. *)
Definition last_chars (n : nat) (s : string) : string :=
  PyStr.drop (String.length s - n) s.

(** [s[:n]] for an integer [n] of either sign: a negative [n] counts from
    the end. *)
Definition slice_to (n : Z) (s : string) : string :=
  if 0 <=? n then PyStr.take (Z.to_nat n) s
  else PyStr.take (String.length s - Z.to_nat (- n)) s.

(** [l[:n]] on a list. *)
Definition list_slice_to {A} (n : Z) (l : list A) : list A :=
  if 0 <=? n then firstn (Z.to_nat n) l
  else firstn (length l - Z.to_nat (- n)) l.

(** [s.endswith(suffix)] *)
Definition endswith (suffix s : string) : bool :=
  (String.length suffix <=? String.length s)%nat &&
  String.eqb (PyStr.drop (String.length s - String.length suffix) s) suffix.

(** [str(n)] for an integer. *)
Definition str_int (n : Z) : string :=
  if n <? 0 then "-" +:+ PyStr.str_of_nonneg (- n) else PyStr.str_of_nonneg n.

(** A [bytes] value. *)
Definition bytes : Type := list Byte.byte.

Definition hex_digits : string := "0123456789abcdef".

Definition hex_digit (n : N) : ascii :=
  default "0"%char (String.get (N.to_nat n) hex_digits).

Definition hex_byte (b : Byte.byte) : string :=
  String (hex_digit (Byte.to_N b / 16))
    (String (hex_digit (Byte.to_N b mod 16)) EmptyString).

(** [b.hex()]: two lower-case hexadecimal digits for each byte. *)
Fixpoint hex (b : bytes) : string :=
  match b with
  | [] => EmptyString
  | x :: b' => hex_byte x +:+ hex b'
  end.

(** One step of [posixpath.join]: a component that starts with a slash
    replaces what came before, any other is appended, after a slash unless
    the path is empty or ends with one. *)
Definition join_step (path b : string) : string :=
  if PyStr.startswith "/" b then b
  else if String.eqb path "" || endswith "/" path then path +:+ b
  else path +:+ "/" +:+ b.

(** [os.path.join(a, *p)] on a POSIX system. *)
Definition os_path_join (a : string) (p : list string) : string :=
  fold_left join_step p a.

(** What [json.load] gives back: [JNull] is [None], a [JObject] is a
    [dict] with its members in the order of the text. Of a float only its
    being zero or not is ever looked at; it is kept as a mantissa and a
    decimal exponent. *)
#[warnings="-register-all"]
Inductive json : Type :=
| JNull
| JBool (b : bool)
| JInt (n : Z)
| JFloat (mantissa exponent : Z)
| JString (s : string)
| JArray (items : list json)
| JObject (members : list (string * json)).


(** [d.get(key)] on a [dict] read from JSON text: the last member of that
    name, [None] when there is none. *)
Definition json_get (members : list (string * json)) (key : string) : json :=
  default JNull (dict_get members key).

End PyMore.

(** ** [datetime] values and the texts [isoformat] gives them *)

Module PyDatetime.

Import Mssql.

(** The ranges in which [datetime] keeps its fields (the length of the
    month apart). *)
Definition in_range (d : datetime) : bool :=
  (1 <=? year d) && (year d <=? 9999) &&
  (1 <=? month d) && (month d <=? 12) &&
  (1 <=? day d) && (day d <=? 31) &&
  (0 <=? hour d) && (hour d <? 24) &&
  (0 <=? minute d) && (minute d <? 60) &&
  (0 <=? second d) && (second d <? 60) &&
  (0 <=? microsecond d) && (microsecond d <? 1000000).

(** The characters of an ISO date and time, with either separator. *)
Definition iso_char (c : ascii) : bool :=
  PyStr.is_digit c || PyStr.existsb_str (Ascii.eqb c) "-:.+T ".

(** The same calendar day. *)
Definition same_date (d1 d2 : datetime) : Prop :=
  year d1 = year d2 /\ month d1 = month d2 /\ day d1 = day d2.

(** The same day and time of day down to [unit] microseconds, with UTC
    offsets that print the same. *)
Definition same_time (unit : Z) (d1 d2 : datetime) : Prop :=
  same_date d1 d2 /\
  hour d1 = hour d2 /\ minute d1 = minute d2 /\ second d1 = second d2 /\
  microsecond d1 / unit = microsecond d2 / unit /\
  format_offset (utcoffset d1) = format_offset (utcoffset d2).

End PyDatetime.

(** ** impala.py: the other methods of [ImpalaEngineSpec] *)

Module ImpalaEngine.

Import Mssql.

(** [dttm.isoformat(timespec="microseconds")] *)
Definition isoformat_microseconds (d : datetime) : string :=
  date_isoformat d +:+ "T" +:+ time_seconds d +:+ "." +:+
  PyStr.zero_padded 6 (microsecond d) +:+ format_offset (utcoffset d).

Section Methods.

(** [cls.get_sqla_column_type], inherited from [BaseEngineSpec]. *)
Variable get_sqla_column_type : string -> option sqla_type.

Definition convert_dttm (target_type : string) (dttm : datetime)
  : option string :=
  let sqla_type := get_sqla_column_type target_type in
  if isinstance sqla_type types_Date then
    Some ("CAST('" +:+ date_isoformat dttm +:+ "' AS DATE)")
  else if isinstance sqla_type types_TIMESTAMP then
    Some ("CAST('" +:+ isoformat_microseconds dttm +:+ "' AS TIMESTAMP)")
  else None.

End Methods.

(** The set comprehension of [get_schema_names], row by row; [row[0]] of
    a row without columns raises. *)
Fixpoint schema_names (acc : gset string) (rows : list (list string))
  : result (gset string) :=
  match rows with
  | [] => Ok acc
  | [] :: _ => Raise (mkException "IndexError" "tuple index out of range")
  | (name :: _) :: rows' =>
      schema_names
        (if PyStr.startswith "_" name then acc else acc ∪ {[ name ]}) rows'
  end.

(** [ImpalaEngineSpec.get_schema_names(inspector)]; [show_schemas] is
    what [inspector.engine.execute("SHOW SCHEMAS")] gives. *)
Definition get_schema_names (show_schemas : result (list (list string)))
  : result (gset string) :=
  match show_schemas with
  | Ok rows => schema_names ∅ rows
  | Raise e => Raise e
  end.

(** [ImpalaEngineSpec.get_cancel_query_id(cursor, query)];
    [last_operation] is [None] when the cursor has no [_last_operation]
    (or a false one) and otherwise holds
    [last_operation.handle.operationId.guid]. *)
Definition get_cancel_query_id (last_operation : option PyMore.bytes)
  : option string :=
  match last_operation with
  | None => None
  | Some operation_guid =>
      let guid := PyMore.hex (rev operation_guid) in
      Some (PyMore.last_chars 16 guid +:+ ":" +:+ PyStr.take 16 guid)
  end.

(** The value of a lower-case hexadecimal digit. *)
Definition unhex_digit (c : ascii) : option N :=
  let n := N_of_ascii c in
  if PyStr.is_digit c then Some (n - 48)%N
  else if ((97 <=? n) && (n <=? 102))%N then Some (n - 87)%N
  else None.

(** [bytes.fromhex(s)] on lower-case digits without blanks: the inverse
    of [hex]. *)
Fixpoint unhex (s : string) : option PyMore.bytes :=
  match s with
  | EmptyString => Some []
  | String _ EmptyString => None
  | String h (String l s') =>
      match unhex_digit h, unhex_digit l, unhex s' with
      | Some x, Some y, Some b =>
          match Byte.of_N (16 * x + y) with
          | Some v => Some (v :: b)
          | None => None
          end
      | _, _, _ => None
      end
  end.

End ImpalaEngine.

(** ** config.py: version files, data directory, upload directory *)

Module ConfigHelpers.

Import PyMore.

Section VersionFiles.

(** [json.load] of the file opened at a path: the value read, or the
    exception that [open] or [json.load] raises. *)
Variable load_json : string -> result json.


Definition _try_json_readsha (filepath : string) (length : Z) : json :=
  match load_json filepath with
  | Ok (JObject members) =>
      match json_get members "GIT_SHA" with
      | JString s => JString (slice_to length s)
      | JArray items => JArray (list_slice_to length items)
      | _ => JNull
      end
  | Ok _ => JNull
  | Raise _ => JNull
  end.

(** [str(files("superset") / "static/version_info.json")] and
    [str(files("superset") / "static/assets/package.json")]. *)
Variable VERSION_INFO_FILE PACKAGE_JSON_FILE : string.


Definition VERSION_SHA_LENGTH : Z := 8.

Definition VERSION_SHA : json :=
  _try_json_readsha VERSION_INFO_FILE VERSION_SHA_LENGTH.

End VersionFiles.

(** [DATA_DIR]; [expanduser] stands for [os.path.expanduser]. *)
Definition DATA_DIR (environ : gmap string string)
    (expanduser : string -> string) : string :=
  match environ !! "SUPERSET_HOME" with
  | Some home => home
  | None => expanduser "~/.superset"
  end.

Definition SQLALCHEMY_DATABASE_URI (environ : gmap string string)
    (expanduser : string -> string) : string :=
  "sqlite:///" +:+ os_path_join (DATA_DIR environ expanduser) ["superset.db"]
  +:+ "?check_same_thread=false".

Definition CSV_TO_HIVE_UPLOAD_DIRECTORY : string := "EXTERNAL_HIVE_TABLES/".

(** [CSV_TO_HIVE_UPLOAD_DIRECTORY_FUNC(database, user, schema)];
    [upload_directory] is the value of the global
    [CSV_TO_HIVE_UPLOAD_DIRECTORY] when the function is called and
    [database_id] that of [database.id]. *)
Definition CSV_TO_HIVE_UPLOAD_DIRECTORY_FUNC (upload_directory : string)
    (database_id : Z) (schema : option string) : string :=
  os_path_join upload_directory
    [str_int database_id;
     match schema with
     | Some s => if String.eqb s "" then "" else s
     | None => ""
     end;
     ""].

End ConfigHelpers.

(** ** impala.py: more of what a trace of [handle_cursor] is held to *)

Module ImpalaTraces.

Import Impala.

(** Every write of [query.progress] stores a value parsed from a log that
    the run has fetched before ([seen] holds the logs fetched so far). *)
Fixpoint writes_from_logs (seen : list string) (tr : list event) : Prop :=
  match tr with
  | [] => True
  | GetLog (Ok (Some log)) :: tr' => writes_from_logs (log :: seen) tr'
  | SetProgress _ new :: tr' =>
      (exists log, log ∈ seen /\ parse_progress log = Some new) /\
      writes_from_logs seen tr'
  | _ :: tr' => writes_from_logs seen tr'
  end.

(** The local [progress], once bound, was parsed from a log fetched
    before. *)
Definition progress_from_logs (seen : list string) (l : locals) : Prop :=
  forall p, progress l = Some p ->
    exists log, log ∈ seen /\ parse_progress log = Some p.

Definition is_poll (e : event) : bool :=
  match e with
  | CursorStatus _ => true
  | _ => false
  end.

(** The number of calls of [cursor.status()]. *)
Definition polls (tr : list event) : nat := length (List.filter is_poll tr).

Definition is_write (e : event) : bool :=
  match e with
  | SetProgress _ _ | SessionCommit _ => true
  | _ => false
  end.

(** Nothing is written to the row and nothing is committed. *)
Definition writes_nothing (tr : list event) : Prop :=
  Forall (fun e => is_write e = false) tr.

(** A log without a line to read: the call failed, or gave [None] or the
    empty text. *)
Definition no_log (r : result (option string)) : bool :=
  match r with
  | Ok (Some log) => String.eqb log ""
  | Ok None => true
  | Raise _ => true
  end.

End ImpalaTraces.

Module MoreExamples.

(** A cursor that runs for two polls and then finishes, and whose
    [get_log] fails each time; the row of the query is the one stored. *)
Definition world_log_fails : Impala.World :=
  Impala.mkWorld
    (fun n => match n with
              | O | S O => Ok "RUNNING_STATE"
              | _ => Ok "FINISHED_STATE"
              end)
    (fun _ q => Ok q)
    (fun _ _ => Ok Examples.query_7)
    (fun _ => Ok tt) (fun _ => Ok tt) (fun _ => Ok tt)
    (fun _ => Raise (mkException "HiveServer2Error" "GetLog failed"))
    (fun _ _ => Ok tt)
    (Ok ∅).

(** A running cursor with a log that reports progress, polled with a
    negative interval. *)
Definition world_negative_interval : Impala.World :=
  Impala.mkWorld
    (fun _ => Ok "RUNNING_STATE")
    (fun _ q => Ok q)
    (fun _ q => Ok q)
    (fun _ => Ok tt) (fun _ => Ok tt) (fun _ => Ok tt)
    (fun _ => Ok (Some "Query 5543ffdf692b7d02:f78a944000000000: 3% Complete (17 out of 547)"))
    (fun _ _ => Ok tt)
    (Ok {["impala" := -1]}).

End MoreExamples.

(** * Properties *)

(** ** Strings *)

Section StringFacts.
Import PyStr.

Lemma str_app_cons (c : ascii) (a b : string) :
  String c a +:+ b = String c (a +:+ b).
Proof. reflexivity. Qed.

Lemma str_app_empty_l (b : string) : "" +:+ b = b.
Proof. reflexivity. Qed.

Lemma str_app_assoc (a b c : string) : (a +:+ b) +:+ c = a +:+ (b +:+ c).
Proof.
  induction a as [|x a IH]; [done|]. by rewrite !str_app_cons, IH.
Qed.

Lemma str_app_nil_r (a : string) : a +:+ "" = a.
Proof. induction a as [|x a IH]; [done|]. by rewrite str_app_cons, IH. Qed.

Lemma str_length_app (a b : string) :
  String.length (a +:+ b) = (String.length a + String.length b)%nat.
Proof.
  induction a as [|x a IH]; [done|]. rewrite str_app_cons. simpl. by rewrite IH.
Qed.

Lemma startswith_spec p s :
  startswith p s = true <-> exists r, s = p +:+ r.
Proof.
  revert s; induction p as [|a p IH]; intros s; simpl.
  - split; [intros _; by exists s | done].
  - destruct s as [|b s].
    + split; [done | intros [r Hr]; discriminate].
    + destruct (Ascii.eqb_spec a b) as [->|Hne].
      * rewrite IH. split; intros [r Hr]; exists r.
        -- by rewrite str_app_cons, Hr.
        -- rewrite str_app_cons in Hr. by injection Hr.
      * split; [done | intros [r Hr]; rewrite str_app_cons in Hr].
        injection Hr as Hab _. by destruct Hne.
Qed.

Lemma startswith_app p r : startswith p (p +:+ r) = true.
Proof. apply startswith_spec. by exists r. Qed.

Lemma str_drop_app p r : drop (String.length p) (p +:+ r) = r.
Proof. induction p as [|x p IH]; [done|]. rewrite str_app_cons. simpl. exact IH. Qed.

Lemma contains_spec sub s :
  contains sub s = true <-> exists l r, s = l +:+ sub +:+ r.
Proof.
  induction s as [|c s IH]; simpl.
  - rewrite orb_false_r, startswith_spec. split.
    + intros [r Hr]. by exists "", r.
    + intros [l [r Hr]]. destruct l; [by exists r | discriminate].
  - rewrite orb_true_iff, startswith_spec, IH. split.
    + intros [[r Hr] | [l [r Hr]]].
      * by exists "", r.
      * exists (String c l), r. by rewrite str_app_cons, Hr.
    + intros [l [r Hr]]. destruct l as [|c' l].
      * left. by exists r.
      * right. rewrite str_app_cons in Hr. injection Hr as _ Hs. by exists l, r.
Qed.

End StringFacts.

(** ** Time grains (C2) *)

Section TimeGrains.

Lemma dict_get_In {K V} `{EqDecision K} (d : list (K * V)) k v :
  dict_get d k = Some v -> In (k, v) d.
Proof.
  induction d as [|[k' v'] d IH]; simpl; [done|].
  destruct (dict_get d k) as [w|] eqn:E.
  - intros [= ->]. right. by apply IH.
  - destruct (decide (k' = k)) as [->|]; [|done].
    intros [= ->]. by left.
Qed.

Lemma dict_get_NoDup {K V} `{EqDecision K} (d : list (K * V)) k v :
  NoDup (map fst d) -> In (k, v) d -> dict_get d k = Some v.
Proof.
  induction d as [|[k' v'] d IH]; simpl; [done|].
  rewrite NoDup_cons. intros [Hk Hd] [[= -> ->] | Hin].
  - destruct (dict_get d k) as [w|] eqn:E.
    + apply dict_get_In in E. destruct Hk.
      apply list_elem_of_In, in_map_iff. by exists (k, w).
    + by rewrite decide_True.
  - by rewrite (IH Hd Hin).
Qed.

Lemma time_grain_keys_NoDup e : NoDup (map fst (time_grain_expressions e)).
Proof.
  destruct e; apply (bool_decide_unpack _); vm_compute; reflexivity.
Qed.

End TimeGrains.

(** C2. Time-grain translation is a lookup in the engine's table. For
    Impala the supported grains are exactly the eight keys of its table and
    each has the template the table gives; for SQL Server (and Azure
    Synapse, which inherits the table) no grain gives ["{col}"] and every
    supported grain has the DATEADD/DATEDIFF template that its table entry
    gives; and for every
    engine a supported grain has exactly one entry, so the template
    depends on the engine and the grain alone. *)
Theorem time_grain_template_is_table_entry :
  (forall g, supported ImpalaEngineSpec g <->
     g ∈ [None; Some MINUTE; Some HOUR; Some DAY; Some WEEK; Some MONTH;
          Some QUARTER; Some YEAR]) /\
  time_grain_template ImpalaEngineSpec None = Some "{col}" /\
  time_grain_template ImpalaEngineSpec (Some MINUTE) = Some "TRUNC({col}, 'MI')" /\
  time_grain_template ImpalaEngineSpec (Some HOUR) = Some "TRUNC({col}, 'HH')" /\
  time_grain_template ImpalaEngineSpec (Some DAY) = Some "TRUNC({col}, 'DD')" /\
  time_grain_template ImpalaEngineSpec (Some WEEK) = Some "TRUNC({col}, 'WW')" /\
  time_grain_template ImpalaEngineSpec (Some MONTH) = Some "TRUNC({col}, 'MONTH')" /\
  time_grain_template ImpalaEngineSpec (Some QUARTER) = Some "TRUNC({col}, 'Q')" /\
  time_grain_template ImpalaEngineSpec (Some YEAR) = Some "TRUNC({col}, 'YYYY')" /\
  (forall c, time_grain_template (MssqlClass c) None = Some "{col}") /\
  (forall c g, supported (MssqlClass c) (Some g) ->
     exists t, time_grain_template (MssqlClass c) (Some g) = Some t /\
               In (Some g, t) Mssql._time_grain_expressions /\
               PyStr.startswith "DATEADD(" t = true /\
               PyStr.contains "DATEDIFF(" t = true) /\
  (forall e g, supported e g ->
     exists t, time_grain_template e g = Some t /\
               forall t', In (g, t') (time_grain_expressions e) -> t' = t).
Proof.
  split.
  { intros g. unfold supported. rewrite <- list_elem_of_In. reflexivity. }
  do 8 (split; [reflexivity|]).
  split; [by intros []|].
  split.
  - intros c g _. destruct c, g;
      (eexists; split; [reflexivity|]; split; [simpl; tauto|]; split; reflexivity).
  - intros e g Hs. unfold supported in Hs. apply in_map_iff in Hs.
    destruct Hs as [[g' t] [Hg Hin]]. simpl in Hg. subst g'.
    pose proof (time_grain_keys_NoDup e) as Hnd.
    exists t. split.
    + unfold time_grain_template. by apply dict_get_NoDup.
    + intros t' Hin'.
      apply (dict_get_NoDup _ _ _ Hnd) in Hin, Hin'. congruence.
Qed.

(** A week on SQL Server: the grain is supported and its template is the
    table's entry. *)
Lemma time_grain_template_is_table_entry_witness :
  supported (MssqlClass Mssql.MssqlEngineSpec) (Some WEEK) /\
  exists t, time_grain_template (MssqlClass Mssql.MssqlEngineSpec) (Some WEEK) = Some t /\
            In (Some WEEK, t) Mssql._time_grain_expressions /\
            PyStr.startswith "DATEADD(" t = true /\
            PyStr.contains "DATEDIFF(" t = true.
Proof.
  assert (Hs : supported (MssqlClass Mssql.MssqlEngineSpec) (Some WEEK))
    by (unfold supported; simpl; tauto).
  split; [exact Hs|].
  destruct time_grain_template_is_table_entry
    as (_ & _ & _ & _ & _ & _ & _ & _ & _ & _ & Hmssql & _).
  exact (Hmssql Mssql.MssqlEngineSpec WEEK Hs).
Defined.

(** ** SQL Server: error messages and datetime literals (C6, C7) *)

Section MssqlMethods.
Import Mssql.

Lemma engine_is_mssql c : engine c = "mssql".
Proof. by destruct c. Qed.

(** An instance of [SMALLDATETIME] is a [DateTime] and not a [Date]. *)
Lemma isinstance_SMALLDATETIME t :
  isinstance t SMALLDATETIME = true ->
  isinstance t types_DateTime = true /\ isinstance t types_Date = false.
Proof. destruct t as [[]|]; simpl; intros H; try discriminate; by split. Qed.

(** A [DateTime] is not a [Date]. *)
Lemma isinstance_DateTime_not_Date t :
  isinstance t types_DateTime = true -> isinstance t types_Date = false.
Proof. destruct t as [[]|]; simpl; intros H; try discriminate; done. Qed.

End MssqlMethods.

(** C6. For every exception, [extract_error_message] of [MssqlEngineSpec]
    (and of its subclass) returns a string that begins with
    ["mssql error: "]; what follows is the fixed advice about aliases when
    the exception's string form starts with ["(8155,"], and the
    generically extracted message otherwise. *)
Theorem extract_error_message_normalized :
  forall (_extract_error_message : Mssql.cls -> PyException -> string)
         (c : Mssql.cls) (ex : PyException),
  PyStr.startswith "mssql error: "
    (Mssql.extract_error_message _extract_error_message c ex) = true /\
  (PyStr.startswith "(8155," (exc_str ex) = true ->
   PyStr.drop (String.length "mssql error: ")
     (Mssql.extract_error_message _extract_error_message c ex)
   = "All your SQL functions need to have an alias on MSSQL. For example: SELECT COUNT(*) AS C1 FROM TABLE1") /\
  (PyStr.startswith "(8155," (exc_str ex) = false ->
   PyStr.drop (String.length "mssql error: ")
     (Mssql.extract_error_message _extract_error_message c ex)
   = _extract_error_message c ex).
Proof.
  intros f c ex. unfold Mssql.extract_error_message.
  rewrite engine_is_mssql.
  destruct (PyStr.startswith "(8155," (exc_str ex)) eqn:E.
  - split; [reflexivity|]. split; [reflexivity | discriminate].
  - change ("mssql" +:+ " error: " +:+ f c ex)
      with ("mssql error: " +:+ f c ex).
    split; [apply startswith_app|].
    split; [discriminate | intros _; apply str_drop_app].
Qed.

(** The error 8155 ("no column name was specified") and another one, with
    the driver's message taken as the generic extraction. *)
Lemma extract_error_message_normalized_witness :
  Mssql.extract_error_message (fun _ ex => exc_str ex) Mssql.MssqlEngineSpec
    (mkException "OperationalError" "(8155, b'No column name was specified')")
  = "mssql error: All your SQL functions need to have an alias on MSSQL. For example: SELECT COUNT(*) AS C1 FROM TABLE1"
  /\
  PyStr.drop (String.length "mssql error: ")
    (Mssql.extract_error_message (fun _ ex => exc_str ex) Mssql.AzureSynapseSpec
       (mkException "OperationalError" "(208, b'Invalid object name')"))
  = "(208, b'Invalid object name')".
Proof.
  split; [reflexivity|].
  exact (proj2 (proj2 (extract_error_message_normalized
           (fun _ ex => exc_str ex) Mssql.AzureSynapseSpec
           (mkException "OperationalError" "(208, b'Invalid object name')")))
           eq_refl).
Defined.

(** C7. [convert_dttm] of [MssqlEngineSpec] (and of its subclass) is total
    and decided by the column type that the target type string denotes: the
    DATE literal for a [Date]; the SMALLDATETIME literal, in ISO format to
    the second with a blank separator, for a [SMALLDATETIME]; the DATETIME
    literal, in ISO format to the millisecond, for any other [DateTime];
    and [None] for everything else, also when the string denotes no type. *)
Theorem convert_dttm_by_column_type :
  forall (get_sqla_column_type : Mssql.cls -> string -> option Mssql.sqla_type)
         (c : Mssql.cls) (target_type : string) (dttm : Mssql.datetime),
  (Mssql.isinstance (get_sqla_column_type c target_type) Mssql.types_Date = true ->
   Mssql.convert_dttm get_sqla_column_type c target_type dttm
   = Some ("CONVERT(DATE, '" +:+ Mssql.date_isoformat dttm +:+ "', 23)")) /\
  (Mssql.isinstance (get_sqla_column_type c target_type) Mssql.SMALLDATETIME = true ->
   Mssql.convert_dttm get_sqla_column_type c target_type dttm
   = Some ("CONVERT(SMALLDATETIME, '" +:+ Mssql.isoformat_seconds " " dttm +:+ "', 20)")) /\
  (Mssql.isinstance (get_sqla_column_type c target_type) Mssql.types_DateTime = true ->
   Mssql.isinstance (get_sqla_column_type c target_type) Mssql.SMALLDATETIME = false ->
   Mssql.convert_dttm get_sqla_column_type c target_type dttm
   = Some ("CONVERT(DATETIME, '" +:+ Mssql.isoformat_milliseconds dttm +:+ "', 126)")) /\
  (Mssql.isinstance (get_sqla_column_type c target_type) Mssql.types_Date = false ->
   Mssql.isinstance (get_sqla_column_type c target_type) Mssql.types_DateTime = false ->
   Mssql.convert_dttm get_sqla_column_type c target_type dttm = None).
Proof.
  intros get c tt d. unfold Mssql.convert_dttm.
  repeat split.
  - by intros ->.
  - intros H. destruct (isinstance_SMALLDATETIME _ H) as [_ ->]. by rewrite H.
  - intros H1 H2. by rewrite (isinstance_DateTime_not_Date _ H1), H2, H1.
  - intros H1 H2. rewrite H1, H2.
    destruct (Mssql.isinstance (get c tt) Mssql.SMALLDATETIME) eqn:E; [|done].
    apply isinstance_SMALLDATETIME in E. destruct E as [E _]. congruence.
Qed.

(** The second of January 2019, 03:04:05.678900, as a DATE, a SMALLDATETIME,
    a DATETIME (a TIMESTAMP column is a [DateTime]) and for a column type
    that is no date. *)
Lemma convert_dttm_by_column_type_witness :
  let get := fun (_ : Mssql.cls) (t : string) =>
    if String.eqb t "DATE" then Some Mssql.types_Date
    else if String.eqb t "SMALLDATETIME" then Some Mssql.SMALLDATETIME
    else if String.eqb t "TIMESTAMP" then Some Mssql.types_TIMESTAMP
    else if String.eqb t "NVARCHAR" then Some Mssql.types_String
    else None in
  let dttm := Mssql.mkDatetime 2019 1 2 3 4 5 678900 None in
  Mssql.convert_dttm get Mssql.MssqlEngineSpec "DATE" dttm
    = Some "CONVERT(DATE, '2019-01-02', 23)" /\
  Mssql.convert_dttm get Mssql.MssqlEngineSpec "SMALLDATETIME" dttm
    = Some "CONVERT(SMALLDATETIME, '2019-01-02 03:04:05', 20)" /\
  Mssql.convert_dttm get Mssql.MssqlEngineSpec "TIMESTAMP" dttm
    = Some "CONVERT(DATETIME, '2019-01-02T03:04:05.678', 126)" /\
  Mssql.convert_dttm get Mssql.AzureSynapseSpec "NVARCHAR" dttm = None /\
  Mssql.convert_dttm get Mssql.AzureSynapseSpec "no such type" dttm = None.
Proof.
  intros get dttm.
  pose proof (convert_dttm_by_column_type get Mssql.MssqlEngineSpec "DATE" dttm)
    as (H1 & _).
  pose proof (convert_dttm_by_column_type get Mssql.MssqlEngineSpec "SMALLDATETIME" dttm)
    as (_ & H2 & _).
  pose proof (convert_dttm_by_column_type get Mssql.MssqlEngineSpec "TIMESTAMP" dttm)
    as (_ & _ & H3 & _).
  pose proof (convert_dttm_by_column_type get Mssql.AzureSynapseSpec "NVARCHAR" dttm)
    as (_ & _ & _ & H4).
  pose proof (convert_dttm_by_column_type get Mssql.AzureSynapseSpec "no such type" dttm)
    as (_ & _ & _ & H5).
  split; [exact (H1 eq_refl)|].
  split; [exact (H2 eq_refl)|].
  split; [exact (H3 eq_refl eq_refl)|].
  split; [exact (H4 eq_refl eq_refl) | exact (H5 eq_refl eq_refl)].
Defined.

(** ** Impala: cancelling a query (C10) *)



(** ** Regular expressions *)

Section RegexFacts.
Import PyStr PyRe.

Lemma str_take_app_length (a b : string) :
  take (String.length (a +:+ b) - String.length b) (a +:+ b) = a.
Proof.
  rewrite str_length_app.
  replace (String.length a + String.length b - String.length b)%nat
    with (String.length a) by lia.
  induction a as [|x a IH].
  - by destruct b.
  - rewrite str_app_cons. simpl. by rewrite IH.
Qed.

Lemma forallb_str_app p (a b : string) :
  forallb_str p (a +:+ b) = forallb_str p a && forallb_str p b.
Proof.
  induction a as [|x a IH]; [done|].
  rewrite str_app_cons. simpl. rewrite IH. by rewrite andb_assoc.
Qed.

(** What a starred class can hand to its continuation: the text left after
    a run of characters of the class. *)
Lemma star_lazy_sound {C} p s (k : string -> option C) r :
  star_lazy p s k = Some r ->
  exists s1 s2, s = s1 +:+ s2 /\ forallb_str p s1 = true /\ k s2 = Some r.
Proof.
  induction s as [|a s IH]; simpl.
  - destruct (k "") eqn:E; [|done]. intros [= ->]. by exists "", "".
  - destruct (k (String a s)) eqn:E.
    + intros [= ->]. by exists "", (String a s).
    + destruct (p a) eqn:Hp; [|done]. intros H.
      destruct (IH H) as (s1 & s2 & -> & H1 & H2).
      exists (String a s1), s2. rewrite str_app_cons. simpl. by rewrite Hp, H1.
Qed.

Lemma star_lazy_complete {C} p (k : string -> option C) s1 s2 :
  forallb_str p s1 = true -> is_Some (k s2) ->
  is_Some (star_lazy p (s1 +:+ s2) k).
Proof.
  induction s1 as [|a s1 IH]; intros H1 H2.
  - rewrite str_app_empty_l. destruct H2 as [r Hr].
    destruct s2; simpl; rewrite Hr; by eexists.
  - rewrite str_app_cons. simpl in *. apply andb_true_iff in H1 as [Ha H1].
    destruct (k (String a (s1 +:+ s2))); [by eexists|].
    rewrite Ha. by apply IH.
Qed.

Lemma star_greedy_sound {C} p s (k : string -> option C) r :
  star_greedy p s k = Some r ->
  exists s1 s2, s = s1 +:+ s2 /\ forallb_str p s1 = true /\ k s2 = Some r.
Proof.
  induction s as [|a s IH]; simpl.
  - intros H. by exists "", "".
  - destruct (p a) eqn:Hp.
    + destruct (star_greedy p s k) eqn:E.
      * intros [= ->]. destruct (IH eq_refl) as (s1 & s2 & -> & H1 & H2).
        exists (String a s1), s2. rewrite str_app_cons. simpl. by rewrite Hp, H1.
      * intros H. by exists "", (String a s).
    + intros H. by exists "", (String a s).
Qed.

Lemma star_greedy_complete {C} p (k : string -> option C) s1 s2 :
  forallb_str p s1 = true -> is_Some (k s2) ->
  is_Some (star_greedy p (s1 +:+ s2) k).
Proof.
  induction s1 as [|a s1 IH]; intros H1 H2.
  - rewrite str_app_empty_l. destruct H2 as [r Hr].
    destruct s2 as [|b s2]; simpl; [by eexists|].
    destruct (p b); [|by eexists].
    destruct (star_greedy p s2 k); by eexists.
  - rewrite str_app_cons. simpl in *. apply andb_true_iff in H1 as [Ha H1].
    rewrite Ha. destruct (IH H1 H2) as [r ->]. by eexists.
Qed.

(** A pattern without metacharacters is found by [search] exactly where it
    occurs, and captures nothing. *)
Lemma search_from_Lit whole l s :
  search_from whole (Lit l) s = if contains l s then Some [] else None.
Proof.
  induction s as [|a s IH]; simpl.
  - unfold accept. destruct (startswith l ""); reflexivity.
  - unfold accept. destruct (startswith l (String a s)); [reflexivity|].
    simpl. exact IH.
Qed.

Lemma re_search_Lit l s :
  re_search (Lit l) s = if contains l s then Some [] else None.
Proof. apply search_from_Lit. Qed.

(** [search]: the leftmost suffix at whose head the pattern matches. *)
Lemma search_from_sound whole r s g :
  search_from whole r s = Some g ->
  exists pre s', s = pre +:+ s' /\ match_here whole r s' [] accept = Some g.
Proof.
  induction s as [|a s IH]; simpl.
  - destruct (match_here whole r "" [] accept) eqn:E; [|done].
    intros [= ->]. by exists "", "".
  - destruct (match_here whole r (String a s) [] accept) eqn:E.
    + intros [= ->]. by exists "", (String a s).
    + intros H. destruct (IH H) as (pre & s' & -> & Hm).
      by exists (String a pre), s'.
Qed.

Lemma search_from_complete whole r pre s' :
  is_Some (match_here whole r s' [] accept) ->
  is_Some (search_from whole r (pre +:+ s')).
Proof.
  intros Hm. induction pre as [|a pre IH].
  - rewrite str_app_empty_l. destruct Hm as [g Hg].
    destruct s'; simpl; rewrite Hg; by eexists.
  - rewrite str_app_cons. simpl.
    destruct (match_here whole r (String a (pre +:+ s')) [] accept); [by eexists|].
    exact IH.
Qed.

End RegexFacts.

(** ** SQL Server: classification of error messages (C3) *)

Section ErrorClassification.
Import PyStr PyRe Mssql.

(** The hostname pattern at the head of [s]: it matches exactly when [s]
    names an unresolved host, and it captures that host and nothing else. *)
Lemma hostname_match_sound whole s g :
  match_here whole CONNECTION_INVALID_HOSTNAME_REGEX s [] accept = Some g ->
  exists h, g = [("hostname", h)] /\ names_unresolved_host s h.
Proof.
  unfold CONNECTION_INVALID_HOSTNAME_REGEX. cbn [match_here]. intros H.
  destruct (startswith _ s) eqn:HP; [|done].
  apply startswith_spec in HP as [s1 ->]. rewrite str_drop_app in H.
  apply star_lazy_sound in H as (h & s2 & -> & Hh & Hk).
  destruct (startswith ")" s2) eqn:Hc; [|done].
  apply startswith_spec in Hc as [t ->]. rewrite str_drop_app in Hk.
  destruct (star_greedy _ t _) eqn:Hla in Hk; [done|].
  apply star_greedy_sound in Hk as (a & b & -> & Ha & Hb).
  destruct (at_eos b) eqn:Hb'; [|done].
  injection Hb as <-. rewrite str_take_app_length.
  exists h. split; [done|]. exists (a +:+ b). repeat split; try done.
  - intros (a' & b' & Heq & Ha').
    match type of Hla with
    | star_greedy ?p _ ?k = None =>
        destruct (star_greedy_complete p k a' ("Net-Lib error" +:+ b') Ha')
          as [r Hr]
    end.
    + rewrite startswith_app. by eexists.
    + rewrite <- Heq in Hr. congruence.
  - by exists a, b.
Qed.

Lemma hostname_match_complete whole s h :
  names_unresolved_host s h ->
  is_Some (match_here whole CONNECTION_INVALID_HOSTNAME_REGEX s [] accept).
Proof.
  intros (t & -> & Hh & Hnl & (a & b & -> & Ha & Hb)).
  unfold CONNECTION_INVALID_HOSTNAME_REGEX. cbn [match_here].
  rewrite startswith_app, str_drop_app.
  apply star_lazy_complete; [done|].
  rewrite startswith_app, str_drop_app.
  destruct (star_greedy _ (a +:+ b) _) eqn:Hla.
  - apply star_greedy_sound in Hla as (a' & b' & Heq & Ha' & Hk).
    destruct (startswith "Net-Lib error" b') eqn:Hs; [|done].
    apply startswith_spec in Hs as [r ->].
    destruct Hnl. by exists a', r.
  - apply star_greedy_complete; [done|]. rewrite Hb. by eexists.
Qed.

(** [search] with the hostname pattern. *)
Lemma hostname_search_sound msg g :
  re_search CONNECTION_INVALID_HOSTNAME_REGEX msg = Some g ->
  exists pre s h, msg = pre +:+ s /\ g = [("hostname", h)] /\
                  names_unresolved_host s h.
Proof.
  intros H. apply search_from_sound in H as (pre & s & -> & Hm).
  apply hostname_match_sound in Hm as (h & -> & Hh). by exists pre, s, h.
Qed.

Lemma hostname_search_complete pre s h :
  names_unresolved_host s h ->
  is_Some (re_search CONNECTION_INVALID_HOSTNAME_REGEX (pre +:+ s)).
Proof.
  intros H. apply search_from_complete. by eapply hostname_match_complete.
Qed.

End ErrorClassification.

Section ErrorDispatch.
Import PyStr PyRe Mssql.

Lemma matches_Lit l msg : matches (Lit l) msg = contains l msg.
Proof. unfold matches. rewrite re_search_Lit. by destruct (contains l msg). Qed.

Lemma matches_hostname msg :
  matches CONNECTION_INVALID_HOSTNAME_REGEX msg = true <->
  exists pre s h, msg = pre +:+ s /\ names_unresolved_host s h.
Proof.
  unfold matches. split.
  - destruct (re_search _ msg) as [g|] eqn:E; [|done]. intros _.
    apply hostname_search_sound in E as (pre & s & h & -> & _ & Hh).
    by exists pre, s, h.
  - intros (pre & s & h & -> & Hh).
    by destruct (hostname_search_complete pre s h Hh) as [g ->].
Qed.

(** The message a hostname error carries. *)
Lemma extract_errors_hostname msg context err :
  extract_errors msg context = Some (Ok err) ->
  error_type err = CONNECTION_INVALID_HOSTNAME_ERROR ->
  exists pre s h, msg = pre +:+ s /\ names_unresolved_host s h /\
    message err = "The hostname " +:+ dq +:+ h +:+ dq +:+ " cannot be resolved.".
Proof.
  unfold extract_errors. cbn [dispatch custom_errors].
  destruct (re_search CONNECTION_ACCESS_DENIED_REGEX msg) as [g1|].
  { destruct (percent_format _ _); [|done]. by intros [= <-]. }
  destruct (re_search CONNECTION_INVALID_HOSTNAME_REGEX msg) as [g2|] eqn:E2.
  - apply hostname_search_sound in E2 as (pre & s & h & -> & -> & Hh).
    intros H _. exists pre, s, h. split; [done|]. split; [done|].
    cbn [percent_format merge_params foldl fst snd] in H.
    rewrite lookup_insert_eq in H. injection H as <-. cbn [message].
    by rewrite !str_app_assoc, str_app_nil_r.
  - destruct (re_search CONNECTION_PORT_CLOSED_REGEX msg) as [g3|].
    { destruct (percent_format _ _); [|done]. by intros [= <-]. }
    destruct (re_search CONNECTION_HOST_DOWN_REGEX msg) as [g4|]; [|done].
    destruct (percent_format _ _); [|done]. by intros [= <-].
Qed.

End ErrorDispatch.

(** C3, as the code has it. The table is tried in its order and the first
    pattern that matches decides: a message is classified as an access
    denial exactly when it contains "Adaptive Server connection failed";
    as an invalid hostname exactly when the hostname pattern matches and
    the access-denial pattern does not; as a closed port exactly when it
    contains "Net-Lib error during Connection refused (61)" and neither
    earlier pattern matches; as a host that is down exactly when it
    contains "Net-Lib error during Operation timed out (60)" and none of
    the three earlier patterns matches. The hostname pattern matches
    exactly when some suffix of the message names an unresolved host, and
    the message of a hostname error quotes the captured host. *)
Theorem classify_by_first_matching_pattern :
  forall msg : string,
  (Mssql.classify msg = Some Mssql.CONNECTION_ACCESS_DENIED_ERROR <->
   PyStr.contains "Adaptive Server connection failed" msg = true) /\
  (Mssql.classify msg = Some Mssql.CONNECTION_INVALID_HOSTNAME_ERROR <->
   Mssql.matches Mssql.CONNECTION_INVALID_HOSTNAME_REGEX msg = true /\
   Mssql.matches Mssql.CONNECTION_ACCESS_DENIED_REGEX msg = false) /\
  (Mssql.classify msg = Some Mssql.CONNECTION_PORT_CLOSED_ERROR <->
   PyStr.contains "Net-Lib error during Connection refused (61)" msg = true /\
   Mssql.matches Mssql.CONNECTION_ACCESS_DENIED_REGEX msg = false /\
   Mssql.matches Mssql.CONNECTION_INVALID_HOSTNAME_REGEX msg = false) /\
  (Mssql.classify msg = Some Mssql.CONNECTION_HOST_DOWN_ERROR <->
   PyStr.contains "Net-Lib error during Operation timed out (60)" msg = true /\
   Mssql.matches Mssql.CONNECTION_ACCESS_DENIED_REGEX msg = false /\
   Mssql.matches Mssql.CONNECTION_INVALID_HOSTNAME_REGEX msg = false /\
   Mssql.matches Mssql.CONNECTION_PORT_CLOSED_REGEX msg = false) /\
  (Mssql.matches Mssql.CONNECTION_INVALID_HOSTNAME_REGEX msg = true <->
   exists pre s h, msg = pre +:+ s /\ Mssql.names_unresolved_host s h) /\
  (forall context err,
     Mssql.extract_errors msg context = Some (Ok err) ->
     Mssql.error_type err = Mssql.CONNECTION_INVALID_HOSTNAME_ERROR ->
     exists pre s h, msg = pre +:+ s /\ Mssql.names_unresolved_host s h /\
       Mssql.message err
       = "The hostname " +:+ Mssql.dq +:+ h +:+ Mssql.dq +:+ " cannot be resolved.").
Proof.
  intros msg.
  rewrite <- !(matches_Lit _ msg).
  change (PyRe.Lit "Adaptive Server connection failed")
    with Mssql.CONNECTION_ACCESS_DENIED_REGEX.
  change (PyRe.Lit "Net-Lib error during Connection refused (61)")
    with Mssql.CONNECTION_PORT_CLOSED_REGEX.
  change (PyRe.Lit "Net-Lib error during Operation timed out (60)")
    with Mssql.CONNECTION_HOST_DOWN_REGEX.
  split; [|split; [|split; [|split; [|split]]]].
  5: apply matches_hostname.
  5: apply extract_errors_hostname.
  all: unfold Mssql.classify, Mssql.matches;
    cbn [Mssql.dispatch Mssql.custom_errors];
    destruct (PyRe.re_search Mssql.CONNECTION_ACCESS_DENIED_REGEX msg);
    destruct (PyRe.re_search Mssql.CONNECTION_INVALID_HOSTNAME_REGEX msg);
    destruct (PyRe.re_search Mssql.CONNECTION_PORT_CLOSED_REGEX msg);
    destruct (PyRe.re_search Mssql.CONNECTION_HOST_DOWN_REGEX msg);
    cbn; intuition congruence.
Qed.

(** C3, as stated, fails: a message that contains both "Adaptive Server
    connection failed" and "Net-Lib error during Connection refused (61)"
    matches the closed-port pattern and yet is classified as an access
    denial, the earlier entry of the table. *)
Lemma classify_not_by_own_pattern :
  Mssql.matches Mssql.CONNECTION_PORT_CLOSED_REGEX
    Examples.msg_denied_and_refused = true /\
  Mssql.classify Examples.msg_denied_and_refused
    = Some Mssql.CONNECTION_ACCESS_DENIED_ERROR /\
  ~ Mssql.classified_by_own_pattern Examples.msg_denied_and_refused.
Proof.
  assert (Hm : Mssql.matches Mssql.CONNECTION_PORT_CLOSED_REGEX
                 Examples.msg_denied_and_refused = true) by (vm_compute; reflexivity).
  assert (Hc : Mssql.classify Examples.msg_denied_and_refused
               = Some Mssql.CONNECTION_ACCESS_DENIED_ERROR) by (vm_compute; reflexivity).
  split; [exact Hm|]. split; [exact Hc|].
  intros (_ & _ & [_ H] & _). specialize (H Hm). congruence.
Qed.

(** The driver's messages for an unknown host and for a closed port. *)
Lemma classify_by_first_matching_pattern_witness :
  Mssql.classify Examples.msg_unknown_host
    = Some Mssql.CONNECTION_INVALID_HOSTNAME_ERROR /\
  Mssql.classify Examples.msg_port_closed
    = Some Mssql.CONNECTION_PORT_CLOSED_ERROR /\
  (exists pre s h, Examples.msg_unknown_host = pre +:+ s /\
     Mssql.names_unresolved_host s h /\
     "The hostname " +:+ Mssql.dq +:+ "locahost" +:+ Mssql.dq +:+ " cannot be resolved."
     = "The hostname " +:+ Mssql.dq +:+ h +:+ Mssql.dq +:+ " cannot be resolved.").
Proof.
  split; [|split].
  - apply (proj1 (proj2 (classify_by_first_matching_pattern Examples.msg_unknown_host))).
    split; vm_compute; reflexivity.
  - apply (proj1 (proj2 (proj2 (classify_by_first_matching_pattern Examples.msg_port_closed)))).
    repeat split; vm_compute; reflexivity.
  - exact (proj2 (proj2 (proj2 (proj2 (proj2
             (classify_by_first_matching_pattern Examples.msg_unknown_host)))))
           ∅
           (Mssql.mkSupersetError Mssql.CONNECTION_INVALID_HOSTNAME_ERROR
              ("The hostname " +:+ Mssql.dq +:+ "locahost" +:+ Mssql.dq +:+
               " cannot be resolved."))
           eq_refl eq_refl).
Defined.

(** ** Configuration: feature flags from the environment (C5) *)

Section FeatureFlagFacts.
Import PyStr PyRe Config.

Lemma star_greedy_accepts {C} p s (r : C) :
  star_greedy p s (fun _ => Some r) = Some r.
Proof.
  induction s as [|a s IH]; simpl; [done|].
  destruct (p a); [|done]. by rewrite IH.
Qed.

(** A pattern anchored at the start matches at no later position. *)
Lemma search_from_Bos_later whole r s :
  (String.length s < String.length whole)%nat ->
  search_from whole (Bos &> r) s = None.
Proof.
  induction s as [|a s IH]; intros Hlt; cbn [search_from match_here].
  - destruct (Nat.eqb_spec (String.length "") (String.length whole)) as [e|];
      [simpl in *; lia | done].
  - destruct (Nat.eqb_spec (String.length (String a s)) (String.length whole))
      as [e|]; [simpl in *; lia|].
    apply IH. simpl in Hlt. lia.
Qed.

Lemma feature_regex_spec name :
  is_Some (re_search SUPERSET_FEATURE_REGEX name) <->
  names_feature_flag name (drop (String.length "SUPERSET_FEATURE_") name).
Proof.
  unfold re_search, names_feature_flag.
  assert (Hhere : match_here name SUPERSET_FEATURE_REGEX name [] accept =
    if startswith "SUPERSET_FEATURE_" name then
      match drop (String.length "SUPERSET_FEATURE_") name with
      | String c _ => if is_word c then Some [] else None
      | EmptyString => None
      end
    else None).
  { unfold SUPERSET_FEATURE_REGEX. cbn [match_here].
    rewrite Nat.eqb_refl.
    destruct (startswith _ name); [|done].
    generalize (drop (String.length "SUPERSET_FEATURE_") name).
    intros [|c rest]; [reflexivity|].
    cbn [in_class]. destruct (is_word c); [|reflexivity].
    apply star_greedy_accepts. }
  assert (Hs : search_from name SUPERSET_FEATURE_REGEX name =
               match_here name SUPERSET_FEATURE_REGEX name [] accept).
  { destruct name as [|a name]; cbn [search_from].
    - by destruct (match_here _ _ _ _ _).
    - destruct (match_here _ _ (String a name) _ _); [done|].
      apply search_from_Bos_later. simpl. lia. }
  rewrite Hs, Hhere. split.
  - destruct (startswith _ name) eqn:Hp; [|by intros [? ?]].
    apply startswith_spec in Hp as [flag ->]. rewrite str_drop_app.
    destruct flag as [|c rest]; [by intros [? ?]|].
    destruct (is_word c) eqn:Hw; [|by intros [? ?]].
    intros _. split; [done|]. by exists c, rest.
  - intros [Hn (c & rest & Hd & Hw)].
    rewrite Hn at 1. rewrite startswith_app, Hd, Hw. by eexists.
Qed.

(** The key the comprehension gives determines the variable it came from. *)
Lemma env_flag_Some parse name value flag b :
  env_flag parse (name, value) = Some (flag, b) <->
  names_feature_flag name flag /\ b = parse value.
Proof.
  unfold env_flag. cbn [fst snd]. split.
  - destruct (re_search _ name) eqn:E; [|done]. intros [= <- <-].
    split; [|done]. apply feature_regex_spec. by rewrite E.
  - intros [Hn ->]. pose proof Hn as [-> _]. rewrite str_drop_app.
    destruct (proj2 (feature_regex_spec ("SUPERSET_FEATURE_" +:+ flag))) as [g ->];
      [by rewrite str_drop_app | done].
Qed.

Lemma foldl_insert_lookup {V} (l : list (string * V)) (m : gmap string V) k :
  NoDup (l.*1) ->
  foldl (fun d kv => <[kv.1 := kv.2]> d) m l !! k =
    match list_find (fun kv => kv.1 = k) l with
    | Some (_, kv) => Some kv.2
    | None => m !! k
    end.
Proof.
  revert m. induction l as [|[k' v'] l IH]; intros m Hnd; [done|].
  cbn [foldl fmap list_fmap fst] in *. apply NoDup_cons in Hnd as [Hk Hnd].
  rewrite IH by done. cbn [list_find fst snd].
  destruct (decide (k' = k)) as [->|Hne].
  - destruct (list_find _ l) as [[i kv]|] eqn:E.
    + apply list_find_Some in E as (Hi & Hkv & _).
      destruct Hk. apply list_elem_of_fmap. exists kv. split; [done|].
      by eapply list_elem_of_lookup_2.
    + cbn. by rewrite lookup_insert_eq.
  - destruct (list_find _ l) as [[i kv]|]; cbn; [done|].
    by rewrite lookup_insert_ne.
Qed.

Lemma NoDup_fst_unique {A B} (l : list (A * B)) k v v' :
  NoDup (l.*1) -> (k, v) ∈ l -> (k, v') ∈ l -> v = v'.
Proof.
  induction l as [|[a b] l IH]; cbn [fmap list_fmap fst]; intros Hnd H1 H2.
  - by apply elem_of_nil in H1.
  - apply NoDup_cons in Hnd as [Ha Hnd].
    apply elem_of_cons in H1 as [H1|H1]; apply elem_of_cons in H2 as [H2|H2].
    + congruence.
    + injection H1 as -> ->. destruct Ha.
      apply list_elem_of_fmap. by exists (a, v').
    + injection H2 as -> ->. destruct Ha.
      apply list_elem_of_fmap. by exists (a, v).
    + by apply IH.
Qed.

Lemma dict_of_items_lookup {V} (l : list (string * V)) k v :
  NoDup (l.*1) -> dict_of_items l !! k = Some v <-> (k, v) ∈ l.
Proof.
  intros Hnd. unfold dict_of_items. rewrite foldl_insert_lookup by done.
  destruct (list_find _ l) as [[i [k' v']]|] eqn:E.
  - apply list_find_Some in E as (Hi & Hk & _). cbn in Hk. subst k'. cbn.
    apply list_elem_of_lookup_2 in Hi. split.
    + by intros [= ->].
    + intros Hin. f_equal. by eapply NoDup_fst_unique.
  - rewrite lookup_empty. split; [done|]. intros Hin.
    apply list_find_None in E. rewrite Forall_forall in E.
    by destruct (E _ Hin).
Qed.

Lemma env_flags_NoDup parse (l : list (string * string)) :
  NoDup (l.*1) -> NoDup ((omap (env_flag parse) l).*1).
Proof.
  induction l as [|[name value] l IH]; intros Hnd; [constructor|].
  cbn [fmap list_fmap fst] in Hnd. apply NoDup_cons in Hnd as [Hk Hnd].
  cbn [omap list_omap].
  destruct (env_flag parse (name, value)) as [[flag b]|] eqn:E; [|by apply IH].
  cbn [fmap list_fmap fst]. apply NoDup_cons. split; [|by apply IH].
  intros Hin. apply list_elem_of_fmap in Hin as ([flag' b'] & Hf & Hin).
  cbn in Hf. subst flag'.
  apply list_elem_of_omap in Hin as ([name' value'] & Hin & E').
  apply env_flag_Some in E as [[-> _] _].
  apply env_flag_Some in E' as [[-> _] _].
  apply Hk, list_elem_of_fmap. by exists ("SUPERSET_FEATURE_" +:+ flag, value').
Qed.

(** The dict that the comprehension over the environment builds. *)
Lemma environ_feature_flags_lookup parse environ flag b :
  environ_feature_flags parse environ !! flag = Some b <->
  exists name value, environ !! name = Some value /\
    names_feature_flag name flag /\ b = parse value.
Proof.
  unfold environ_feature_flags.
  rewrite dict_of_items_lookup
    by apply env_flags_NoDup, NoDup_fst_map_to_list.
  rewrite list_elem_of_omap. split.
  - intros ([name value] & Hin & E). exists name, value.
    split; [by apply elem_of_map_to_list|]. by apply env_flag_Some.
  - intros (name & value & Hl & Hn). exists (name, value).
    split; [by apply elem_of_map_to_list|]. by apply env_flag_Some.
Qed.

End FeatureFlagFacts.



(** ** Configuration: the override block (C1) *)

Section OverrideBlock.
Import PyStr Config.


Lemma copy_upper_lookup override_conf m key k :
  isupper k = true ->
  copy_upper override_conf m key !! k =
    if decide (key = k) then
      match override_conf !! k with Some v => Some v | None => m !! k end
    else m !! k.
Proof.
  intros Hk. assert (Hne : "key" <> k) by (intros <-; discriminate).
  unfold copy_upper. destruct (decide (key = k)) as [->|Hkey].
  - rewrite Hk. destruct (override_conf !! k).
    + by rewrite lookup_insert_eq.
    + by rewrite lookup_insert_ne.
  - destruct (isupper key); [destruct (override_conf !! key)|].
    + by rewrite !lookup_insert_ne.
    + by rewrite lookup_insert_ne.
    + by rewrite lookup_insert_ne.
Qed.

Lemma foldl_copy_upper_lookup override_conf keys m k :
  isupper k = true ->
  foldl (copy_upper override_conf) m keys !! k =
    match (if bool_decide (k ∈ keys) then override_conf !! k else None) with
    | Some v => Some v
    | None => m !! k
    end.
Proof.
  intros Hk. revert m. induction keys as [|key keys IH]; intros m; [done|].
  cbn [foldl]. rewrite IH, copy_upper_lookup by done.
  destruct (decide (key = k)) as [->|Hne].
  - rewrite (bool_decide_eq_true_2 (k ∈ k :: keys)) by left.
    destruct (bool_decide (k ∈ keys)); by destruct (override_conf !! k).
  - destruct (bool_decide_reflect (k ∈ keys)) as [Hin|Hout].
    + by rewrite bool_decide_eq_true_2 by (by right).
    + rewrite bool_decide_eq_false_2; [done|].
      intros [?|?]%elem_of_cons; congruence.
Qed.

Lemma bind_names_lookup m names module final :
  bind_names m names module = Ok final ->
  (forall n, n ∈ names -> is_Some (m !! n)) /\
  forall k, final !! k = if bool_decide (k ∈ names) then m !! k else module !! k.
Proof.
  revert module. induction names as [|n names IH]; intros module; cbn [bind_names].
  - intros [= <-]. split; [by intros n Hn%elem_of_nil | done].
  - destruct (m !! n) as [v|] eqn:Hn; [|done]. intros H.
    destruct (IH _ H) as [Hdef Hfin]. split.
    + intros n' [->|Hin]%elem_of_cons; [by eexists | by apply Hdef].
    + intros k. rewrite Hfin.
      destruct (bool_decide_reflect (k ∈ names)) as [Hin|Hout].
      * by rewrite bool_decide_eq_true_2 by (by right).
      * destruct (decide (k = n)) as [->|Hne].
        -- rewrite bool_decide_eq_true_2 by left. by rewrite lookup_insert_eq.
        -- rewrite bool_decide_eq_false_2
             by (intros [?|?]%elem_of_cons; congruence).
           by rewrite lookup_insert_ne.
Qed.




End OverrideBlock.



(** The same override file, loaded by path and imported as a module: the
    upper-case setting wins both ways, the lower-case helper name reaches
    the configuration module only through [import *]. *)
Lemma helper_name_by_path_and_by_import :
  (exists final,
     Config.load_local_config {["SUPERSET_CONFIG_PATH" := "/etc/superset_config.py"]}
       (Examples.importer_file "/etc/superset_config.py" Examples.override_with_helper)
       Examples.module_defaults = Ok final /\
     final !! "ROW_LIMIT" = Some (Config.VInt 5) /\
     final !! "row_limit_note" = None) /\
  (exists final,
     Config.load_local_config ∅
       (Examples.importer_module Examples.override_with_helper)
       Examples.module_defaults = Ok final /\
     final !! "ROW_LIMIT" = Some (Config.VInt 5) /\
     final !! "row_limit_note" = Some (Config.VStr "five")).
Proof.
  split; (eexists; split; [reflexivity|]; split; vm_compute; reflexivity).
Qed.

(** A path that does not load is an error even when [superset_config] could
    be imported. *)
Lemma no_fallback_on_superset_config :
  Config.load_local_config {["SUPERSET_CONFIG_PATH" := "/etc/missing.py"]}
    (Examples.importer_module Examples.override_with_helper)
    Examples.module_defaults
  = Raise (mkException "FileNotFoundError" "no such file").
Proof. reflexivity. Qed.


(** [DEFAULT_FEATURE_FLAGS] when the whole file has run: what the literal
    and the environment made of it, unless the override in force rebinds
    the name. *)
Lemma feature_flags_after_load parse environ imp others final :
  Config.load_config parse environ imp others = Ok final ->
  (forall override, Config.override_in_force environ imp = Some override ->
                    override !! "DEFAULT_FEATURE_FLAGS" = None) ->
  final !! "DEFAULT_FEATURE_FLAGS"
  = Some (Config.VFlags (Config.DEFAULT_FEATURE_FLAGS parse environ)).
Proof.
  unfold Config.load_config, Config.override_in_force, Config.load_local_config.
  set (module := <["DEFAULT_FEATURE_FLAGS" := _]> others).
  assert (Hm : module !! "DEFAULT_FEATURE_FLAGS"
               = Some (Config.VFlags (Config.DEFAULT_FEATURE_FLAGS parse environ)))
    by apply lookup_insert_eq.
  intros Hload Hfree.
  destruct (environ !! Config.CONFIG_PATH_ENV_VAR) as [cfg_path|].
  - destruct (Config.exec_file imp cfg_path) as [oc|e]; [|done].
    injection Hload as <-.
    rewrite foldl_copy_upper_lookup by done.
    rewrite (Hfree oc eq_refl), !lookup_insert_ne by done.
    by destruct (bool_decide _).
  - destruct (Config.superset_config imp) as [[m|e]|]; [|done|].
    + destruct (Config.star_names m) as [names|e]; [|done].
      apply bind_names_lookup in Hload as [Hdef ->].
      destruct (bool_decide_reflect ("DEFAULT_FEATURE_FLAGS" ∈ names)) as [Hin|_].
      * destruct (Hdef _ Hin) as [v Hv]. rewrite (Hfree m eq_refl) in Hv. done.
      * by rewrite lookup_insert_ne.
    + by injection Hload as <-.
Qed.

(** An override that rebinds [DEFAULT_FEATURE_FLAGS] replaces the dict, the
    flags set through the environment included. *)
Lemma feature_flags_rebound_by_override :
  exists final,
    Config.load_config Examples.parse_bool
      (<["SUPERSET_CONFIG_PATH" := "/etc/superset_config.py"]>
         Examples.environ_alerts_on)
      (Examples.importer_file "/etc/superset_config.py"
         Examples.override_rebinding_flags) ∅ = Ok final /\
    final !! "DEFAULT_FEATURE_FLAGS" = Some (Config.VFlags ∅).
Proof. eexists. split; [reflexivity|]. vm_compute. reflexivity. Qed.

(** ** Impala: the polling loop (C4, C8, C9) *)

Section PollingLoop.
Import Impala.

Lemma run_bind_trace {E A B} (m : Run E A) (f : A -> Run E B) :
  exists rest, trace (run_bind m f) = trace m ++ rest /\
    match outcome m with
    | Ok a => rest = trace (f a) /\ outcome (run_bind m f) = outcome (f a)
    | Raise e => rest = [] /\ outcome (run_bind m f) = Raise e
    end.
Proof.
  unfold run_bind. destruct (outcome m) as [a|e]; cbn.
  - by exists (trace (f a)).
  - exists []. by rewrite app_nil_r.
Qed.

Lemma run_bind_Ok {E A B} (m : Run E A) (f : A -> Run E B) a :
  outcome m = Ok a ->
  run_bind m f = mkRun (trace m ++ trace (f a)) (outcome (f a)).
Proof. unfold run_bind. by intros ->. Qed.

Lemma run_bind_Raise {E A B} (m : Run E A) (f : A -> Run E B) e :
  outcome m = Raise e -> run_bind m f = mkRun (trace m) (Raise e).
Proof. unfold run_bind. by intros ->. Qed.

(** *** Composition of the trace predicates *)

Lemma quiet_app t1 t2 : quiet t1 -> quiet t2 -> quiet (t1 ++ t2).
Proof. apply Forall_app_2. Qed.





End PollingLoop.

Section PollingLoopBody.
Import Impala.

Variable QUERY_EARLY_CANCEL_KEY : string.

Ltac split_all := repeat match goal with |- _ /\ _ => split end.


(** What [update_progress] does to the trace and to the locals. *)
Lemma update_progress_facts w i qid l :
  (quiet (trace (update_progress w i qid l)) /\
   uncancelled (trace (update_progress w i qid l))) /\
  writes_increase_and_commit (trace (update_progress w i qid l)) /\
  never_decreases (q_progress (query l)) (trace (update_progress w i qid l)) /\
  (progress_bounded l ->
   forall lg, writes_fresh lg (trace (update_progress w i qid l))) /\
  (forall l', outcome (update_progress w i qid l) = Ok l' ->
     final_progress (q_progress (query l)) (trace (update_progress w i qid l))
       = q_progress (query l') /\
     (progress_bounded l -> progress_bounded l')).
Proof.
  unfold update_progress, progress_bounded, quiet, uncancelled.
  destruct (cursor_get_log w i) as [[log|]|e]; cbn;
    [ destruct (String.eqb log "") eqn:Hlog; cbn;
      [| destruct (parse_progress log) as [p|] eqn:Hparse; cbn;
         [| destruct (progress l) as [p|] eqn:Hp; cbn ];
         try (destruct (Z.ltb_spec (q_progress (query l)) p); cbn;
              [destruct (session_commit w i _); cbn|]) ] | | ];
    split_all; intros; simplify_eq/=;
    repeat (apply Forall_cons; split; [done|]); try apply Forall_nil;
    try done; try lia;
    try (split; [by eexists | done]);
    try (split; [done | intros; simplify_eq; lia]);
    try (exfalso;
         match goal with
         | H0 : forall p, _ = Some p -> _ |- _ => pose proof (H0 _ eq_refl); lia
         end).
Qed.




End PollingLoopBody.

Section PollingLoopRuns.
Import Impala.

Variable QUERY_EARLY_CANCEL_KEY : string.



(** The trace of [handle_cursor]: the first poll, the trace of the loop,
    and the record of the exception when one was caught. *)
Lemma handle_cursor_trace fuel w q r :
  handle_cursor QUERY_EARLY_CANCEL_KEY fuel w q = Some r ->
  outcome r = Ok tt /\
  ((exists e, cursor_status w 0 = Raise e /\
              trace r = [CursorStatus (Raise e); status_failed]) \/
   (exists status r',
      cursor_status w 0 = Ok status /\
      while_loop QUERY_EARLY_CANCEL_KEY fuel w 0 (q_id q) status (mkLocals q None)
        = Some r' /\
      trace r = CursorStatus (Ok status) :: trace r' ++ closing r')).
Proof.
  unfold handle_cursor, polling.
  destruct (cursor_status w 0) as [status|e].
  - destruct (while_loop _ fuel w 0 (q_id q) status _) as [r'|] eqn:Hloop; [|done].
    intros [= <-]. unfold try_except. cbn.
    destruct (outcome r') as [l'|e] eqn:Ho; cbn.
    + split; [done|]. right. exists status, r'. unfold closing.
      by rewrite Ho, app_nil_r.
    + split; [done|]. right. exists status, r'. unfold closing. by rewrite Ho.
  - intros [= <-]. split; [done|]. left. by exists e.
Qed.

End PollingLoopRuns.

Section PolledFacts.
Import Impala.







End PolledFacts.








(** More fuel does not change a run that ended. *)
Lemma while_loop_more_fuel key w fuel :
  forall i qid status l r,
  Impala.while_loop key fuel w i qid status l = Some r ->
  Impala.while_loop key (S fuel) w i qid status l = Some r.
Proof.
  induction fuel as [|fuel IH]; intros i qid status l r.
  - cbn [Impala.while_loop]. by destruct (Impala.is_unfinished status).
  - intros H. cbn [Impala.while_loop] in *.
    destruct (Impala.is_unfinished status); [|done].
    destruct (outcome (Impala.loop_body key w i qid l)) as [[[|status'] l']|e];
      try done.
    destruct (Impala.while_loop key fuel w (S i) qid status' l') as [r'|] eqn:Hr;
      [|done].
    by rewrite (IH _ _ _ _ _ Hr).
Qed.

(** ** More on strings and decimal numerals *)

Section NumeralFacts.
Import PyStr PyMore.

Lemma str_app_sep (c : ascii) (b : string) : String c "" +:+ b = String c b.
Proof. reflexivity. Qed.

Lemma str_app_inv_tail (a b s : string) : a +:+ s = b +:+ s -> a = b.
Proof.
  revert b. induction a as [|x a IH]; intros [|y b] H.
  - done.
  - apply (f_equal String.length) in H.
    rewrite str_app_empty_l, str_app_cons in H. cbn [String.length] in H.
    rewrite str_length_app in H. lia.
  - apply (f_equal String.length) in H.
    rewrite str_app_empty_l, str_app_cons in H. cbn [String.length] in H.
    rewrite str_length_app in H. lia.
  - rewrite !str_app_cons in H. injection H as -> H. by rewrite (IH _ H).
Qed.

Lemma str_take_drop n s : take n s +:+ drop n s = s.
Proof.
  revert s. induction n as [|n IH]; intros [|c s]; try done.
  cbn [take drop]. by rewrite str_app_cons, IH.
Qed.

Lemma str_length_take n s : String.length (take n s) = (n `min` String.length s)%nat.
Proof.
  revert s. induction n as [|n IH]; intros [|c s]; try done.
  cbn [take String.length]. by rewrite IH.
Qed.

Lemma str_length_drop n s : String.length (drop n s) = (String.length s - n)%nat.
Proof.
  revert s. induction n as [|n IH]; intros [|c s];
    cbn [drop String.length]; try lia.
  rewrite IH. lia.
Qed.

Lemma endswith_app a suffix : endswith suffix (a +:+ suffix) = true.
Proof.
  unfold endswith. rewrite str_length_app.
  replace (String.length a + String.length suffix - String.length suffix)%nat
    with (String.length a) by lia.
  rewrite str_drop_app, String.eqb_refl, andb_true_r.
  apply Nat.leb_le. lia.
Qed.

Lemma endswith_spec suffix s :
  endswith suffix s = true <-> exists a, s = a +:+ suffix.
Proof.
  split.
  - unfold endswith. intros [_ H%String.eqb_eq]%andb_true_iff.
    remember (String.length s - String.length suffix)%nat as n.
    exists (take n s). rewrite <- H. symmetry. apply str_take_drop.
  - intros [a ->]. apply endswith_app.
Qed.

(** The decimal numeral of a number: digits only, and at least one. *)
Lemma string_of_uint_digits d :
  forallb_str is_digit (NilEmpty.string_of_uint d) = true.
Proof. induction d; cbn; done. Qed.

Lemma str_of_nonneg_digits n : forallb_str is_digit (str_of_nonneg n) = true.
Proof. apply string_of_uint_digits. Qed.

Lemma str_of_nonneg_head n :
  exists c s, str_of_nonneg n = String c s /\ is_digit c = true.
Proof.
  unfold str_of_nonneg. destruct (Z.to_N n) as [|p]; [by exists "0"%char, ""|].
  cbn [N.to_uint]. pose proof (DecimalPos.Unsigned.to_uint_nonnil p) as Hnil.
  destruct (Pos.to_uint p); [done|..]; cbn; by do 2 eexists.
Qed.

Lemma zeros_digits n : forallb_str is_digit (zeros n) = true.
Proof. induction n; [done|]. cbn. exact IHn. Qed.

Lemma zero_padded_digits w n : forallb_str is_digit (zero_padded w n) = true.
Proof.
  unfold zero_padded. by rewrite forallb_str_app, zeros_digits, str_of_nonneg_digits.
Qed.

Lemma zero_padded_head w n :
  exists c s, zero_padded w n = String c s /\ is_digit c = true.
Proof.
  unfold zero_padded. destruct (w - _)%nat as [|k].
  - rewrite str_app_empty_l. apply str_of_nonneg_head.
  - cbn [zeros]. rewrite str_app_cons. by do 2 eexists.
Qed.

Ltac eval_digit :=
  match goal with
  | |- context [digit_value ?c] =>
      let v := eval vm_compute in (digit_value c) in
      change (digit_value c) with v
  end.

(** [int] reads a numeral back. *)
Lemma int_digits_of_uint_acc d acc :
  int_digits (Z.pos acc) (NilEmpty.string_of_uint d)
  = Z.pos (Pos.of_uint_acc d acc).
Proof.
  revert acc.
  induction d; intros acc;
    cbn [NilEmpty.string_of_uint int_digits Pos.of_uint_acc]; [done|..];
    rewrite <- IHd; f_equal; eval_digit; lia.
Qed.

Lemma int_digits_of_uint d :
  int_digits 0 (NilEmpty.string_of_uint d) = Z.of_N (Pos.of_uint d).
Proof.
  induction d; cbn [NilEmpty.string_of_uint int_digits Pos.of_uint]; [done|..];
    eval_digit; [exact IHd|..]; apply int_digits_of_uint_acc.
Qed.

Lemma int_str_of_nonneg n : 0 <= n -> int (str_of_nonneg n) = n.
Proof.
  intros Hn. unfold int, str_of_nonneg. rewrite int_digits_of_uint.
  change (Pos.of_uint ?d) with (N.of_uint d).
  rewrite DecimalN.Unsigned.of_to. lia.
Qed.

Lemma int_digits_zeros k s : int_digits 0 (zeros k +:+ s) = int_digits 0 s.
Proof. induction k; [done|]. cbn [zeros]. rewrite str_app_cons. exact IHk. Qed.

Lemma int_zero_padded w n : 0 <= n -> int (zero_padded w n) = n.
Proof.
  intros Hn. unfold int, zero_padded. rewrite int_digits_zeros.
  by apply int_str_of_nonneg.
Qed.

Lemma zero_padded_inj w n m :
  0 <= n -> 0 <= m -> zero_padded w n = zero_padded w m -> n = m.
Proof.
  intros Hn Hm H. rewrite <- (int_zero_padded w n), <- (int_zero_padded w m) by done.
  by rewrite H.
Qed.

(** Two runs of digits, each followed by a character that is no digit:
    equal texts have equal runs. *)
Lemma digits_sep_inj a a' c c' r r' :
  forallb_str is_digit a = true -> forallb_str is_digit a' = true ->
  is_digit c = false -> is_digit c' = false ->
  a +:+ String c r = a' +:+ String c' r' ->
  a = a' /\ String c r = String c' r'.
Proof.
  revert a'. induction a as [|x a IH]; intros [|y a'] Ha Ha' Hc Hc' H.
  - done.
  - rewrite str_app_empty_l, str_app_cons in H. injection H as -> _.
    cbn in Ha'. apply andb_true_iff in Ha' as [Hy _]. congruence.
  - rewrite str_app_empty_l, str_app_cons in H. injection H as -> _.
    cbn in Ha. apply andb_true_iff in Ha as [Hx _]. congruence.
  - rewrite !str_app_cons in H. injection H as -> H.
    cbn in Ha, Ha'. apply andb_true_iff in Ha as [_ Ha].
    apply andb_true_iff in Ha' as [_ Ha'].
    destruct (IH a' Ha Ha' Hc Hc' H) as [-> ?]. done.
Qed.

(** The same for zero-padded numbers. *)
Lemma zero_padded_sep_inj w w' n m c c' r r' :
  w = w' -> 0 <= n -> 0 <= m ->
  is_digit c = false -> is_digit c' = false ->
  zero_padded w n +:+ String c r = zero_padded w' m +:+ String c' r' ->
  n = m /\ String c r = String c' r'.
Proof.
  intros <- Hn Hm Hc Hc' H.
  apply digits_sep_inj in H as [H ?]; try done; try apply zero_padded_digits.
  split; [|done]. by apply (zero_padded_inj w).
Qed.

End NumeralFacts.

(** ** Date and time literals of the two engines *)

Section DatetimeLiterals.
Import PyStr PyMore Mssql PyDatetime.

Lemma str_app_inv_head (p a b : string) : p +:+ a = p +:+ b -> a = b.
Proof.
  induction p as [|x p IH]; [done|]. rewrite !str_app_cons.
  intros [= H]. by apply IH.
Qed.

Lemma forallb_str_impl (p q : ascii -> bool) s :
  (forall c, p c = true -> q c = true) ->
  forallb_str p s = true -> forallb_str q s = true.
Proof.
  intros Hpq. induction s as [|c s IH]; [done|]. cbn.
  intros [Hc Hs]%andb_true_iff. by rewrite (Hpq _ Hc), IH.
Qed.

Lemma zero_padded_iso w n : forallb_str iso_char (zero_padded w n) = true.
Proof.
  apply (forallb_str_impl is_digit); [|apply zero_padded_digits].
  intros c Hc. unfold iso_char. by rewrite Hc.
Qed.

Ltac solve_iso :=
  repeat first
    [ reflexivity
    | apply zero_padded_iso
    | rewrite forallb_str_app; apply andb_true_iff; split ].

Lemma date_isoformat_iso d : forallb_str iso_char (date_isoformat d) = true.
Proof. unfold date_isoformat. solve_iso. Qed.

Lemma time_seconds_iso d : forallb_str iso_char (time_seconds d) = true.
Proof. unfold time_seconds. solve_iso. Qed.

Lemma format_offset_iso o : forallb_str iso_char (format_offset o) = true.
Proof.
  destruct o as [o|]; [|done]. cbn [format_offset].
  destruct (o <? 0), (_ =? 0); [| destruct (_ =? 0) | | destruct (_ =? 0)];
    solve_iso.
Qed.

(** An offset, when it is printed, starts with its sign. *)
Lemma format_offset_tail o c0 tail :
  is_digit c0 = false ->
  exists c r, format_offset o +:+ String c0 tail = String c r /\
              is_digit c = false.
Proof.
  intros Hc0. destruct o as [o|]; [|by exists c0, tail].
  cbn [format_offset]. destruct (o <? 0);
    rewrite !str_app_assoc, str_app_cons; by do 2 eexists.
Qed.

Lemma in_range_nonneg d :
  in_range d = true ->
  0 <= year d /\ 0 <= month d /\ 0 <= day d /\ 0 <= hour d /\
  0 <= minute d /\ 0 <= second d /\ 0 <= microsecond d < 1000000.
Proof. unfold in_range. rewrite !andb_true_iff. lia. Qed.

(** Taking the next zero-padded number off two equal texts. *)
Ltac next_field H name :=
  rewrite ?str_app_assoc, ?str_app_sep in H;
  apply zero_padded_sep_inj in H as [name H];
    [ | reflexivity | try lia; try (apply Z.div_pos; lia) ..
      | reflexivity | reflexivity ];
  try (injection H as H).

Lemma date_literal_inj d1 d2 c r c' r' :
  in_range d1 = true -> in_range d2 = true ->
  is_digit c = false -> is_digit c' = false ->
  date_isoformat d1 +:+ String c r = date_isoformat d2 +:+ String c' r' ->
  same_date d1 d2 /\ String c r = String c' r'.
Proof.
  intros H1%in_range_nonneg H2%in_range_nonneg Hc Hc' H.
  unfold date_isoformat, same_date in *.
  next_field H Hy. next_field H Hm.
  apply zero_padded_sep_inj in H as [Hd H]; try done; lia.
Qed.

Lemma time_literal_inj d1 d2 c r c' r' :
  in_range d1 = true -> in_range d2 = true ->
  is_digit c = false -> is_digit c' = false ->
  time_seconds d1 +:+ String c r = time_seconds d2 +:+ String c' r' ->
  (hour d1 = hour d2 /\ minute d1 = minute d2 /\ second d1 = second d2) /\
  String c r = String c' r'.
Proof.
  intros H1%in_range_nonneg H2%in_range_nonneg Hc Hc' H.
  unfold time_seconds in *.
  next_field H Hh. next_field H Hm.
  apply zero_padded_sep_inj in H as [Hs H]; try done; lia.
Qed.

(** The last number of a literal, the offset and the closing text. *)
Lemma last_field_inj w n m o1 o2 c0 tail :
  0 <= n -> 0 <= m -> is_digit c0 = false ->
  zero_padded w n +:+ format_offset o1 +:+ String c0 tail
  = zero_padded w m +:+ format_offset o2 +:+ String c0 tail ->
  n = m /\ format_offset o1 = format_offset o2.
Proof.
  intros Hn Hm Hc0 H.
  destruct (format_offset_tail o1 c0 tail Hc0) as (c & r & E1 & Hc).
  destruct (format_offset_tail o2 c0 tail Hc0) as (c' & r' & E2 & Hc').
  rewrite E1, E2 in H.
  apply zero_padded_sep_inj in H as [Hnm H]; try done.
  split; [done|]. rewrite <- E1, <- E2 in H. by apply str_app_inv_tail in H.
Qed.

(** The time of day, the offset and the closing text. *)
Lemma time_offset_inj d1 d2 o1 o2 c0 tail :
  in_range d1 = true -> in_range d2 = true -> is_digit c0 = false ->
  time_seconds d1 +:+ format_offset o1 +:+ String c0 tail
  = time_seconds d2 +:+ format_offset o2 +:+ String c0 tail ->
  (hour d1 = hour d2 /\ minute d1 = minute d2 /\ second d1 = second d2) /\
  format_offset o1 = format_offset o2.
Proof.
  intros R1 R2 Hc0 H.
  destruct (format_offset_tail o1 c0 tail Hc0) as (c & r & E1 & Hc).
  destruct (format_offset_tail o2 c0 tail Hc0) as (c' & r' & E2 & Hc').
  rewrite E1, E2 in H.
  apply time_literal_inj in H as [Ht H]; try done.
  split; [done|]. rewrite <- E1, <- E2 in H. by apply str_app_inv_tail in H.
Qed.

End DatetimeLiterals.

(** X1. Whatever the column type and the datetime, the SQL that Impala's
    [convert_dttm] returns is a [CAST] of a quoted text to [DATE] or to
    [TIMESTAMP], and the quoted text is made of digits and of the
    punctuation of an ISO date and time only: no quote can end the literal
    early. *)
Theorem impala_convert_dttm_quotes_iso_text :
  forall (get_sqla_column_type : string -> option Mssql.sqla_type)
         (target_type : string) (dttm : Mssql.datetime) (sql : string),
  ImpalaEngine.convert_dttm get_sqla_column_type target_type dttm = Some sql ->
  exists lit ty,
    sql = "CAST('" +:+ lit +:+ "' AS " +:+ ty +:+ ")" /\
    (ty = "DATE" \/ ty = "TIMESTAMP") /\
    PyStr.forallb_str PyDatetime.iso_char lit = true.
Proof.
  intros get t d sql. unfold ImpalaEngine.convert_dttm.
  destruct (Mssql.isinstance (get t) Mssql.types_Date).
  - intros [= <-]. exists (Mssql.date_isoformat d), "DATE".
    split; [done|]. split; [by left|]. apply date_isoformat_iso.
  - destruct (Mssql.isinstance (get t) Mssql.types_TIMESTAMP); [|done].
    intros [= <-]. exists (ImpalaEngine.isoformat_microseconds d), "TIMESTAMP".
    split; [done|]. split; [by right|].
    unfold ImpalaEngine.isoformat_microseconds.
    rewrite !forallb_str_app, date_isoformat_iso, time_seconds_iso,
      zero_padded_iso, format_offset_iso. done.
Qed.

(** A timestamp column and an afternoon in March. *)
Lemma impala_convert_dttm_quotes_iso_text_witness :
  exists lit ty,
    "CAST('2024-03-09T14:05:07.000250' AS TIMESTAMP)"
    = "CAST('" +:+ lit +:+ "' AS " +:+ ty +:+ ")" /\
    (ty = "DATE" \/ ty = "TIMESTAMP") /\
    PyStr.forallb_str PyDatetime.iso_char lit = true.
Proof.
  apply (impala_convert_dttm_quotes_iso_text
           (fun _ => Some Mssql.types_TIMESTAMP) "TIMESTAMP"
           (Mssql.mkDatetime 2024 3 9 14 5 7 250 None)).
  reflexivity.
Defined.

(** X2. What Impala's literals tell apart. For a [Date] column two
    datetimes get the same SQL exactly when they fall on the same calendar
    day; for a [TIMESTAMP] column exactly when they agree in every field
    down to the microsecond and their UTC offsets print the same: the
    literal keeps the full resolution of the datetime. *)
Theorem impala_convert_dttm_resolution :
  forall (get_sqla_column_type : string -> option Mssql.sqla_type)
         (target_type : string) (d1 d2 : Mssql.datetime),
  PyDatetime.in_range d1 = true -> PyDatetime.in_range d2 = true ->
  (Mssql.isinstance (get_sqla_column_type target_type) Mssql.types_Date = true ->
   (ImpalaEngine.convert_dttm get_sqla_column_type target_type d1
    = ImpalaEngine.convert_dttm get_sqla_column_type target_type d2
    <-> PyDatetime.same_date d1 d2)) /\
  (Mssql.isinstance (get_sqla_column_type target_type) Mssql.types_Date = false ->
   Mssql.isinstance (get_sqla_column_type target_type) Mssql.types_TIMESTAMP = true ->
   (ImpalaEngine.convert_dttm get_sqla_column_type target_type d1
    = ImpalaEngine.convert_dttm get_sqla_column_type target_type d2
    <-> PyDatetime.same_time 1 d1 d2)).
Proof.
  intros get t d1 d2 R1 R2. unfold ImpalaEngine.convert_dttm. split.
  - intros ->. split.
    + intros [= H]. apply str_app_inv_head in H.
      by apply date_literal_inj in H as [H _].
    + intros (Hy & Hm & Hd). unfold Mssql.date_isoformat.
      by rewrite Hy, Hm, Hd.
  - intros -> ->. split.
    + intros [= H]. apply str_app_inv_head in H.
      unfold ImpalaEngine.isoformat_microseconds in H.
      rewrite !str_app_assoc, !str_app_sep in H.
      apply date_literal_inj in H as [Hdate H]; try done.
      injection H as H.
      apply time_literal_inj in H as [(Hh & Hm & Hs) H]; try done.
      injection H as H.
      apply in_range_nonneg in R1, R2.
      apply last_field_inj in H as [Hus Hoff]; try done; try lia.
      unfold PyDatetime.same_time. by rewrite !Z.div_1_r.
    + intros (Hdate & Hh & Hm & Hs & Hus & Hoff).
      destruct Hdate as (Hy & Hmo & Hd). rewrite !Z.div_1_r in Hus.
      unfold ImpalaEngine.isoformat_microseconds, Mssql.date_isoformat,
        Mssql.time_seconds.
      by rewrite Hy, Hmo, Hd, Hh, Hm, Hs, Hus, Hoff.
Qed.

(** Two datetimes one microsecond apart: a timestamp column tells them
    apart. *)
Lemma impala_convert_dttm_resolution_witness :
  ImpalaEngine.convert_dttm (fun _ => Some Mssql.types_TIMESTAMP) "TIMESTAMP"
    (Mssql.mkDatetime 2024 3 9 14 5 7 250 None)
  = ImpalaEngine.convert_dttm (fun _ => Some Mssql.types_TIMESTAMP) "TIMESTAMP"
      (Mssql.mkDatetime 2024 3 9 14 5 7 251 None)
  <-> PyDatetime.same_time 1 (Mssql.mkDatetime 2024 3 9 14 5 7 250 None)
        (Mssql.mkDatetime 2024 3 9 14 5 7 251 None).
Proof.
  apply (impala_convert_dttm_resolution
           (fun _ => Some Mssql.types_TIMESTAMP) "TIMESTAMP"
           (Mssql.mkDatetime 2024 3 9 14 5 7 250 None)
           (Mssql.mkDatetime 2024 3 9 14 5 7 251 None));
    reflexivity.
Defined.

(** X3. The SQL of SQL Server's [convert_dttm] is a [CONVERT] of a quoted
    text with the style number of its type (23 for [DATE], 20 for
    [SMALLDATETIME], 126 for [DATETIME]), and the quoted text is made of
    digits and of the punctuation of an ISO date and time only. *)
Theorem mssql_convert_dttm_quotes_iso_text :
  forall (get_sqla_column_type : Mssql.cls -> string -> option Mssql.sqla_type)
         (c : Mssql.cls) (target_type : string) (dttm : Mssql.datetime)
         (sql : string),
  Mssql.convert_dttm get_sqla_column_type c target_type dttm = Some sql ->
  exists lit ty style,
    sql = "CONVERT(" +:+ ty +:+ ", '" +:+ lit +:+ "', " +:+ style +:+ ")" /\
    In (ty, style)
       [("DATE", "23"); ("SMALLDATETIME", "20"); ("DATETIME", "126")] /\
    PyStr.forallb_str PyDatetime.iso_char lit = true.
Proof.
  intros get c t d sql. unfold Mssql.convert_dttm.
  destruct (Mssql.isinstance (get c t) Mssql.types_Date).
  { intros [= <-]. exists (Mssql.date_isoformat d), "DATE", "23".
    split; [done|]. split; [by left|]. apply date_isoformat_iso. }
  destruct (Mssql.isinstance (get c t) Mssql.SMALLDATETIME).
  { intros [= <-]. exists (Mssql.isoformat_seconds " " d), "SMALLDATETIME", "20".
    split; [done|]. split; [right; by left|].
    unfold Mssql.isoformat_seconds.
    rewrite !forallb_str_app, date_isoformat_iso, time_seconds_iso,
      format_offset_iso. done. }
  destruct (Mssql.isinstance (get c t) Mssql.types_DateTime); [|done].
  intros [= <-]. exists (Mssql.isoformat_milliseconds d), "DATETIME", "126".
  split; [done|]. split; [right; right; by left|].
  unfold Mssql.isoformat_milliseconds.
  rewrite !forallb_str_app, date_isoformat_iso, time_seconds_iso,
    zero_padded_iso, format_offset_iso. done.
Qed.

(** A datetime column of Azure Synapse. *)
Lemma mssql_convert_dttm_quotes_iso_text_witness :
  exists lit ty style,
    "CONVERT(DATETIME, '2024-03-09T14:05:07.000', 126)"
    = "CONVERT(" +:+ ty +:+ ", '" +:+ lit +:+ "', " +:+ style +:+ ")" /\
    In (ty, style)
       [("DATE", "23"); ("SMALLDATETIME", "20"); ("DATETIME", "126")] /\
    PyStr.forallb_str PyDatetime.iso_char lit = true.
Proof.
  apply (mssql_convert_dttm_quotes_iso_text
           (fun _ _ => Some Mssql.types_DateTime) Mssql.AzureSynapseSpec
           "DATETIME" (Mssql.mkDatetime 2024 3 9 14 5 7 250 None)).
  reflexivity.
Defined.

(** X4. What SQL Server's literals tell apart. Two datetimes get the same
    SQL for a [Date] column exactly when they fall on the same day, for a
    [SMALLDATETIME] column exactly when they agree down to the second, and
    for any other [DateTime] column exactly when they agree down to the
    millisecond (with UTC offsets that print the same): the microseconds
    below the millisecond are cut off, not rounded. *)
Theorem mssql_convert_dttm_resolution :
  forall (get_sqla_column_type : Mssql.cls -> string -> option Mssql.sqla_type)
         (c : Mssql.cls) (target_type : string) (d1 d2 : Mssql.datetime),
  PyDatetime.in_range d1 = true -> PyDatetime.in_range d2 = true ->
  let sqla_type := get_sqla_column_type c target_type in
  let same_sql :=
    Mssql.convert_dttm get_sqla_column_type c target_type d1
    = Mssql.convert_dttm get_sqla_column_type c target_type d2 in
  (Mssql.isinstance sqla_type Mssql.types_Date = true ->
   (same_sql <-> PyDatetime.same_date d1 d2)) /\
  (Mssql.isinstance sqla_type Mssql.types_Date = false ->
   Mssql.isinstance sqla_type Mssql.SMALLDATETIME = true ->
   (same_sql <-> PyDatetime.same_time 1000000 d1 d2)) /\
  (Mssql.isinstance sqla_type Mssql.types_Date = false ->
   Mssql.isinstance sqla_type Mssql.SMALLDATETIME = false ->
   Mssql.isinstance sqla_type Mssql.types_DateTime = true ->
   (same_sql <-> PyDatetime.same_time 1000 d1 d2)).
Proof.
  intros get c t d1 d2 R1 R2 sqla_type same_sql.
  subst sqla_type same_sql. unfold Mssql.convert_dttm.
  split; [|split].
  - intros ->. split.
    + intros [= H]. apply str_app_inv_head in H.
      by apply date_literal_inj in H as [H _].
    + intros (Hy & Hm & Hd). unfold Mssql.date_isoformat.
      by rewrite Hy, Hm, Hd.
  - intros -> ->. split.
    + intros [= H]. apply str_app_inv_head in H.
      unfold Mssql.isoformat_seconds in H.
      rewrite !str_app_assoc, !str_app_sep in H.
      apply date_literal_inj in H as [Hdate H]; try done.
      injection H as H.
      apply time_offset_inj in H as [(Hh & Hm & Hs) Hoff]; try done.
      apply in_range_nonneg in R1, R2.
      unfold PyDatetime.same_time.
      rewrite !Z.div_small by lia. done.
    + intros (Hdate & Hh & Hm & Hs & _ & Hoff).
      destruct Hdate as (Hy & Hmo & Hd).
      unfold Mssql.isoformat_seconds, Mssql.date_isoformat, Mssql.time_seconds.
      by rewrite Hy, Hmo, Hd, Hh, Hm, Hs, Hoff.
  - intros -> -> ->. split.
    + intros [= H]. apply str_app_inv_head in H.
      unfold Mssql.isoformat_milliseconds in H.
      rewrite !str_app_assoc, !str_app_sep in H.
      apply date_literal_inj in H as [Hdate H]; try done.
      injection H as H.
      apply time_literal_inj in H as [(Hh & Hm & Hs) H]; try done.
      injection H as H.
      apply in_range_nonneg in R1, R2.
      apply last_field_inj in H as [Hus Hoff]; try done;
        try (apply Z.div_pos; lia).
    + intros (Hdate & Hh & Hm & Hs & Hus & Hoff).
      destruct Hdate as (Hy & Hmo & Hd).
      unfold Mssql.isoformat_milliseconds, Mssql.date_isoformat,
        Mssql.time_seconds.
      by rewrite Hy, Hmo, Hd, Hh, Hm, Hs, Hus, Hoff.
Qed.

(** Two datetimes within the same millisecond: a datetime column gives
    them the same literal. *)
Lemma mssql_convert_dttm_resolution_witness :
  Mssql.convert_dttm (fun _ _ => Some Mssql.types_DateTime)
    Mssql.MssqlEngineSpec "DATETIME" (Mssql.mkDatetime 2024 3 9 14 5 7 1250 None)
  = Mssql.convert_dttm (fun _ _ => Some Mssql.types_DateTime)
      Mssql.MssqlEngineSpec "DATETIME" (Mssql.mkDatetime 2024 3 9 14 5 7 1999 None)
  <-> PyDatetime.same_time 1000 (Mssql.mkDatetime 2024 3 9 14 5 7 1250 None)
        (Mssql.mkDatetime 2024 3 9 14 5 7 1999 None).
Proof.
  apply (mssql_convert_dttm_resolution
           (fun _ _ => Some Mssql.types_DateTime) Mssql.MssqlEngineSpec
           "DATETIME" (Mssql.mkDatetime 2024 3 9 14 5 7 1250 None)
           (Mssql.mkDatetime 2024 3 9 14 5 7 1999 None));
    reflexivity.
Defined.

(** ** Impala: schema names and the query id *)

Section ImpalaEngineFacts.
Import PyStr PyMore ImpalaEngine.

Lemma schema_names_Ok rows : forall acc,
  Forall (fun row : list string => row <> []) rows ->
  exists names, schema_names acc rows = Ok names /\
    forall n, n ∈ names <->
      n ∈ acc \/ ((exists rest, (n :: rest) ∈ rows) /\ startswith "_" n = false).
Proof.
  induction rows as [|row rows IH]; intros acc Hrows.
  - exists acc. split; [done|]. intros n. split; [by left|].
    intros [?|[[rest Hin] _]]; [done|]. by apply elem_of_nil in Hin.
  - apply Forall_cons in Hrows as [Hrow Hrows].
    destruct row as [|name rest]; [done|]. cbn [schema_names].
    destruct (IH (if startswith "_" name then acc else acc ∪ {[name]}) Hrows)
      as (names & -> & Hnames).
    exists names. split; [done|]. intros n. rewrite Hnames. split.
    + intros [Hacc | [[rest' Hin] Hn]].
      * destruct (startswith "_" name) eqn:Hs; [by left|].
        apply elem_of_union in Hacc as [?|Heq%elem_of_singleton]; [by left|].
        subst n.
        right. split; [|done]. exists rest. by left.
      * right. split; [|done]. exists rest'. by right.
    + intros [Hacc | [[rest' Hin] Hn]].
      * left. destruct (startswith "_" name); [done|]. by apply elem_of_union_l.
      * apply elem_of_cons in Hin as [[= -> ->]|Hin].
        -- left. rewrite Hn. by apply elem_of_union_r, elem_of_singleton.
        -- right. split; [by exists rest'|done].
Qed.

Lemma schema_names_Raise rows : forall acc,
  [] ∈ rows ->
  schema_names acc rows
  = Raise (mkException "IndexError" "tuple index out of range").
Proof.
  induction rows as [|row rows IH]; intros acc Hin.
  - by apply elem_of_nil in Hin.
  - destruct row as [|name rest]; [done|]. cbn [schema_names].
    apply IH. by apply elem_of_cons in Hin as [?|?].
Qed.

Lemma str_take_app (a b : string) : take (String.length a) (a +:+ b) = a.
Proof.
  induction a as [|x a IH]; [by destruct b|].
  rewrite str_app_cons. cbn [String.length take]. by rewrite IH.
Qed.

Lemma str_app_inj_length (a a' b b' : string) :
  String.length a = String.length a' ->
  a +:+ b = a' +:+ b' -> a = a' /\ b = b'.
Proof.
  revert a'. induction a as [|x a IH]; intros [|y a'] Hlen H; try done.
  rewrite !str_app_cons in H. injection H as -> H.
  injection Hlen as Hlen. by destruct (IH _ Hlen H) as [-> ->].
Qed.

Lemma hex_app (a b : bytes) : hex (a ++ b) = hex a +:+ hex b.
Proof.
  induction a as [|x a IH]; [done|]. cbn [app hex].
  by rewrite IH, str_app_assoc.
Qed.

Lemma length_hex (b : bytes) : String.length (hex b) = (2 * length b)%nat.
Proof.
  induction b as [|x b IH]; [done|]. cbn [hex length]. unfold hex_byte.
  rewrite !str_app_cons, str_app_empty_l. cbn [String.length]. lia.
Qed.

(** The hexadecimal text reads back as the bytes. *)
Lemma unhex_hex (b : bytes) : unhex (hex b) = Some b.
Proof.
  induction b as [|x b IH]; [done|]. cbn [hex]. unfold hex_byte.
  rewrite !str_app_cons, str_app_empty_l. cbn [unhex]. rewrite IH.
  by destruct x.
Qed.

Lemma hex_inj (a b : bytes) : hex a = hex b -> a = b.
Proof.
  intros H. apply (f_equal unhex) in H. rewrite !unhex_hex in H. by injection H.
Qed.

(** The query id of a guid of sixteen bytes, by its halves. *)
Lemma cancel_query_id_halves (lo hi : bytes) :
  length lo = 8%nat -> length hi = 8%nat ->
  get_cancel_query_id (Some (lo ++ hi))
  = Some (hex (rev lo) +:+ ":" +:+ hex (rev hi)).
Proof.
  intros Hlo Hhi.
  assert (Hlen : String.length (hex (rev hi)) = 16%nat)
    by (rewrite length_hex, length_rev, Hhi; reflexivity).
  unfold get_cancel_query_id, last_chars.
  rewrite rev_app_distr, hex_app, str_length_app, !length_hex, !length_rev,
    Hlo, Hhi.
  replace (2 * 8 + 2 * 8 - 16)%nat
    with (String.length (hex (rev hi))) by (rewrite Hlen; reflexivity).
  rewrite str_drop_app, <- Hlen, str_take_app. reflexivity.
Qed.

End ImpalaEngineFacts.

(** X5. [get_schema_names] gives the set of the first columns of the rows
    of [SHOW SCHEMAS], without the names that start with an underscore:
    a name is in the result exactly when some row starts with it and it
    does not start with an underscore. A row without columns makes the
    call raise [IndexError], and an exception of the query is passed on. *)
Theorem get_schema_names_drops_underscore_names :
  forall rows : list (list string),
  (Forall (fun row => row <> []) rows ->
   exists names,
     ImpalaEngine.get_schema_names (Ok rows) = Ok names /\
     forall n, n ∈ names <->
       (exists rest, (n :: rest) ∈ rows) /\ PyStr.startswith "_" n = false) /\
  ([] ∈ rows ->
   exists e, ImpalaEngine.get_schema_names (Ok rows) = Raise e /\
             exc_class e = "IndexError") /\
  (forall e, ImpalaEngine.get_schema_names (Raise e) = Raise e).
Proof.
  intros rows. split; [|split].
  - intros Hrows. destruct (schema_names_Ok rows ∅ Hrows) as (names & Hn & Hiff).
    exists names. split; [done|]. intros n. rewrite Hiff.
    split; [intros [H|H]; [by apply elem_of_empty in H | done] | by right].
  - intros Hin. eexists. split; [by apply schema_names_Raise | done].
  - done.
Qed.

(** Three schemas, one of them hidden and one listed twice. *)
Lemma get_schema_names_drops_underscore_names_witness :
  exists names,
    ImpalaEngine.get_schema_names
      (Ok [["default"]; ["_impala_builtins"]; ["sales"; "x"]; ["default"]])
    = Ok names /\
    forall n, n ∈ names <->
      (exists rest,
         (n :: rest) ∈ [["default"]; ["_impala_builtins"]; ["sales"; "x"];
                        ["default"]]) /\
      PyStr.startswith "_" n = false.
Proof.
  apply (proj1 (get_schema_names_drops_underscore_names
                  [["default"]; ["_impala_builtins"]; ["sales"; "x"]; ["default"]])).
  repeat (constructor; [discriminate|]). constructor.
Defined.

(** X6. The Impala query id of a guid of sixteen bytes: the hexadecimal
    text of the first eight bytes in reverse order, a colon, and that of
    the last eight bytes in reverse order. Without a last operation there
    is no id. *)
Theorem get_cancel_query_id_of_guid_halves :
  forall lo hi : PyMore.bytes,
  length lo = 8%nat -> length hi = 8%nat ->
  ImpalaEngine.get_cancel_query_id (Some (lo ++ hi))
  = Some (PyMore.hex (rev lo) +:+ ":" +:+ PyMore.hex (rev hi)) /\
  ImpalaEngine.get_cancel_query_id None = None.
Proof. intros lo hi Hlo Hhi. split; [by apply cancel_query_id_halves | done]. Qed.

(** The guid behind the query id [5543ffdf692b7d02:f78a944000000000]. *)
Lemma get_cancel_query_id_of_guid_halves_witness :
  ImpalaEngine.get_cancel_query_id
    (Some [Byte.x02; Byte.x7d; Byte.x2b; Byte.x69; Byte.xdf; Byte.xff; Byte.x43;
           Byte.x55; Byte.x00; Byte.x00; Byte.x00; Byte.x00; Byte.x40; Byte.x94;
           Byte.x8a; Byte.xf7])
  = Some "5543ffdf692b7d02:f78a944000000000".
Proof.
  apply (proj1 (get_cancel_query_id_of_guid_halves
           [Byte.x02; Byte.x7d; Byte.x2b; Byte.x69; Byte.xdf; Byte.xff; Byte.x43;
            Byte.x55]
           [Byte.x00; Byte.x00; Byte.x00; Byte.x00; Byte.x40; Byte.x94;
            Byte.x8a; Byte.xf7] eq_refl eq_refl)).
Defined.

(** X7. Guids of sixteen bytes that differ get different query ids: the id
    keeps every byte of the guid. *)
Theorem get_cancel_query_id_injective :
  forall g1 g2 : PyMore.bytes,
  length g1 = 16%nat -> length g2 = 16%nat ->
  ImpalaEngine.get_cancel_query_id (Some g1)
  = ImpalaEngine.get_cancel_query_id (Some g2) ->
  g1 = g2.
Proof.
  intros g1 g2 H1 H2.
  rewrite <- (take_drop 8 g1), <- (take_drop 8 g2).
  rewrite !cancel_query_id_halves
    by (rewrite ?length_take, ?length_drop; lia).
  intros [= H].
  apply str_app_inj_length in H as [Hlo H];
    [| rewrite !length_hex, !length_rev, !length_take; lia].
  rewrite !str_app_sep in H. injection H as Hhi.
  apply hex_inj, (f_equal (@rev _)) in Hlo, Hhi.
  rewrite !rev_involutive in Hlo, Hhi. by rewrite Hlo, Hhi.
Qed.

(** Two ways of writing the guid of sixteen bytes [2a]. *)
Lemma get_cancel_query_id_injective_witness :
  replicate 16 Byte.x2a = replicate 8 Byte.x2a ++ replicate 8 Byte.x2a.
Proof.
  apply (get_cancel_query_id_injective
           (replicate 16 Byte.x2a) (replicate 8 Byte.x2a ++ replicate 8 Byte.x2a));
    reflexivity.
Defined.

(** ** config.py: version files and directories *)

Section ConfigHelperFacts.
Import PyStr PyMore ConfigHelpers.

Lemma bool_eq_by_iff (a b : bool) : (a = true <-> b = true) -> a = b.
Proof. destruct a, b; intros [H1 H2]; try done; [by rewrite H1 | by rewrite H2]. Qed.

Lemma str_app_eq_empty (a b : string) : a +:+ b = "" -> a = "" /\ b = "".
Proof. destruct a; [done|]. by rewrite str_app_cons. Qed.

(** Whether a text ends with a character is decided by its last part. *)
Lemma endswith_char_app c a b :
  b <> "" -> endswith (String c "") (a +:+ b) = endswith (String c "") b.
Proof.
  intros Hb. apply bool_eq_by_iff. rewrite !endswith_spec. split.
  - revert Hb. induction a as [|h a IH]; intros Hb [x Hx]; [by exists x|].
    rewrite str_app_cons in Hx. destruct x as [|h' x].
    + rewrite str_app_empty_l in Hx. injection Hx as _ Hx.
      by apply str_app_eq_empty in Hx as [_ ?].
    + rewrite str_app_cons in Hx. injection Hx as _ Hx.
      apply IH; [done|]. by exists x.
  - intros [y ->]. exists (a +:+ y). by rewrite str_app_assoc.
Qed.

Lemma endswith_char_none c b :
  forallb_str (fun x => negb (Ascii.eqb x c)) b = true ->
  endswith (String c "") b = false.
Proof.
  intros Hb. destruct (endswith (String c "") b) eqn:E; [|done].
  apply endswith_spec in E as [y ->].
  rewrite forallb_str_app in Hb. apply andb_true_iff in Hb as [_ Hb].
  cbn in Hb. by rewrite Ascii.eqb_refl in Hb.
Qed.

Lemma str_int_chars n :
  forallb_str (fun x => negb (Ascii.eqb x "/")) (str_int n) = true /\
  str_int n <> "" /\ startswith "/" (str_int n) = false.
Proof.
  assert (Hd : forall m,
    forallb_str (fun x => negb (Ascii.eqb x "/")) (str_of_nonneg m) = true).
  { intros m. apply (forallb_str_impl is_digit); [|apply str_of_nonneg_digits].
    intros c Hc. destruct (Ascii.eqb_spec c "/") as [->|]; done. }
  unfold str_int. destruct (n <? 0).
  - rewrite str_app_sep. cbn. by rewrite Hd.
  - split; [done|]. destruct (str_of_nonneg_head n) as (c & s & -> & Hc).
    split; [done|]. cbn [startswith].
    destruct (Ascii.eqb_spec "/" c) as [<-|]; [by vm_compute in Hc | done].
Qed.

Lemma join_step_relative path b :
  startswith "/" b = false ->
  join_step path b
  = if String.eqb path "" || endswith "/" path then path +:+ b
    else path +:+ "/" +:+ b.
Proof. unfold join_step. by intros ->. Qed.

Lemma join_step_nonempty path b :
  path <> "" \/ b <> "" -> join_step path b <> "".
Proof.
  intros H. unfold join_step.
  destruct (startswith "/" b) eqn:Hb; [by destruct b|].
  destruct (_ || _); intros E; apply str_app_eq_empty in E as [-> E];
    [by destruct H | done].
Qed.

(** Joining the empty component: the path with a slash at its end. *)
Lemma join_step_empty path :
  path <> "" ->
  join_step path "" = if endswith "/" path then path else path +:+ "/".
Proof.
  intros Hp. rewrite join_step_relative by done.
  apply String.eqb_neq in Hp. rewrite Hp. cbn [orb].
  destruct (endswith "/" path); by rewrite ?str_app_nil_r.
Qed.

Lemma endswith_slash_join_empty path :
  path <> "" -> endswith "/" (join_step path "") = true.
Proof.
  intros Hp. rewrite join_step_empty by done.
  destruct (endswith "/" path) eqn:E; [done|]. apply endswith_app.
Qed.

(** The directory and the id of the database. *)
Lemma join_step_id upload_directory n :
  endswith "/" upload_directory = true ->
  join_step upload_directory (str_int n) = upload_directory +:+ str_int n.
Proof.
  intros Hd. destruct (str_int_chars n) as (_ & _ & Hs).
  rewrite join_step_relative by done. by rewrite Hd, orb_true_r.
Qed.

Lemma endswith_slash_id a n : endswith "/" (a +:+ str_int n) = false.
Proof.
  destruct (str_int_chars n) as (Hc & Hne & _).
  rewrite endswith_char_app by done. by apply endswith_char_none.
Qed.

Lemma schema_or_empty (schema : option string) :
  match schema with
  | Some s => if String.eqb s "" then "" else s
  | None => ""
  end = default "" schema.
Proof.
  destruct schema as [s|]; [|done]. cbn.
  by destruct (String.eqb_spec s "") as [->|].
Qed.

End ConfigHelperFacts.

(** X8. Whatever the upload directory, the database and the schema, the
    directory that [CSV_TO_HIVE_UPLOAD_DIRECTORY_FUNC] returns ends with a
    slash. *)
Theorem csv_upload_directory_ends_with_slash :
  forall (upload_directory : string) (database_id : Z) (schema : option string),
  PyMore.endswith "/"
    (ConfigHelpers.CSV_TO_HIVE_UPLOAD_DIRECTORY_FUNC upload_directory
       database_id schema) = true.
Proof.
  intros dir n schema. unfold ConfigHelpers.CSV_TO_HIVE_UPLOAD_DIRECTORY_FUNC.
  cbn [PyMore.os_path_join fold_left].
  apply endswith_slash_join_empty, join_step_nonempty. left.
  apply join_step_nonempty. right. apply str_int_chars.
Qed.

(** X9. With an upload directory that ends with a slash, the directory of
    an upload is the upload directory, the id of the database and, when a
    schema is given that does not start with a slash, the schema, each
    closed by one slash; without a schema (or with an empty one) it is the
    upload directory and the id. *)
Theorem csv_upload_directory_layout :
  forall (upload_directory : string) (database_id : Z),
  PyMore.endswith "/" upload_directory = true ->
  ConfigHelpers.CSV_TO_HIVE_UPLOAD_DIRECTORY_FUNC upload_directory database_id None
  = upload_directory +:+ PyMore.str_int database_id +:+ "/" /\
  ConfigHelpers.CSV_TO_HIVE_UPLOAD_DIRECTORY_FUNC upload_directory database_id
    (Some "")
  = upload_directory +:+ PyMore.str_int database_id +:+ "/" /\
  forall schema,
    schema <> "" -> PyStr.startswith "/" schema = false ->
    ConfigHelpers.CSV_TO_HIVE_UPLOAD_DIRECTORY_FUNC upload_directory database_id
      (Some schema)
    = upload_directory +:+ PyMore.str_int database_id +:+ "/" +:+ schema +:+
      (if PyMore.endswith "/" schema then "" else "/").
Proof.
  intros dir n Hdir. unfold ConfigHelpers.CSV_TO_HIVE_UPLOAD_DIRECTORY_FUNC.
  cbn [PyMore.os_path_join fold_left String.eqb].
  rewrite join_step_id by done.
  assert (Hne : dir +:+ PyMore.str_int n <> "").
  { intros E. apply str_app_eq_empty in E as [_ E].
    by destruct (str_int_chars n) as (_ & ? & _). }
  assert (Hnone :
    PyMore.join_step (PyMore.join_step (dir +:+ PyMore.str_int n) "") ""
    = dir +:+ PyMore.str_int n +:+ "/").
  { rewrite (join_step_empty (dir +:+ _)) by done.
    rewrite endswith_slash_id, join_step_empty.
    - by rewrite endswith_app, str_app_assoc.
    - intros E. by apply str_app_eq_empty in E as [? _]. }
  split; [done|]. split; [done|].
  intros schema Hs Hrel. apply String.eqb_neq in Hs as Hs'. rewrite Hs'.
  rewrite (join_step_relative _ schema) by done.
  apply String.eqb_neq in Hne as Hne'. rewrite Hne', endswith_slash_id.
  cbn [orb]. rewrite join_step_empty.
  - rewrite !endswith_char_app by done.
    destruct (PyMore.endswith "/" schema);
      by rewrite ?str_app_assoc, ?str_app_nil_r.
  - intros E. by apply str_app_eq_empty in E as [? _].
Qed.

(** The default upload directory, database 3 and the schema [sales]. *)
Lemma csv_upload_directory_layout_witness :
  ConfigHelpers.CSV_TO_HIVE_UPLOAD_DIRECTORY_FUNC
    ConfigHelpers.CSV_TO_HIVE_UPLOAD_DIRECTORY 3 (Some "sales")
  = "EXTERNAL_HIVE_TABLES/3/sales/".
Proof.
  apply (proj2 (proj2 (csv_upload_directory_layout
           ConfigHelpers.CSV_TO_HIVE_UPLOAD_DIRECTORY 3 eq_refl)) "sales");
    [discriminate | reflexivity].
Defined.

(** X10. A schema that starts with a slash takes the place of the upload
    directory and of the database id: the directory returned is the
    schema alone, closed by a slash, whatever the upload directory and
    the database. *)
Theorem csv_upload_directory_absolute_schema :
  forall (upload_directory : string) (database_id : Z) (schema : string),
  PyStr.startswith "/" schema = true ->
  ConfigHelpers.CSV_TO_HIVE_UPLOAD_DIRECTORY_FUNC upload_directory database_id
    (Some schema)
  = schema +:+ (if PyMore.endswith "/" schema then "" else "/").
Proof.
  intros dir n schema Habs.
  assert (Hne : schema <> "") by (by intros ->).
  unfold ConfigHelpers.CSV_TO_HIVE_UPLOAD_DIRECTORY_FUNC.
  cbn [PyMore.os_path_join fold_left].
  apply String.eqb_neq in Hne as Hne'. rewrite Hne'.
  unfold PyMore.join_step at 2. rewrite Habs.
  rewrite join_step_empty by done.
  destruct (PyMore.endswith "/" schema); by rewrite ?str_app_nil_r.
Qed.

(** The schema [/tmp] with the default upload directory. *)
Lemma csv_upload_directory_absolute_schema_witness :
  ConfigHelpers.CSV_TO_HIVE_UPLOAD_DIRECTORY_FUNC
    ConfigHelpers.CSV_TO_HIVE_UPLOAD_DIRECTORY 3 (Some "/tmp")
  = "/tmp/".
Proof.
  apply (csv_upload_directory_absolute_schema
           ConfigHelpers.CSV_TO_HIVE_UPLOAD_DIRECTORY 3 "/tmp").
  reflexivity.
Defined.

Section VersionFileFacts.
Import PyStr PyMore ConfigHelpers.

Lemma startswith_take n s : startswith (take n s) s = true.
Proof. apply startswith_spec. exists (drop n s). by rewrite str_take_drop. Qed.

Lemma json_get_In members key v :
  json_get members key = v -> v <> JNull -> In (key, v) members.
Proof.
  unfold json_get. destruct (dict_get members key) as [w|] eqn:E; cbn.
  - intros <- _. by apply dict_get_In.
  - by intros <-.
Qed.



End VersionFileFacts.

(** X11. When [_try_json_readsha] returns a string for a length that is
    not negative, the file holds a JSON object whose member [GIT_SHA] is a
    string, and the result is the start of that string, cut to at most
    [length] characters. When the file cannot be read or parsed, or does
    not hold an object, or the object has no member [GIT_SHA], the result
    is [None]. *)
Theorem try_json_readsha_is_prefix_of_git_sha :
  forall (load_json : string -> result PyMore.json) (filepath : string)
         (length : Z),
  (forall s,
     0 <= length ->
     ConfigHelpers._try_json_readsha load_json filepath length = PyMore.JString s ->
     exists members sha,
       load_json filepath = Ok (PyMore.JObject members) /\
       In ("GIT_SHA", PyMore.JString sha) members /\
       s = PyStr.take (Z.to_nat length) sha /\
       PyStr.startswith s sha = true /\
       (String.length s <= Z.to_nat length)%nat) /\
  ((forall members,
      load_json filepath = Ok (PyMore.JObject members) ->
      dict_get members "GIT_SHA" = None) ->
   ConfigHelpers._try_json_readsha load_json filepath length = PyMore.JNull).
Proof.
  intros load f n. unfold ConfigHelpers._try_json_readsha. split.
  - intros s Hn. destruct (load f) as [[| | | | | |members]|]; try done.
    destruct (PyMore.json_get members "GIT_SHA") as [| | | |sha| |] eqn:E;
      try done.
    intros [= <-]. exists members, sha. split; [done|].
    split; [by eapply json_get_In|].
    unfold PyMore.slice_to. destruct (Z.leb_spec 0 n); [|lia].
    split; [done|]. split; [apply startswith_take|].
    rewrite str_length_take. lia.
  - intros Hno. destruct (load f) as [[| | | | | |members]|]; try done.
    unfold PyMore.json_get. by rewrite (Hno members eq_refl).
Qed.

(** A version file with a full commit hash, read with [VERSION_SHA_LENGTH]. *)
Lemma try_json_readsha_is_prefix_of_git_sha_witness :
  exists members sha,
    Ok (PyMore.JObject
          [("GIT_SHA", PyMore.JString "0123456789abcdef0123");
           ("version", PyMore.JString "4.1.0")])
    = Ok (PyMore.JObject members) /\
    In ("GIT_SHA", PyMore.JString sha) members /\
    "01234567" = PyStr.take (Z.to_nat ConfigHelpers.VERSION_SHA_LENGTH) sha /\
    PyStr.startswith "01234567" sha = true /\
    (String.length "01234567" <= Z.to_nat ConfigHelpers.VERSION_SHA_LENGTH)%nat.
Proof.
  apply (proj1 (try_json_readsha_is_prefix_of_git_sha
           (fun _ => Ok (PyMore.JObject
                           [("GIT_SHA", PyMore.JString "0123456789abcdef0123");
                            ("version", PyMore.JString "4.1.0")]))
           "version_info.json" ConfigHelpers.VERSION_SHA_LENGTH) "01234567").
  - unfold ConfigHelpers.VERSION_SHA_LENGTH. lia.
  - reflexivity.
Defined.



(** X13. The metadata database is the file [superset.db] in the data
    directory: the connection string is [sqlite:///], the data directory,
    a slash unless the directory ends with one, and the file name with
    its option. The data directory is [SUPERSET_HOME] whenever the
    environment sets it, and an empty one leaves the bare file name. *)
Theorem sqlalchemy_database_uri_in_data_dir :
  forall (environ : gmap string string) (expanduser : string -> string),
  let dir := ConfigHelpers.DATA_DIR environ expanduser in
  (forall home, environ !! "SUPERSET_HOME" = Some home -> dir = home) /\
  (dir <> "" ->
   ConfigHelpers.SQLALCHEMY_DATABASE_URI environ expanduser
   = "sqlite:///" +:+ dir +:+ (if PyMore.endswith "/" dir then "" else "/")
     +:+ "superset.db?check_same_thread=false") /\
  (dir = "" ->
   ConfigHelpers.SQLALCHEMY_DATABASE_URI environ expanduser
   = "sqlite:///superset.db?check_same_thread=false").
Proof.
  intros environ expanduser dir. split; [|split].
  - intros home Hh. subst dir. unfold ConfigHelpers.DATA_DIR. by rewrite Hh.
  - intros Hne. unfold ConfigHelpers.SQLALCHEMY_DATABASE_URI. fold dir.
    cbn [PyMore.os_path_join fold_left].
    rewrite join_step_relative by done.
    apply String.eqb_neq in Hne. rewrite Hne. cbn [orb].
    destruct (PyMore.endswith "/" dir);
      by rewrite ?str_app_assoc, ?str_app_empty_l.
  - intros He. unfold ConfigHelpers.SQLALCHEMY_DATABASE_URI. fold dir.
    by rewrite He.
Qed.

(** A data directory set through the environment. *)
Lemma sqlalchemy_database_uri_in_data_dir_witness :
  ConfigHelpers.SQLALCHEMY_DATABASE_URI {["SUPERSET_HOME" := "/var/lib/superset"]}
    (fun p => p)
  = "sqlite:////var/lib/superset/superset.db?check_same_thread=false".
Proof.
  rewrite (proj1 (proj2 (sqlalchemy_database_uri_in_data_dir
             {["SUPERSET_HOME" := "/var/lib/superset"]} (fun p => p)))).
  - vm_compute. reflexivity.
  - vm_compute. discriminate.
Defined.

(** ** The override block: names that are no settings *)

Section OverrideNames.
Import PyStr Config.



Lemma bind_names_undefined m names module n :
  n ∈ names -> m !! n = None ->
  exists e, bind_names m names module = Raise e /\
            exc_class e = "AttributeError".
Proof.
  revert module. induction names as [|n' names IH]; intros module Hin Hn.
  - by apply elem_of_nil in Hin.
  - cbn [bind_names]. destruct (m !! n') as [v|] eqn:E.
    + apply elem_of_cons in Hin as [->|Hin]; [congruence|]. by apply IH.
    + by eexists.
Qed.

End OverrideNames.



(** X15. When [superset_config] is imported and its [__all__] lists a
    name that the module does not define, the import raises
    [AttributeError], and so does loading the configuration: no setting
    of the module is taken over. *)
Theorem star_import_of_undefined_name_raises :
  forall (environ : gmap string string) (imp : Config.Importer)
         (module m : gmap string Config.value) (l : list Config.value)
         (names : list string) (n : string),
  environ !! Config.CONFIG_PATH_ENV_VAR = None ->
  Config.superset_config imp = Some (Ok m) ->
  m !! "__all__" = Some (Config.VList l) ->
  Config.names_of l = Ok names ->
  n ∈ names -> m !! n = None ->
  exists e, Config.load_local_config environ imp module = Raise e /\
            exc_class e = "AttributeError".
Proof.
  intros environ imp module m l names n Hpath Hm Hall Hnames Hin Hn.
  unfold Config.load_local_config, Config.star_names.
  rewrite Hpath, Hm, Hall, Hnames. by eapply bind_names_undefined.
Qed.

(** A module whose [__all__] lists [ROW_LIMIT] and a name it does not
    define. *)
Lemma star_import_of_undefined_name_raises_witness :
  exists e,
    Config.load_local_config ∅
      (Examples.importer_module
         (<["__all__" := Config.VList [Config.VStr "ROW_LIMIT";
                                       Config.VStr "SQL_MAX_ROWS"]]>
            Examples.override_with_helper))
      Examples.module_defaults = Raise e /\
    exc_class e = "AttributeError".
Proof.
  apply (star_import_of_undefined_name_raises ∅
           (Examples.importer_module
              (<["__all__" := Config.VList [Config.VStr "ROW_LIMIT";
                                            Config.VStr "SQL_MAX_ROWS"]]>
                 Examples.override_with_helper))
           Examples.module_defaults
           (<["__all__" := Config.VList [Config.VStr "ROW_LIMIT";
                                         Config.VStr "SQL_MAX_ROWS"]]>
              Examples.override_with_helper)
           [Config.VStr "ROW_LIMIT"; Config.VStr "SQL_MAX_ROWS"]
           ["ROW_LIMIT"; "SQL_MAX_ROWS"] "SQL_MAX_ROWS");
    try (vm_compute; reflexivity).
  apply elem_of_cons. right. apply elem_of_cons. by left.
Defined.

(** ** Impala: more on the polling loop *)

Section PollingLoopLogs.
Import Impala ImpalaTraces.

Variable QUERY_EARLY_CANCEL_KEY : string.

Lemma writes_from_logs_mono tr : forall seen seen',
  seen ⊆ seen' -> writes_from_logs seen tr -> writes_from_logs seen' tr.
Proof.
  induction tr as [|e tr IH]; intros seen seen' Hsub; [done|].
  destruct e as [| | | | | |[[log|]|]| | | | |];
    cbn [writes_from_logs]; try by apply IH.
  - apply IH. intros x [->|Hx]%elem_of_cons; [by left|]. right. by apply Hsub.
  - intros [(log & Hin & Hp) H]. split; [|by eapply IH].
    exists log. split; [by apply Hsub | done].
Qed.

Lemma progress_from_logs_mono seen seen' l :
  seen ⊆ seen' -> progress_from_logs seen l -> progress_from_logs seen' l.
Proof.
  intros Hsub H p Hp. destruct (H p Hp) as (log & Hin & Hlog).
  exists log. split; [by apply Hsub | done].
Qed.

(** What [update_progress] writes comes from the log it has just fetched
    or from one that was fetched before. *)
Lemma update_progress_from_logs w i qid l seen :
  progress_from_logs seen l ->
  exists seen', seen ⊆ seen' /\
    (forall rest, writes_from_logs seen' rest ->
       writes_from_logs seen (trace (update_progress w i qid l) ++ rest)) /\
    (forall l', outcome (update_progress w i qid l) = Ok l' ->
       progress_from_logs seen' l').
Proof.
  intros Hl. unfold update_progress.
  destruct (cursor_get_log w i) as [[log|]|e]; cbn.
  2, 3: exists seen; split; [done|]; split; [done|]; by intros l' [= <-].
  exists (log :: seen). split; [by apply list_subseteq_cons|].
  assert (Hl' : progress_from_logs (log :: seen) l).
  { eapply progress_from_logs_mono; [|done]. by apply list_subseteq_cons. }
  destruct (String.eqb log "") eqn:Hlog; cbn.
  { split; [done|]. by intros l' [= <-]. }
  destruct (parse_progress log) as [p|] eqn:Hparse; cbn.
  - assert (Hp : progress_from_logs (log :: seen) (mkLocals (query l) (Some p))).
    { intros p' [= <-]. exists log. split; [by left | done]. }
    destruct (q_progress (query l) <? p); cbn.
    + destruct (session_commit w i _); cbn.
      * split; [|by intros l' [= <-]].
        intros rest Hrest. split; [|done]. exists log. split; [by left | done].
      * split; [|done].
        intros rest Hrest. split; [|done]. exists log. split; [by left | done].
    + split; [done|]. by intros l' [= <-].
  - destruct (progress l) as [p|] eqn:Hprog; cbn; [|by split].
    destruct (Hl' p Hprog) as (log' & Hin & Hlog').
    assert (Hp : progress_from_logs (log :: seen) (mkLocals (query l) (Some p))).
    { intros p' [= <-]. by exists log'. }
    destruct (q_progress (query l) <? p); cbn.
    + destruct (session_commit w i _); cbn.
      * split; [|by intros l' [= <-]].
        intros rest Hrest. split; [|done]. by exists log'.
      * split; [|done]. intros rest Hrest. split; [|done]. by exists log'.
    + split; [done|]. by intros l' [= <-].
Qed.

Lemma loop_body_from_logs w i qid l seen :
  progress_from_logs seen l ->
  exists seen', seen ⊆ seen' /\
    (forall rest, writes_from_logs seen' rest ->
       writes_from_logs seen
         (trace (loop_body QUERY_EARLY_CANCEL_KEY w i qid l) ++ rest)) /\
    (forall c l',
       outcome (loop_body QUERY_EARLY_CANCEL_KEY w i qid l) = Ok (c, l') ->
       progress_from_logs seen' l').
Proof.
  intros Hl. unfold loop_body, sleep_interval, time_sleep.
  destruct (session_refresh w i (query l)) as [q1|e1]; cbn.
  2: { exists seen. by split. }
  destruct (session_query_one w i q1) as [q2|e2]; cbn.
  2: { exists seen. by split. }
  destruct (early_cancel QUERY_EARLY_CANCEL_KEY q2); cbn.
  - exists seen. split; [done|].
    destruct (cursor_cancel_operation w i) as [[]|]; cbn; [|by split].
    destruct (cursor_close_operation w i) as [[]|]; cbn; [|by split].
    destruct (cursor_close w i) as [[]|]; cbn; [|by split].
    split; [done|]. by intros c l' [= <- <-].
  - destruct (update_progress_from_logs w i qid (mkLocals q2 (progress l)) seen Hl)
      as (seen' & Hsub & Htr & Hout).
    exists seen'. split; [done|].
    destruct (outcome (update_progress w i qid (mkLocals q2 (progress l))))
      as [l1|e] eqn:Ho.
    2: { rewrite (run_bind_Raise _ _ _ Ho). cbn. split; [|done]. apply Htr. }
    rewrite (run_bind_Ok _ _ _ Ho). cbn.
    destruct (DB_POLL_INTERVAL_SECONDS w) as [d|e]; cbn.
    2: { rewrite app_nil_r. split; [|done]. apply Htr. }
    destruct (default 5 (d !! engine) <? 0); cbn.
    { rewrite app_nil_r. split; [|done]. apply Htr. }
    destruct (cursor_status w (S i)) as [s|e]; cbn.
    + split.
      * intros rest Hrest. rewrite <- app_assoc. by apply Htr.
      * intros c l' [= <- <-]. by apply Hout.
    + split; [|done].
      intros rest Hrest. rewrite <- app_assoc. by apply Htr.
Qed.

Lemma while_loop_from_logs w fuel :
  forall i qid status l seen r rest,
  progress_from_logs seen l ->
  while_loop QUERY_EARLY_CANCEL_KEY fuel w i qid status l = Some r ->
  (forall s, writes_from_logs s rest) ->
  writes_from_logs seen (trace r ++ rest).
Proof.
  induction fuel as [|fuel IH]; intros i qid status l seen r rest Hl;
    cbn [while_loop].
  - destruct (is_unfinished status); [done|]. by intros [= <-] Hrest.
  - destruct (is_unfinished status); [|by intros [= <-] Hrest].
    destruct (loop_body_from_logs w i qid l seen Hl)
      as (seen' & Hsub & Htr & Hout).
    destruct (outcome (loop_body QUERY_EARLY_CANCEL_KEY w i qid l))
      as [[[|status'] l']|e] eqn:Ho.
    + intros [= <-] Hrest. cbn. by apply Htr.
    + destruct (while_loop _ fuel w (S i) qid status' l') as [r'|] eqn:Hr;
        [|done].
      intros [= <-] Hrest. cbn. rewrite <- app_assoc. apply Htr.
      eapply IH; [|done..]. by eapply Hout.
    + intros [= <-] Hrest. cbn. by apply Htr.
Qed.

(** Without a log that matches there is no write. *)
Lemma writes_from_logs_none tr : forall seen,
  writes_from_logs seen tr ->
  (forall log, log ∈ seen -> parse_progress log = None) ->
  (forall log, GetLog (Ok (Some log)) ∈ tr -> parse_progress log = None) ->
  forall old new, SetProgress old new ∉ tr.
Proof.
  induction tr as [|e tr IH]; intros seen Hw Hseen Htr old new Hin.
  { by apply elem_of_nil in Hin. }
  assert (Htr' : forall log, GetLog (Ok (Some log)) ∈ tr ->
                             parse_progress log = None).
  { intros log Hlog. apply Htr. by right. }
  apply elem_of_cons in Hin as [Heq|Hin].
  - subst e. cbn [writes_from_logs] in Hw.
    destruct Hw as [(log & Hlog & Hp) _]. by rewrite (Hseen log Hlog) in Hp.
  - destruct e as [| | | | | |[[log|]|]| | | | |];
      cbn [writes_from_logs] in Hw;
      try (by eapply (IH seen)).
    + eapply (IH (log :: seen)); [done| |done..].
      intros log' [->|Hl]%elem_of_cons; [apply Htr; by left | by apply Hseen].
    + destruct Hw as [_ Hw]. by eapply (IH seen).
Qed.

End PollingLoopLogs.

(** X16. In every run of [handle_cursor] that ends, each value written to
    [query.progress] was parsed, by the progress pattern, from a log that
    the run fetched before the write: whatever the cursor, the session and
    the other writers of the row do, nothing but a percentage read from
    Impala's log is stored. So a run none of whose logs matches the
    pattern writes nothing. *)
Theorem handle_cursor_writes_come_from_logs :
  forall (key : string) (fuel : nat) (w : Impala.World) (q : Impala.Query)
         (r : Run Impala.event unit),
  Impala.handle_cursor key fuel w q = Some r ->
  ImpalaTraces.writes_from_logs [] (trace r) /\
  ((forall log, Impala.GetLog (Ok (Some log)) ∈ trace r ->
                Impala.parse_progress log = None) ->
   forall old new, Impala.SetProgress old new ∉ trace r).
Proof.
  intros key fuel w q r Hr.
  assert (Hw : ImpalaTraces.writes_from_logs [] (trace r)).
  { apply handle_cursor_trace in Hr
      as [_ [(e & _ & ->) | (status & r' & _ & Hloop & ->)]]; [done|].
    cbn [ImpalaTraces.writes_from_logs].
    eapply while_loop_from_logs; [|done|].
    - by intros p.
    - intros s. unfold Impala.closing. by destruct (outcome r'). }
  split; [done|]. intros Hno. eapply writes_from_logs_none; [done| |done].
  by intros log Hin%elem_of_nil.
Qed.

(** The run that reads 3% and then 40% from the log. *)
Lemma handle_cursor_writes_come_from_logs_witness :
  exists r,
    Impala.handle_cursor Examples.early_cancel_key 2 Examples.world_two_polls
      Examples.query_7 = Some r /\
    ImpalaTraces.writes_from_logs [] (trace r) /\
    Impala.SetProgress 3 40 ∈ trace r.
Proof.
  eexists. split; [reflexivity|]. split.
  - apply (proj1 (handle_cursor_writes_come_from_logs
             Examples.early_cancel_key 2 Examples.world_two_polls
             Examples.query_7 _ eq_refl)).
  - vm_compute. repeat first [by left | right].
Defined.

Section PollingLoopIntervals.
Import Impala ImpalaTraces.

Variable QUERY_EARLY_CANCEL_KEY : string.

Ltac quiet_list :=
  unfold quiet; repeat (apply Forall_cons; split; [reflexivity|]);
  try apply Forall_nil; try exact I.

(** With a negative poll interval an iteration neither sleeps nor polls,
    and does not hand on to a next one. *)
Lemma loop_body_negative_interval w i qid l d :
  DB_POLL_INTERVAL_SECONDS w = Ok d -> default 5 (d !! engine) < 0 ->
  quiet (trace (loop_body QUERY_EARLY_CANCEL_KEY w i qid l)) /\
  forall s l',
    outcome (loop_body QUERY_EARLY_CANCEL_KEY w i qid l) <> Ok (Next s, l').
Proof.
  intros Hd Hneg. unfold loop_body, sleep_interval, time_sleep. rewrite Hd.
  apply Z.ltb_lt in Hneg.
  destruct (session_refresh w i (query l)) as [q1|e1]; cbn.
  2: { split; [quiet_list | done]. }
  destruct (session_query_one w i q1) as [q2|e2]; cbn.
  2: { split; [quiet_list | done]. }
  destruct (early_cancel QUERY_EARLY_CANCEL_KEY q2); cbn.
  - destruct (cursor_cancel_operation w i) as [[]|]; cbn;
      [destruct (cursor_close_operation w i) as [[]|]; cbn;
         [destruct (cursor_close w i) as [[]|]; cbn | ] | ];
      (split; [quiet_list | done]).
  - destruct (update_progress_facts w i qid (mkLocals q2 (progress l)))
      as ((Hq & _) & _).
    destruct (outcome (update_progress w i qid (mkLocals q2 (progress l))))
      as [l1|e] eqn:Ho.
    + rewrite (run_bind_Ok _ _ _ Ho). cbn. rewrite Hneg. cbn.
      rewrite app_nil_r. split; [|done].
      unfold quiet. do 2 (apply Forall_cons; split; [reflexivity|]). exact Hq.
    + rewrite (run_bind_Raise _ _ _ Ho). cbn. split; [|done].
      unfold quiet. do 2 (apply Forall_cons; split; [reflexivity|]). exact Hq.
Qed.

Lemma while_loop_negative_interval w d fuel i qid status l :
  DB_POLL_INTERVAL_SECONDS w = Ok d -> default 5 (d !! engine) < 0 ->
  (exists r, while_loop QUERY_EARLY_CANCEL_KEY (S fuel) w i qid status l = Some r) /\
  forall r, while_loop QUERY_EARLY_CANCEL_KEY fuel w i qid status l = Some r ->
            quiet (trace r).
Proof.
  intros Hd Hneg.
  destruct (loop_body_negative_interval w i qid l d Hd Hneg) as [Hq Hnext].
  split.
  - cbn [while_loop]. destruct (is_unfinished status); [|by eexists].
    destruct (outcome (loop_body QUERY_EARLY_CANCEL_KEY w i qid l))
      as [[[|s] l']|e] eqn:Ho; try by eexists.
    by destruct (Hnext s l').
  - destruct fuel as [|fuel]; cbn [while_loop];
      (destruct (is_unfinished status);
       [|intros r [= <-]; apply Forall_nil; exact I]); [done|].
    destruct (outcome (loop_body QUERY_EARLY_CANCEL_KEY w i qid l))
      as [[[|s] l']|e] eqn:Ho; try by intros r [= <-].
    by destruct (Hnext s l').
Qed.

Lemma polls_app t1 t2 : polls (t1 ++ t2) = (polls t1 + polls t2)%nat.
Proof. unfold polls. by rewrite List.filter_app, length_app. Qed.

Lemma writes_nothing_app t1 t2 :
  writes_nothing t1 -> writes_nothing t2 -> writes_nothing (t1 ++ t2).
Proof. apply Forall_app_2. Qed.

(** An iteration without a log to read, with its reloads and its poll
    answered: it sleeps, polls and hands the answer on. *)
Lemma loop_body_no_log w i qid l d q1 q2 s :
  DB_POLL_INTERVAL_SECONDS w = Ok d -> 0 <= default 5 (d !! engine) ->
  session_refresh w i (query l) = Ok q1 ->
  session_query_one w i q1 = Ok q2 ->
  early_cancel QUERY_EARLY_CANCEL_KEY q2 = false ->
  no_log (cursor_get_log w i) = true ->
  cursor_status w (S i) = Ok s ->
  outcome (loop_body QUERY_EARLY_CANCEL_KEY w i qid l)
  = Ok (Next s, mkLocals q2 (progress l)) /\
  polls (trace (loop_body QUERY_EARLY_CANCEL_KEY w i qid l)) = 1%nat /\
  (status_failed ∉ trace (loop_body QUERY_EARLY_CANCEL_KEY w i qid l)) /\
  writes_nothing (trace (loop_body QUERY_EARLY_CANCEL_KEY w i qid l)).
Proof.
  intros Hd Hpos H1 H2 Hc Hlog Hs.
  unfold loop_body, update_progress, sleep_interval, time_sleep.
  rewrite H1. cbn. rewrite H2. cbn. rewrite Hc, Hd, Hs.
  apply Z.ltb_ge in Hpos.
  destruct (cursor_get_log w i) as [[log|]|e]; cbn in Hlog |- *;
    rewrite ?Hlog; cbn; rewrite Hpos; cbn;
    (split; [done|]; split; [done|]; split;
     [ intros Hin; repeat (apply elem_of_cons in Hin as [Hin|Hin]; [done|]);
       by apply elem_of_nil in Hin
     | unfold writes_nothing;
       repeat (apply Forall_cons; split; [reflexivity|]); apply Forall_nil;
       exact I ]).
Qed.

Lemma while_loop_no_log w d qid n :
  DB_POLL_INTERVAL_SECONDS w = Ok d -> 0 <= default 5 (d !! engine) ->
  forall i status l,
  cursor_status w i = Ok status ->
  (forall k q0, (i <= k < i + n)%nat ->
     exists q1 q2, session_refresh w k q0 = Ok q1 /\
                   session_query_one w k q1 = Ok q2 /\
                   early_cancel QUERY_EARLY_CANCEL_KEY q2 = false) ->
  (forall k, (i <= k < i + n)%nat -> no_log (cursor_get_log w k) = true) ->
  (forall k, (i <= k < i + n)%nat ->
     exists s, cursor_status w k = Ok s /\ is_unfinished s = true) ->
  (exists s, cursor_status w (i + n) = Ok s /\ is_unfinished s = false) ->
  exists r l',
    while_loop QUERY_EARLY_CANCEL_KEY n w i qid status l = Some r /\
    outcome r = Ok l' /\ polls (trace r) = n /\
    (status_failed ∉ trace r) /\ writes_nothing (trace r).
Proof.
  intros Hd Hpos. induction n as [|n IH]; intros i status l Hst Hsess Hlog Hrun Hend.
  - destruct Hend as (s & Hs & Hfin). rewrite Nat.add_0_r, Hst in Hs.
    injection Hs as <-. cbn [while_loop]. rewrite Hfin.
    exists (run_ret l), l. split; [done|]. split; [done|]. split; [done|].
    split; [by intros ?%elem_of_nil | apply Forall_nil; exact I].
  - destruct (Hrun i) as (s & Hs & Hunf); [lia|]. rewrite Hst in Hs.
    injection Hs as <-. cbn [while_loop]. rewrite Hunf.
    destruct (Hsess i (query l)) as (q1 & q2 & H1 & H2 & Hc); [lia|].
    assert (Hnext : exists s', cursor_status w (S i) = Ok s').
    { destruct n as [|n].
      - destruct Hend as (s' & Hs' & _). exists s'. rewrite <- Hs'. f_equal. lia.
      - destruct (Hrun (S i)) as (s' & Hs' & _); [lia|]. by exists s'. }
    destruct Hnext as (s' & Hs').
    destruct (loop_body_no_log w i qid l d q1 q2 s' Hd Hpos H1 H2 Hc
                (Hlog i ltac:(lia)) Hs') as (Ho & Hp & Hf & Hw).
    rewrite Ho.
    destruct (IH (S i) s' (mkLocals q2 (progress l)) Hs')
      as (r & l' & Hr & Hor & Hpr & Hfr & Hwr).
    + intros k q0 Hk. apply Hsess. lia.
    + intros k Hk. apply Hlog. lia.
    + intros k Hk. apply Hrun. lia.
    + destruct Hend as (s'' & Hs'' & Hfin). exists s''. split; [|done].
      rewrite <- Hs''. f_equal. lia.
    + rewrite Hr. eexists _, l'. split; [done|]. cbn [trace outcome].
      split; [done|]. split; [by rewrite polls_app, Hp, Hpr|].
      split; [|by apply writes_nothing_app].
      by intros [?|?]%elem_of_app.
Qed.

End PollingLoopIntervals.

(** X17. With a negative poll interval for the engine, [handle_cursor]
    gives up in its first iteration: [time.sleep] refuses the interval,
    the exception is caught, and the run ends without a sleep and without
    a second call of [cursor.status()], however long the query goes on
    running. *)
Theorem handle_cursor_negative_interval_polls_once :
  forall (key : string) (w : Impala.World) (q : Impala.Query)
         (d : gmap string Z),
  Impala.DB_POLL_INTERVAL_SECONDS w = Ok d ->
  default 5 (d !! Impala.engine) < 0 ->
  (exists r, Impala.handle_cursor key 1 w q = Some r) /\
  (forall fuel r,
     Impala.handle_cursor key fuel w q = Some r ->
     exists first rest,
       trace r = Impala.CursorStatus first :: rest /\ Impala.quiet rest).
Proof.
  intros key w q d Hd Hneg. split.
  - unfold Impala.handle_cursor, Impala.polling.
    destruct (Impala.cursor_status w 0) as [status|e]; [|by eexists].
    destruct (proj1 (while_loop_negative_interval key w d 0 0 (Impala.q_id q)
                       status (Impala.mkLocals q None) Hd Hneg)) as [r ->].
    by eexists.
  - intros fuel r Hr.
    apply handle_cursor_trace in Hr
      as [_ [(e & _ & ->) | (status & r' & _ & Hloop & ->)]].
    + eexists _, _. split; [done|]. apply Forall_cons. split; [done|].
      apply Forall_nil. exact I.
    + eexists _, _. split; [done|]. apply quiet_app.
      * eapply while_loop_negative_interval; [done..|]. exact Hloop.
      * unfold Impala.closing. destruct (outcome r').
        -- apply Forall_nil. exact I.
        -- apply Forall_cons. split; [done|]. apply Forall_nil. exact I.
Qed.

(** A running query polled with an interval of minus one second. *)
Lemma handle_cursor_negative_interval_polls_once_witness :
  exists r, Impala.handle_cursor Examples.early_cancel_key 1
              MoreExamples.world_negative_interval Examples.query_7 = Some r.
Proof.
  apply (proj1 (handle_cursor_negative_interval_polls_once
           Examples.early_cancel_key MoreExamples.world_negative_interval
           Examples.query_7 {["impala" := -1]} eq_refl ltac:(vm_compute; reflexivity))).
Defined.

(** X18. Missing logs do not end the polling. When the query runs for [n]
    polls and then finishes, the poll interval is not negative, the row
    reloads without an early cancel, and each [get_log] fails or gives
    nothing, [handle_cursor] returns after [n] iterations: it has called
    [cursor.status()] [n + 1] times, has caught no exception of the loop,
    and has written nothing to the row. *)
Theorem handle_cursor_polls_through_missing_logs :
  forall (key : string) (w : Impala.World) (q : Impala.Query) (n : nat)
         (d : gmap string Z),
  Impala.DB_POLL_INTERVAL_SECONDS w = Ok d ->
  0 <= default 5 (d !! Impala.engine) ->
  (forall k q0, (k < n)%nat ->
     exists q1 q2, Impala.session_refresh w k q0 = Ok q1 /\
                   Impala.session_query_one w k q1 = Ok q2 /\
                   Impala.early_cancel key q2 = false) ->
  (forall k, (k < n)%nat ->
     ImpalaTraces.no_log (Impala.cursor_get_log w k) = true) ->
  (forall k, (k < n)%nat ->
     exists s, Impala.cursor_status w k = Ok s /\ Impala.is_unfinished s = true) ->
  (exists s, Impala.cursor_status w n = Ok s /\ Impala.is_unfinished s = false) ->
  exists r,
    Impala.handle_cursor key n w q = Some r /\
    outcome r = Ok tt /\
    ImpalaTraces.polls (trace r) = S n /\
    (Impala.status_failed ∉ trace r) /\
    ImpalaTraces.writes_nothing (trace r).
Proof.
  intros key w q n d Hd Hpos Hsess Hlog Hrun Hend.
  assert (Hfirst : exists status, Impala.cursor_status w 0 = Ok status).
  { destruct n as [|n].
    - destruct Hend as (s & Hs & _). by exists s.
    - destruct (Hrun 0%nat) as (s & Hs & _); [lia|]. by exists s. }
  destruct Hfirst as (status & Hst).
  destruct (while_loop_no_log key w d (Impala.q_id q) n Hd Hpos 0 status
              (Impala.mkLocals q None) Hst)
    as (r' & l' & Hr' & Ho & Hp & Hf & Hw).
  - intros k q0 Hk. apply Hsess. lia.
  - intros k Hk. apply Hlog. lia.
  - intros k Hk. apply Hrun. lia.
  - exact Hend.
  - unfold Impala.handle_cursor, Impala.polling. rewrite Hst, Hr'. cbn.
    unfold try_except. cbn. rewrite Ho. cbn.
    eexists. split; [done|]. cbn. split; [done|].
    split; [by rewrite <- Hp|]. split.
    + intros [?|?]%elem_of_cons; done.
    + apply Forall_cons. split; [done|]. exact Hw.
Qed.

(** Two running polls with a failing [get_log], then a finished one. *)
Lemma handle_cursor_polls_through_missing_logs_witness :
  exists r,
    Impala.handle_cursor Examples.early_cancel_key 2
      MoreExamples.world_log_fails Examples.query_7 = Some r /\
    outcome r = Ok tt /\
    ImpalaTraces.polls (trace r) = 3%nat /\
    (Impala.status_failed ∉ trace r) /\
    ImpalaTraces.writes_nothing (trace r).
Proof.
  apply (handle_cursor_polls_through_missing_logs Examples.early_cancel_key
           MoreExamples.world_log_fails Examples.query_7 2 ∅ eq_refl).
  - vm_compute. discriminate.
  - intros k q0 _. by exists q0, Examples.query_7.
  - intros k _. reflexivity.
  - intros [|[|k]] Hk; [by exists "RUNNING_STATE"..|lia].
  - by exists "FINISHED_STATE".
Defined.

(** ** Impala: the progress line *)

Section ProgressLine.
Import PyStr PyRe Impala.


Lemma int_digits_nonneg s : forall acc,
  0 <= acc -> forallb_str is_digit s = true -> 0 <= int_digits acc s.
Proof.
  induction s as [|c s IH]; intros acc Hacc; [done|]. cbn.
  intros [Hc Hs]%andb_true_iff. apply IH; [|done].
  unfold is_digit in Hc. unfold digit_value.
  apply andb_true_iff in Hc as [Hc _]. apply Nat.leb_le in Hc. lia.
Qed.




(** The pattern after its [.*]: a colon, a blank, the digits and the
    percent sign. *)
Lemma percent_match_sound whole s g :
  match_here whole
    (Lit ": " &> Group "query_progress" (Plus Digit) &> Lit "%")%re s []
    accept = Some g ->
  exists ds rest,
    s = ": " +:+ ds +:+ "%" +:+ rest /\ ds <> "" /\
    forallb_str is_digit ds = true /\ g = [("query_progress", ds)].
Proof.
  cbn [match_here]. destruct (startswith ": " s) eqn:Hs; [|done].
  apply startswith_spec in Hs as [t ->]. rewrite str_drop_app.
  destruct t as [|a t]; [done|]. destruct (in_class Digit a) eqn:Ha; [|done].
  intros H. apply star_greedy_sound in H as (s1 & s2 & -> & Hd & H).
  destruct (startswith "%" s2) eqn:Hp; [|done].
  apply startswith_spec in Hp as [rest ->]. injection H as <-.
  exists (String a s1), rest. split; [by rewrite !str_app_cons|].
  split; [done|]. split.
  { cbn [forallb_str]. apply andb_true_iff. split; [exact Ha | exact Hd]. }
  cbn [app]. do 2 f_equal.
  exact (str_take_app_length (String a s1) ("%" +:+ rest)).
Qed.




(** [parse_progress], by the shape of the log. *)
Lemma parse_progress_unfold log :
  parse_progress log
  = if startswith "Query" log then
      match star_greedy (in_class AnyChar) (drop 5 log)
              (fun s' =>
                 match_here log
                   (Lit ": " &> Group "query_progress" (Plus Digit) &> Lit "%")%re
                   s' [] accept) with
      | Some g => option_map int (group "query_progress" g)
      | None => None
      end
    else None.
Proof.
  unfold parse_progress, re_match, QUERY_PROGRESS_REGEX.
  cbn [match_here]. by destruct (startswith "Query" log).
Qed.

End ProgressLine.

(** X19. When [parse_progress] reads a percentage from a log, the log
    starts with [Query], goes on within its first line to a colon and a
    blank, and has there a run of digits followed by a percent sign; the
    percentage is the number these digits write, and it is not
    negative. *)
Theorem parse_progress_reads_a_percentage :
  forall (log : string) (p : Z),
  Impala.parse_progress log = Some p ->
  exists id ds rest,
    log = "Query" +:+ id +:+ ": " +:+ ds +:+ "%" +:+ rest /\
    PyStr.forallb_str (PyRe.in_class PyRe.AnyChar) id = true /\
    ds <> "" /\ PyStr.forallb_str PyStr.is_digit ds = true /\
    p = PyStr.int ds /\ 0 <= p.
Proof.
  intros log p. rewrite parse_progress_unfold.
  destruct (PyStr.startswith "Query" log) eqn:Hq; [|done].
  apply startswith_spec in Hq as [t ->].
  change 5%nat with (String.length "Query"). rewrite str_drop_app.
  destruct (PyRe.star_greedy _ t _) as [g|] eqn:Hg; [|done].
  apply star_greedy_sound in Hg as (id & s2 & -> & Hid & Hm).
  apply percent_match_sound in Hm as (ds & rest & -> & Hne & Hd & ->).
  cbn. intros [= <-]. exists id, ds, rest.
  split; [done|]. split; [done|]. split; [done|]. split; [done|].
  split; [done|]. by apply int_digits_nonneg.
Qed.

(** The line of Impala's log quoted in [impala.py]. *)
Lemma parse_progress_reads_a_percentage_witness :
  exists id ds rest,
    "Query 5543ffdf692b7d02:f78a944000000000: 3% Complete (17 out of 547)"
    = "Query" +:+ id +:+ ": " +:+ ds +:+ "%" +:+ rest /\
    PyStr.forallb_str (PyRe.in_class PyRe.AnyChar) id = true /\
    ds <> "" /\ PyStr.forallb_str PyStr.is_digit ds = true /\
    3 = PyStr.int ds /\ 0 <= 3.
Proof.
  apply (parse_progress_reads_a_percentage
           "Query 5543ffdf692b7d02:f78a944000000000: 3% Complete (17 out of 547)"
           3).
  reflexivity.
Defined.



(** ** Feature flags, from the environment to the loaded configuration *)

(** X21. A feature flag set through the environment reaches the loaded
    configuration. When the whole file has run without an error and the
    override in force does not rebind [DEFAULT_FEATURE_FLAGS], the
    configuration holds a dict of flags under that name, in which every
    flag named by a variable [SUPERSET_FEATURE_<flag>] of the environment
    has the value parsed from the variable. *)
Theorem environment_flag_reaches_loaded_config :
  forall (parse_boolean_string : string -> bool)
         (environ : gmap string string) (imp : Config.Importer)
         (others final : gmap string Config.value)
         (name value flag : string),
  Config.load_config parse_boolean_string environ imp others = Ok final ->
  (forall override,
     Config.override_in_force environ imp = Some override ->
     override !! "DEFAULT_FEATURE_FLAGS" = None) ->
  environ !! name = Some value ->
  Config.names_feature_flag name flag ->
  exists flags,
    final !! "DEFAULT_FEATURE_FLAGS" = Some (Config.VFlags flags) /\
    flags !! flag = Some (parse_boolean_string value).
Proof.
  intros parse environ imp others final name value flag Hload Hfree Henv Hname.
  exists (Config.DEFAULT_FEATURE_FLAGS parse environ). split.
  - by apply (feature_flags_after_load parse environ imp others final).
  - unfold Config.DEFAULT_FEATURE_FLAGS, Config.dict_update.
    apply lookup_union_Some_l, environ_feature_flags_lookup.
    by exists name, value.
Qed.

(** [SUPERSET_FEATURE_ALERT_REPORTS=true] in the environment, and a
    [superset_config] that leaves the flags alone. *)
Lemma environment_flag_reaches_loaded_config_witness :
  exists final flags,
    Config.load_config Examples.parse_bool Examples.environ_alerts_on
      (Examples.importer_module Examples.override_with_helper) ∅ = Ok final /\
    final !! "DEFAULT_FEATURE_FLAGS" = Some (Config.VFlags flags) /\
    flags !! "ALERT_REPORTS" = Some true.
Proof.
  evar (final : gmap string Config.value).
  destruct (environment_flag_reaches_loaded_config Examples.parse_bool
              Examples.environ_alerts_on
              (Examples.importer_module Examples.override_with_helper) ∅ final
              "SUPERSET_FEATURE_ALERT_REPORTS" "true" "ALERT_REPORTS")
    as (flags & Hf & Hflag).
  - subst final. reflexivity.
  - intros override Ho. vm_compute in Ho. injection Ho as <-.
    vm_compute. reflexivity.
  - vm_compute. reflexivity.
  - split; [reflexivity|]. by exists "A"%char, "LERT_REPORTS".
  - exists final, flags. split; [reflexivity|]. split; [exact Hf | exact Hflag].
Defined.
